(** * The reconciliation engine of deepagent.py

    A shallow embedding of [execute_reconciliation] (src/deepagent.py,
    lines 24-107) and the properties its specification states about it.

    Modelling choices.
    - Amounts. The engine is embedded twice. The proofs are about amounts
      as rationals ([Q]), the decimal values of the CSV cells, with the
      comparisons and the arithmetic of the source carried out exactly.
      The module [Binary64] is the same engine on binary64 floats, with the
      arithmetic of numpy and Python; runs are evaluated in it. The two
      differ only where the last bits decide: an amount exactly at a
      tolerance, a difference exactly halfway between two cents. General
      statements about tolerances therefore carry a margin, and what a
      statement says about the code at such an input is shown on a run in
      [Binary64].
    - A date is the calendar day [pd.to_datetime] yields for the [std_date]
      cell, counted in days ([Z]); the normalised files carry dates without
      a time of day ("%Y-%m-%d", src/dummy_data.py lines 139-140), so
      [(d_b - d_l).days] is the difference of the two day numbers.
    - A frame read by [pd.read_csv] has a [RangeIndex]: the label of a row is
      its position, and [iterrows] yields the rows in input order.
    - The two Python sets [matched_l] and [matched_b] are any implementation
      of stdpp's set interface with a decidable membership test; [gset nat]
      is the one the examples run on.
    - Each element of the Python list [matches] is kept together with the
      index labels of the rows it was built from. These labels are not
      columns of the report; they only say which rows an entry speaks of. *)

From Stdlib Require Import ZArith QArith Qabs Lqa.
From Stdlib Require Floats.
From stdpp Require Import base decidable option list sets gmap listset strings pretty.

Local Open Scope Q_scope.

(** ** Rows and frames *)

(** A row of a normalised file: the columns [std_date], [std_desc],
    [std_amt] the engine reads. *)
Record Row := mkRow {
  std_date : Z;
  std_desc : string;
  std_amt : Q
}.

(** A frame is the list of its rows. *)
Abbreviation DataFrame := (list Row).

(** Lines 40-41: [df['abs_amt'] = df['std_amt'].abs()]. *)
Definition abs_amt (r : Row) : Q := Qabs (std_amt r).

(** [df.iterrows()]: the pairs (index label, row), in input order. *)
Definition iterrows (df : DataFrame) : list (nat * Row) :=
  imap (λ idx row, (idx, row)) df.

(** ** Decidable comparisons on amounts *)

#[global] Instance Qle_dec (x y : Q) : Decision (x <= y).
Proof. unfold Qle. apply _. Defined.

#[global] Instance Qlt_dec (x y : Q) : Decision (x < y).
Proof. unfold Qlt. apply _. Defined.

(** [np.isclose(a, b, atol=...)] with numpy's default [rtol = 1e-05]:
    [|a - b| <= atol + rtol * |b|]. *)
Definition rtol : Q := 0.00001.

Definition isclose (a b atol : Q) : Prop :=
  Qabs (a - b) <= atol + rtol * Qabs b.

#[global] Instance isclose_dec a b atol : Decision (isclose a b atol).
Proof. unfold isclose. apply _. Defined.

(** [abs((d_b - d_l).days) <= 5] *)
Definition days (row_b row_l : Row) : Z := (std_date row_b - std_date row_l)%Z.

Definition within_5_days (row_l : Row) (c : nat * Row) : Prop :=
  (Z.abs (days c.2 row_l) ≤ 5)%Z.

#[global] Instance within_5_days_dec row_l c : Decision (within_5_days row_l c).
Proof. unfold within_5_days. apply _. Defined.

(** Python's [round(x, ndigits)]: to the nearest multiple of
    [10^-ndigits], ties to the even one. *)
Definition round_half_even (x : Q) : Z :=
  let n := Qnum x in
  let d := Z.pos (Qden x) in
  let q := (n / d)%Z in
  let r := (n mod d)%Z in
  match (2 * r ?= d)%Z with
  | Lt => q
  | Eq => if Z.even q then q else (q + 1)%Z
  | Gt => (q + 1)%Z
  end.

Definition round (x : Q) (ndigits : nat) : Q :=
  let scale := (10 ^ Z.of_nat ndigits)%Z in
  Qmake (round_half_even (x * inject_Z scale)) (Z.to_pos scale).

(** ** Report rows *)

(** One dict appended to [matches]; a key the dict does not have is [None]
    (an empty cell of the report). *)
Record ReportRow := mkReportRow {
  Match_Quality : string;
  Bank_Date : option Z;
  Bank_Desc : option string;
  Bank_Amt : option Q;
  Ledger_Date : option Z;
  Ledger_Desc : option string;
  Ledger_Amt : option Q;
  Difference : option Q
}.

(** An element of [matches] with the labels of the rows it was built from. *)
Record Entry := mkEntry {
  of_bank : option nat;
  of_ledger : option nat;
  fields : ReportRow
}.

(** Lines 62-67. *)
Definition exact_dict (row_b row_l : Row) : ReportRow :=
  {| Match_Quality := "Exact Match";
     Bank_Date := Some (std_date row_b); Bank_Desc := Some (std_desc row_b);
     Bank_Amt := Some (std_amt row_b);
     Ledger_Date := Some (std_date row_l); Ledger_Desc := Some (std_desc row_l);
     Ledger_Amt := Some (std_amt row_l);
     Difference := Some 0 |}.

(** Lines 86-91. *)
Definition fee_dict (row_b row_l : Row) : ReportRow :=
  {| Match_Quality := "Partial Match (Fee)";
     Bank_Date := None; Bank_Desc := Some (std_desc row_b);
     Bank_Amt := Some (std_amt row_b);
     Ledger_Date := None; Ledger_Desc := Some (std_desc row_l);
     Ledger_Amt := Some (std_amt row_l);
     Difference := Some (round (abs_amt row_b - abs_amt row_l) 2) |}.

(** Line 99. *)
Definition unmatched_bank_dict (row_b : Row) : ReportRow :=
  {| Match_Quality := "Unmatched Bank";
     Bank_Date := Some (std_date row_b); Bank_Desc := Some (std_desc row_b);
     Bank_Amt := Some (std_amt row_b);
     Ledger_Date := None; Ledger_Desc := None; Ledger_Amt := None;
     Difference := None |}.

(** Line 103. *)
Definition unmatched_ledger_dict (row_l : Row) : ReportRow :=
  {| Match_Quality := "Unmatched Ledger";
     Bank_Date := None; Bank_Desc := None; Bank_Amt := None;
     Ledger_Date := Some (std_date row_l); Ledger_Desc := Some (std_desc row_l);
     Ledger_Amt := Some (std_amt row_l);
     Difference := None |}.

Definition exact_entry (idx_b : nat) (row_b : Row) (idx_l : nat) (row_l : Row) : Entry :=
  mkEntry (Some idx_b) (Some idx_l) (exact_dict row_b row_l).

Definition fee_entry (idx_b : nat) (row_b : Row) (idx_l : nat) (row_l : Row) : Entry :=
  mkEntry (Some idx_b) (Some idx_l) (fee_dict row_b row_l).

Definition unmatched_bank_entry (c : nat * Row) : Entry :=
  mkEntry (Some c.1) None (unmatched_bank_dict c.2).

Definition unmatched_ledger_entry (c : nat * Row) : Entry :=
  mkEntry None (Some c.1) (unmatched_ledger_dict c.2).

(** ** The engine *)

(** Lines 43-45: the three mutable objects of a run. *)
Record State (C : Type) := mkState {
  matches : list Entry;
  matched_l : C;
  matched_b : C
}.
Arguments mkState {C} _ _ _.
Arguments matches {C} _.
Arguments matched_l {C} _.
Arguments matched_b {C} _.

Section engine.
Context {C : Type}.
Context `{ElemOf nat C, Empty C, Singleton nat C, Union C}.
Context `{!RelDecision (∈@{C})}.

(** Lines 53 and 76: [df_b[~df_b.index.isin(matched_b)]]. *)
Definition candidates (df_b : DataFrame) (mb : C) : list (nat * Row) :=
  filter (λ c, c.1 ∉ mb) (iterrows df_b).

(** Line 54. *)
Definition exact (df_b : DataFrame) (mb : C) (row_l : Row) : list (nat * Row) :=
  filter (λ c, isclose (abs_amt c.2) (abs_amt row_l) 0.01) (candidates df_b mb).

(** Lines 78-81. *)
Definition fee_candidates (df_b : DataFrame) (mb : C) (row_l : Row)
    : list (nat * Row) :=
  filter (λ c, abs_amt c.2 < abs_amt row_l ∧ abs_amt c.2 > abs_amt row_l * 0.96)
         (candidates df_b mb).

(** Lines 51-70: the body of the first loop for one ledger row. The inner
    loop stops at the first row of [exact] within the date window. *)
Definition exact_row (df_b : DataFrame) (st : State C) (cur : nat * Row) : State C :=
  let '(idx_l, row_l) := cur in
  if decide (idx_l ∈ matched_l st) then st
  else
    match list_find (within_5_days row_l) (exact df_b (matched_b st) row_l) with
    | Some (_, (idx_b, row_b)) =>
        {| matches := matches st ++ [exact_entry idx_b row_b idx_l row_l];
           matched_l := {[ idx_l ]} ∪ matched_l st;
           matched_b := {[ idx_b ]} ∪ matched_b st |}
    | None => st
    end.

(** Lines 74-94: the body of the second loop for one ledger row. *)
Definition fee_row (df_b : DataFrame) (st : State C) (cur : nat * Row) : State C :=
  let '(idx_l, row_l) := cur in
  if decide (idx_l ∈ matched_l st) then st
  else if decide (abs_amt row_l > 0) then
    match list_find (within_5_days row_l)
                    (fee_candidates df_b (matched_b st) row_l) with
    | Some (_, (idx_b, row_b)) =>
        {| matches := matches st ++ [fee_entry idx_b row_b idx_l row_l];
           matched_l := {[ idx_l ]} ∪ matched_l st;
           matched_b := {[ idx_b ]} ∪ matched_b st |}
    | None => st
    end
  else st.

(** Lines 50-70. *)
Definition exact_match_pass (df_l df_b : DataFrame) (st : State C) : State C :=
  foldl (exact_row df_b) st (iterrows df_l).

(** Lines 73-94. *)
Definition fee_match_pass (df_l df_b : DataFrame) (st : State C) : State C :=
  foldl (fee_row df_b) st (iterrows df_l).

(** Lines 97-99. *)
Definition unmatched_bank (df_b : DataFrame) (st : State C) : list Entry :=
  unmatched_bank_entry <$> filter (λ c, c.1 ∉ matched_b st) (iterrows df_b).

(** Lines 101-103. *)
Definition unmatched_ledger (df_l : DataFrame) (st : State C) : list Entry :=
  unmatched_ledger_entry <$> filter (λ c, c.1 ∉ matched_l st) (iterrows df_l).

(** Lines 43-45. *)
Definition initial : State C :=
  {| matches := []; matched_l := ∅; matched_b := ∅ |}.

(** The state after the two matching loops. *)
Definition matched (df_l df_b : DataFrame) : State C :=
  fee_match_pass df_l df_b (exact_match_pass df_l df_b initial).

(** Lines 43-103: the list [matches] when the function reaches line 105. *)
Definition reconcile (df_l df_b : DataFrame) : list Entry :=
  let st := matched df_l df_b in
  matches st ++ unmatched_bank df_b st ++ unmatched_ledger df_l st.
End engine.

(** ** Reading the inputs and reporting *)

(** What [pd.read_csv] does with a path: it raises (the text of the
    exception is kept) or yields a frame. *)
Inductive ReadResult :=
  | Raises (e : string)
  | Frame (df : DataFrame).

Definition Files := string → ReadResult.

Definition read_csv (fs : Files) (path : string) : ReadResult := fs path.

(** What a call leaves behind: the string it returns and, when line 106 is
    reached, the rows written to the report. *)
Record Outcome := mkOutcome {
  returned : string;
  report : option (list ReportRow)
}.

Definition output_path : string := "Reconciliation_Report.xlsx".

(** [df.empty] *)
Definition empty (df : DataFrame) : bool :=
  match df with [] => true | _ => false end.

Section run.
Context (C : Type).
Context `{ElemOf nat C, Empty C, Singleton nat C, Union C}.
Context `{!RelDecision (∈@{C})}.

(** Lines 24-107. *)
Definition execute_reconciliation (fs : Files)
    (norm_ledger_path norm_bank_path : string) : Outcome :=
  match read_csv fs norm_ledger_path with
  | Raises e => mkOutcome ("ERROR: Could not read files. " +:+ e) None
  | Frame df_l =>
    match read_csv fs norm_bank_path with
    | Raises e => mkOutcome ("ERROR: Could not read files. " +:+ e) None
    | Frame df_b =>
      if empty df_l || empty df_b
      then mkOutcome "ERROR: One of the normalized files is empty." None
      else
        let matches := reconcile (C:=C) df_l df_b in
        mkOutcome ("SUCCESS: Report generated at " +:+ output_path +:+ " with "
                   +:+ pretty (length matches) +:+ " rows.")
                  (Some (fields <$> matches))
    end
  end.
End run.

(** ** Vocabulary of the statements *)

(** The labels of the ledger rows, and of the bank rows, the entries of a
    list speak of, with repetitions and in the order of the entries. *)
Definition ledger_ids (es : list Entry) : list nat := omap of_ledger es.
Definition bank_ids (es : list Entry) : list nat := omap of_bank es.

(** An entry that binds a bank row to a ledger row of the two frames. *)
Inductive pairing (df_l df_b : DataFrame) : Entry → Prop :=
  | pairing_exact idx_b row_b idx_l row_l :
      df_b !! idx_b = Some row_b →
      df_l !! idx_l = Some row_l →
      isclose (abs_amt row_b) (abs_amt row_l) 0.01 →
      within_5_days row_l (idx_b, row_b) →
      pairing df_l df_b (exact_entry idx_b row_b idx_l row_l)
  | pairing_fee idx_b row_b idx_l row_l :
      df_b !! idx_b = Some row_b →
      df_l !! idx_l = Some row_l →
      abs_amt row_l > 0 →
      abs_amt row_b < abs_amt row_l →
      abs_amt row_b > abs_amt row_l * 0.96 →
      within_5_days row_l (idx_b, row_b) →
      pairing df_l df_b (fee_entry idx_b row_b idx_l row_l).

(** An entry that reports one row of one frame as unmatched. *)
Inductive residual (df_l df_b : DataFrame) : Entry → Prop :=
  | residual_bank idx_b row_b :
      df_b !! idx_b = Some row_b →
      residual df_l df_b (unmatched_bank_entry (idx_b, row_b))
  | residual_ledger idx_l row_l :
      df_l !! idx_l = Some row_l →
      residual df_l df_b (unmatched_ledger_entry (idx_l, row_l)).

(** A bank row the first loop may bind to [row_l]: a row of the list
    [exact] (unclaimed and close in amount) that passes the date test. *)
Definition exact_match_candidate {C : Type} `{ElemOf nat C}
    `{!RelDecision (∈@{C})}
    (df_b : DataFrame) (mb : C) (row_l : Row) (c : nat * Row) : Prop :=
  c ∈ exact df_b mb row_l ∧ within_5_days row_l c.

(** A bank row the second loop may bind to [row_l]: a row of the list
    [fee_candidates] that passes the date test. *)
Definition fee_match_candidate {C : Type} `{ElemOf nat C}
    `{!RelDecision (∈@{C})}
    (df_b : DataFrame) (mb : C) (row_l : Row) (c : nat * Row) : Prop :=
  c ∈ fee_candidates df_b mb row_l ∧ within_5_days row_l c.

(** The state of a run agrees with the entries emitted so far: the two sets
    hold the labels of the rows the entries bind, and no row is bound
    twice. *)
Record consistent {C : Type} `{ElemOf nat C}
    (df_l df_b : DataFrame) (st : State C) : Prop := mkConsistent {
  consistent_pairings : Forall (pairing df_l df_b) (matches st);
  consistent_l : ∀ i, i ∈ matched_l st ↔ i ∈ ledger_ids (matches st);
  consistent_b : ∀ j, j ∈ matched_b st ↔ j ∈ bank_ids (matches st);
  consistent_NoDup_l : NoDup (ledger_ids (matches st));
  consistent_NoDup_b : NoDup (bank_ids (matches st))
}.

(** Two states over two implementations of the sets that cannot be told
    apart by the engine: the same entries, the same members. *)
Definition same_state {C1 C2 : Type} `{ElemOf nat C1, ElemOf nat C2}
    (st1 : State C1) (st2 : State C2) : Prop :=
  matches st1 = matches st2
  ∧ (∀ i, i ∈ matched_l st1 ↔ i ∈ matched_l st2)
  ∧ (∀ j, j ∈ matched_b st1 ↔ j ∈ matched_b st2).

(** ** Sample inputs *)

Definition A_ledger : DataFrame := [mkRow 20098 "Invoice 7" 500.00].
Definition A_bank : DataFrame := [mkRow 20100 "ACH CREDIT 7" 500.00].

Definition B_ledger : DataFrame :=
  [mkRow 20098 "Client Invoice #1001 (Stripe)" 1250.00].
Definition B_bank : DataFrame :=
  [mkRow 20100 "STRIPE PAYOUT TRANSFER 8823" 1213.45].

Definition wire_ledger : Row := mkRow 20098 "Wire out" 1000.00.
Definition wire_bank : Row := mkRow 20098 "WIRE 7731" (-1000.011).

Definition edge_ledger : Row := mkRow 20098 "Slack Expense" 250.00.
Definition edge_bank : Row := mkRow 20103 "POS DEBIT SLACK" (-250.01).

Definition void_ledger : Row := mkRow 20100 "Voided entry" 0.
Definition cent_bank : Row := mkRow 20103 "INTEREST ADJ" 0.01.

Definition gross_ledger : Row := mkRow 20098 "Invoice #88" 100.00.
Definition net_bank : Row := mkRow 20099 "PAYPAL TRANSFER" 96.01.

(** Two banks rows that both fit [edge_ledger]; the second is the closer
    one in amount and in date. *)
Definition two_fits : DataFrame :=
  [mkRow 20103 "POS DEBIT SLACK" (-250.01); mkRow 20098 "SLACK" (-250.00)].

(** A folder holding the two normalised files of scenario B, and one
    holding an unreadable ledger and an empty bank file. *)
Definition sample_files : Files := λ path,
  if decide (path = "temp_norm_ledger.csv") then Frame B_ledger
  else if decide (path = "temp_norm_bank.csv") then Frame B_bank
  else Raises "[Errno 2] No such file or directory".

Definition other_files : Files := λ path,
  if decide (path = "ledger.csv") then Frame B_ledger
  else if decide (path = "bank.csv") then Frame B_bank
  else Frame [].

Definition broken_files : Files := λ path,
  if decide (path = "temp_norm_bank.csv") then Frame []
  else Raises "No columns to parse from file".

(** A ledger and a bank file with one row for each kind of entry. *)
Definition mixed_ledger : DataFrame :=
  [edge_ledger; gross_ledger; mkRow 20116 "Payment to Contractor (Check #404)" 1500.00].
Definition mixed_bank : DataFrame :=
  [mkRow 20108 "MIDJOURNEY SUBSCRIP CA" (-30.00); edge_bank; net_bank].

(** Closing a decidable goal on closed terms by evaluation. *)
Ltac by_computation := apply (bool_decide_unpack _); vm_compute; exact I.

(** ** Further vocabulary *)

(** [st'] continues [st]: the entries of [st] are still there, in front,
    and every row claimed in [st] is still claimed. *)
Definition extends {C : Type} `{ElemOf nat C} (st st' : State C) : Prop :=
  matches st `prefix_of` matches st'
  ∧ (∀ i, i ∈ matched_l st → i ∈ matched_l st')
  ∧ (∀ j, j ∈ matched_b st → j ∈ matched_b st').

(** Nothing is left for the ledger row [c] in state [st]: it is claimed, or
    no bank row is a candidate for it. *)
Definition exact_settled {C : Type} `{ElemOf nat C} `{!RelDecision (∈@{C})}
    (df_b : DataFrame) (st : State C) (c : nat * Row) : Prop :=
  (c.1 ∉ matched_l st) →
  ∀ c', ¬ exact_match_candidate df_b (matched_b st) c.2 c'.

Definition fee_settled {C : Type} `{ElemOf nat C} `{!RelDecision (∈@{C})}
    (df_b : DataFrame) (st : State C) (c : nat * Row) : Prop :=
  (c.1 ∉ matched_l st) →
  ∀ c', ¬ fee_match_candidate df_b (matched_b st) c.2 c'.

(** A report row and an entry with the signs of the two amounts dropped. *)
Definition unsigned (r : ReportRow) : ReportRow :=
  {| Match_Quality := Match_Quality r;
     Bank_Date := Bank_Date r; Bank_Desc := Bank_Desc r;
     Bank_Amt := Qabs <$> Bank_Amt r;
     Ledger_Date := Ledger_Date r; Ledger_Desc := Ledger_Desc r;
     Ledger_Amt := Qabs <$> Ledger_Amt r;
     Difference := Difference r |}.

Definition unsigned_entry (e : Entry) : Entry :=
  mkEntry (of_bank e) (of_ledger e) (unsigned (fields e)).

(** Two states that differ in the signs of the amounts carried only. *)
Definition alike {C : Type} `{ElemOf nat C} (st' st : State C) : Prop :=
  unsigned_entry <$> matches st' = unsigned_entry <$> matches st
  ∧ (∀ i, i ∈ matched_l st' ↔ i ∈ matched_l st)
  ∧ (∀ j, j ∈ matched_b st' ↔ j ∈ matched_b st).

(** A rewriting of rows that keeps the date, the description and the
    unsigned amount: it may only change the sign of the amount. *)
Definition keeps_unsigned (f : Row → Row) : Prop :=
  ∀ r, std_date (f r) = std_date r ∧ std_desc (f r) = std_desc r
       ∧ abs_amt (f r) = abs_amt r.

(** The row with the sign of its amount changed. *)
Definition negate (r : Row) : Row :=
  mkRow (std_date r) (std_desc r) (- std_amt r).

(** The entries that bind the rows of two frames position by position. *)
Definition diagonal (df_l df_b : DataFrame) : list Entry :=
  imap (λ i p, exact_entry i p.2 i p.1) (zip df_l df_b).

(** ** The data generator (src/dummy_data.py) *)

(** [date.weekday()] of the day numbered [d] from 1970-01-01, a Thursday:
    Monday is 0 and Sunday is 6. *)
Definition weekday (d : Z) : Z := ((d + 3) mod 7)%Z.

(** Lines 14-23. The number drawn by [random.randint(min_lag, max_lag)] is
    the argument [lag]. *)
Definition get_business_day_lag (date_obj : Z) (lag : Z) : Z :=
  let cleared_date := (date_obj + lag)%Z in
  if (5 <=? weekday cleared_date)%Z
  then (cleared_date + (7 - weekday cleared_date))%Z
  else cleared_date.

(** Lines 52-53, for a gross amount. *)
Definition stripe_fee (gross_amount : Q) : Q := gross_amount * 0.029 + 0.30.

Definition net_deposit (gross_amount : Q) : Q :=
  round (gross_amount - stripe_fee gross_amount) 2.

(** A report row that binds two rows. *)
Definition is_match (r : ReportRow) : Prop :=
  Match_Quality r = "Exact Match" ∨ Match_Quality r = "Partial Match (Fee)".

#[global] Instance is_match_dec (r : ReportRow) : Decision (is_match r).
Proof. unfold is_match. apply _. Defined.

(** ** Further sample inputs *)

Definition stray_ledger : Row := mkRow 20100 "Payment to Contractor (Check #404)" 1500.00.
Definition stray_bank : Row := mkRow 20102 "MIDJOURNEY SUBSCRIP CA" (-30.00).

(** A ledger row dated Tuesday 2025-01-14 and the bank row cleared with a
    lag of 4 days. *)
Definition tuesday_ledger : Row := mkRow 20102 "Uber Expense" 61.20.
Definition monday_bank : Row := mkRow 20108 "ACH W/D UBER" (-61.20).

(** A ledger row and two bank rows whose unsigned amounts are 0.125 and
    0.375 below it: both differences are halfway between two multiples of
    0.01, and both are binary fractions. *)
Definition tie_ledger : Row := mkRow 20098 "Invoice #12" 100.00.
Definition tie_bank_12 : Row := mkRow 20099 "PAYPAL TRANSFER 12" 99.875.
Definition tie_bank_38 : Row := mkRow 20099 "PAYPAL TRANSFER 38" 99.625.

(** ** The engine on binary64 amounts

    The same function with the amounts as pandas holds them: binary64
    floats, every sum, difference and product rounded to the nearest
    float. A cell of the file is the float nearest to its decimal text.
    The runs of this module show what the arithmetic of the source gives
    at the edges of the tolerances, where it departs from the exact
    arithmetic of the embedding above. *)
Module Binary64.
Import PrimFloat FloatOps SpecFloat.
#[local] Set Warnings "-inexact-float".

Record Row := mkRow {
  std_date : Z;
  std_desc : string;
  std_amt : float
}.

(** Lines 40-41. *)
Definition abs_amt (r : Row) : float := abs (std_amt r).

Definition iterrows (df : list Row) : list (nat * Row) :=
  imap (λ idx row, (idx, row)) df.

(** [np.isclose(a, b, atol=...)] with the default [rtol = 1e-05]: for two
    finite numbers [|a - b| <= atol + rtol * |b|], each operation in
    binary64; otherwise [a == b]. *)
Definition rtol : float := 0.00001%float.

Definition isclose (a b atol : float) : bool :=
  if is_finite a && is_finite b
  then (abs (a - b) <=? atol + rtol * abs b)%float
  else (a =? b)%float.

Definition days (row_b row_l : Row) : Z := (std_date row_b - std_date row_l)%Z.

Definition within_5_days (row_l : Row) (c : nat * Row) : Prop :=
  (Z.abs (days c.2 row_l) ≤ 5)%Z.

#[global] Instance within_5_days_decision row_l c :
  Decision (within_5_days row_l c).
Proof. unfold within_5_days. apply _. Defined.

(** The number a finite float stands for. *)
Definition value (x : float) : Q :=
  match Prim2SF x with
  | S754_finite s m e =>
      let n := if s then Z.neg m else Z.pos m in
      match e with
      | Z.neg p => Qmake n (2 ^ p)
      | _ => inject_Z (n * 2 ^ e)
      end
  | _ => 0
  end.

(** The float nearest to [k / scale], ties to even; a zero keeps the
    sign [s]. *)
Definition nearest (s : bool) (k : Z) (scale : positive) : float :=
  match Z.abs k with
  | Z.pos m =>
      SF2Prim (SFdiv prec emax (S754_finite s m 0) (S754_finite false scale 0))
  | _ => SF2Prim (S754_zero s)
  end.

(** Python's [round(x, ndigits)] on a float: the decimal with [ndigits]
    places nearest to the number [x] stands for, ties to even, read back
    as a float; infinities and NaN are returned as they are. *)
Definition round (x : float) (ndigits : nat) : float :=
  match Prim2SF x with
  | S754_finite s _ _ =>
      let scale := (10 ^ Z.of_nat ndigits)%Z in
      nearest s (round_half_even (value x * inject_Z scale)) (Z.to_pos scale)
  | _ => x
  end.

Record ReportRow := mkReportRow {
  Match_Quality : string;
  Bank_Date : option Z;
  Bank_Desc : option string;
  Bank_Amt : option float;
  Ledger_Date : option Z;
  Ledger_Desc : option string;
  Ledger_Amt : option float;
  Difference : option float
}.

Record Entry := mkEntry {
  of_bank : option nat;
  of_ledger : option nat;
  fields : ReportRow
}.

(** Lines 62-67. *)
Definition exact_dict (row_b row_l : Row) : ReportRow :=
  {| Match_Quality := "Exact Match";
     Bank_Date := Some (std_date row_b); Bank_Desc := Some (std_desc row_b);
     Bank_Amt := Some (std_amt row_b);
     Ledger_Date := Some (std_date row_l); Ledger_Desc := Some (std_desc row_l);
     Ledger_Amt := Some (std_amt row_l);
     Difference := Some 0%float |}.

(** Lines 86-91. *)
Definition fee_dict (row_b row_l : Row) : ReportRow :=
  {| Match_Quality := "Partial Match (Fee)";
     Bank_Date := None; Bank_Desc := Some (std_desc row_b);
     Bank_Amt := Some (std_amt row_b);
     Ledger_Date := None; Ledger_Desc := Some (std_desc row_l);
     Ledger_Amt := Some (std_amt row_l);
     Difference := Some (round (abs_amt row_b - abs_amt row_l)%float 2) |}.

(** Line 99. *)
Definition unmatched_bank_dict (row_b : Row) : ReportRow :=
  {| Match_Quality := "Unmatched Bank";
     Bank_Date := Some (std_date row_b); Bank_Desc := Some (std_desc row_b);
     Bank_Amt := Some (std_amt row_b);
     Ledger_Date := None; Ledger_Desc := None; Ledger_Amt := None;
     Difference := None |}.

(** Line 103. *)
Definition unmatched_ledger_dict (row_l : Row) : ReportRow :=
  {| Match_Quality := "Unmatched Ledger";
     Bank_Date := None; Bank_Desc := None; Bank_Amt := None;
     Ledger_Date := Some (std_date row_l); Ledger_Desc := Some (std_desc row_l);
     Ledger_Amt := Some (std_amt row_l);
     Difference := None |}.

(** Lines 43-45, the two sets as [gset nat]. *)
Record State := mkState {
  matches : list Entry;
  matched_l : gset nat;
  matched_b : gset nat
}.

(** Lines 53 and 76. *)
Definition candidates (df_b : list Row) (mb : gset nat) : list (nat * Row) :=
  filter (λ c, c.1 ∉ mb) (iterrows df_b).

(** Line 54. *)
Definition exact (df_b : list Row) (mb : gset nat) (row_l : Row)
    : list (nat * Row) :=
  filter (λ c, isclose (abs_amt c.2) (abs_amt row_l) 0.01%float)
         (candidates df_b mb).

(** Lines 78-81. *)
Definition fee_candidates (df_b : list Row) (mb : gset nat) (row_l : Row)
    : list (nat * Row) :=
  filter (λ c, (abs_amt c.2 <? abs_amt row_l)%float
               && (abs_amt row_l * 0.96 <? abs_amt c.2)%float)
         (candidates df_b mb).

(** Lines 51-70. *)
Definition exact_row (df_b : list Row) (st : State) (cur : nat * Row) : State :=
  let '(idx_l, row_l) := cur in
  if decide (idx_l ∈ matched_l st) then st
  else
    match list_find (within_5_days row_l) (exact df_b (matched_b st) row_l) with
    | Some (_, (idx_b, row_b)) =>
        {| matches := matches st
                      ++ [mkEntry (Some idx_b) (Some idx_l) (exact_dict row_b row_l)];
           matched_l := {[ idx_l ]} ∪ matched_l st;
           matched_b := {[ idx_b ]} ∪ matched_b st |}
    | None => st
    end.

(** Lines 74-94. *)
Definition fee_row (df_b : list Row) (st : State) (cur : nat * Row) : State :=
  let '(idx_l, row_l) := cur in
  if decide (idx_l ∈ matched_l st) then st
  else if (0 <? abs_amt row_l)%float then
    match list_find (within_5_days row_l)
                    (fee_candidates df_b (matched_b st) row_l) with
    | Some (_, (idx_b, row_b)) =>
        {| matches := matches st
                      ++ [mkEntry (Some idx_b) (Some idx_l) (fee_dict row_b row_l)];
           matched_l := {[ idx_l ]} ∪ matched_l st;
           matched_b := {[ idx_b ]} ∪ matched_b st |}
    | None => st
    end
  else st.

(** Lines 43-103: the rows of the report. *)
Definition reconcile (df_l df_b : list Row) : list ReportRow :=
  let st0 := {| matches := []; matched_l := ∅; matched_b := ∅ |} in
  let st1 := foldl (exact_row df_b) st0 (iterrows df_l) in
  let st := foldl (fee_row df_b) st1 (iterrows df_l) in
  fields
    <$> (matches st
         ++ ((λ c, mkEntry (Some c.1) None (unmatched_bank_dict c.2))
               <$> filter (λ c, c.1 ∉ matched_b st) (iterrows df_b))
         ++ ((λ c, mkEntry None (Some c.1) (unmatched_ledger_dict c.2))
               <$> filter (λ c, c.1 ∉ matched_l st) (iterrows df_l))).

(** Lines 52-53 of src/dummy_data.py. *)
Definition net_deposit (gross_amount : float) : float :=
  round (gross_amount - (gross_amount * 0.029 + 0.30))%float 2.
End Binary64.

(** ** Runs as a relation *)

(** What a run does is described once more, this time step by step and
    without saying how the two sets are stored: of a set only its members
    are known. [execute_reconciliation] is one such run. *)

(** Lines 56-70 and 82-94: the inner loop tries the rows of a list in order
    and leaves at the first one within the date window ([break]). *)
Inductive scans (row_l : Row) : list (nat * Row) → option (nat * Row) → Prop :=
  | scans_end :
      scans row_l [] None
  | scans_break c cs :
      within_5_days row_l c → scans row_l (c :: cs) (Some c)
  | scans_next c cs found :
      ¬ within_5_days row_l c → scans row_l cs found →
      scans row_l (c :: cs) found.

(** Lines 62-69 and 86-93: [matches.append], [matched_l.add],
    [matched_b.add]. *)
Definition binds {C : Type} `{ElemOf nat C}
    (st : State C) (idx_b idx_l : nat) (e : Entry) (st' : State C) : Prop :=
  matches st' = matches st ++ [e]
  ∧ (∀ i, i ∈ matched_l st' ↔ i = idx_l ∨ i ∈ matched_l st)
  ∧ (∀ j, j ∈ matched_b st' ↔ j = idx_b ∨ j ∈ matched_b st).

(** Lines 51-70: one turn of the first loop. *)
Inductive exact_turn {C : Type} `{ElemOf nat C} `{!RelDecision (∈@{C})}
    (df_b : DataFrame) (st : State C) (cur : nat * Row) : State C → Prop :=
  | exact_turn_continue :
      cur.1 ∈ matched_l st → exact_turn df_b st cur st
  | exact_turn_end :
      (cur.1 ∉ matched_l st) →
      scans cur.2 (exact df_b (matched_b st) cur.2) None →
      exact_turn df_b st cur st
  | exact_turn_break idx_b row_b st' :
      (cur.1 ∉ matched_l st) →
      scans cur.2 (exact df_b (matched_b st) cur.2) (Some (idx_b, row_b)) →
      binds st idx_b cur.1 (exact_entry idx_b row_b cur.1 cur.2) st' →
      exact_turn df_b st cur st'.

(** Lines 74-94: one turn of the second loop. *)
Inductive fee_turn {C : Type} `{ElemOf nat C} `{!RelDecision (∈@{C})}
    (df_b : DataFrame) (st : State C) (cur : nat * Row) : State C → Prop :=
  | fee_turn_continue :
      cur.1 ∈ matched_l st → fee_turn df_b st cur st
  | fee_turn_zero :
      (cur.1 ∉ matched_l st) → ¬ abs_amt cur.2 > 0 → fee_turn df_b st cur st
  | fee_turn_end :
      (cur.1 ∉ matched_l st) → abs_amt cur.2 > 0 →
      scans cur.2 (fee_candidates df_b (matched_b st) cur.2) None →
      fee_turn df_b st cur st
  | fee_turn_break idx_b row_b st' :
      (cur.1 ∉ matched_l st) → abs_amt cur.2 > 0 →
      scans cur.2 (fee_candidates df_b (matched_b st) cur.2)
            (Some (idx_b, row_b)) →
      binds st idx_b cur.1 (fee_entry idx_b row_b cur.1 cur.2) st' →
      fee_turn df_b st cur st'.

(** A [for] loop: one turn per element, each from the state the one before
    left. *)
Inductive loops {S A : Type} (turn : S → A → S → Prop) : S → list A → S → Prop :=
  | loops_end st :
      loops turn st [] st
  | loops_turn st x st' xs st'' :
      turn st x st' → loops turn st' xs st'' →
      loops turn st (x :: xs) st''.

(** Lines 24-107: the runs of a call, with what each leaves behind. *)
Inductive runs {C : Type} `{ElemOf nat C} `{!RelDecision (∈@{C})}
    (fs : Files) (norm_ledger_path norm_bank_path : string) : Outcome → Prop :=
  | runs_ledger_raises e :
      read_csv fs norm_ledger_path = Raises e →
      runs fs norm_ledger_path norm_bank_path
        (mkOutcome ("ERROR: Could not read files. " +:+ e) None)
  | runs_bank_raises df_l e :
      read_csv fs norm_ledger_path = Frame df_l →
      read_csv fs norm_bank_path = Raises e →
      runs fs norm_ledger_path norm_bank_path
        (mkOutcome ("ERROR: Could not read files. " +:+ e) None)
  | runs_empty df_l df_b :
      read_csv fs norm_ledger_path = Frame df_l →
      read_csv fs norm_bank_path = Frame df_b →
      df_l = [] ∨ df_b = [] →
      runs fs norm_ledger_path norm_bank_path
        (mkOutcome "ERROR: One of the normalized files is empty." None)
  | runs_report df_l df_b (st0 st1 st2 : State C) :
      read_csv fs norm_ledger_path = Frame df_l →
      read_csv fs norm_bank_path = Frame df_b →
      df_l ≠ [] → df_b ≠ [] →
      matches st0 = [] →
      (∀ i, i ∉ matched_l st0) → (∀ j, j ∉ matched_b st0) →
      loops (exact_turn df_b) st0 (iterrows df_l) st1 →
      loops (fee_turn df_b) st1 (iterrows df_l) st2 →
      runs fs norm_ledger_path norm_bank_path
        (let matches :=
           matches st2 ++ unmatched_bank df_b st2 ++ unmatched_ledger df_l st2 in
         mkOutcome ("SUCCESS: Report generated at " +:+ output_path
                    +:+ " with " +:+ pretty (length matches) +:+ " rows.")
                   (Some (fields <$> matches))).

(** Two ledger rows and two bank rows of one amount: [near_bank] is within
    5 days of both ledger rows, [far_bank] of [late_ledger] only. The two
    folders hold the same ledger file and the same bank rows, in two
    orders. *)
Definition late_ledger : Row := mkRow 20108 "Invoice 12" 100.00.
Definition early_ledger : Row := mkRow 20098 "Invoice 11" 100.00.
Definition near_bank : Row := mkRow 20103 "ACH CREDIT 11" 100.00.
Definition far_bank : Row := mkRow 20110 "ACH CREDIT 12" 100.00.

Definition near_first_files : Files := λ path,
  if decide (path = "ledger.csv") then Frame [late_ledger; early_ledger]
  else if decide (path = "bank.csv") then Frame [near_bank; far_bank]
  else Raises "[Errno 2] No such file or directory".

Definition far_first_files : Files := λ path,
  if decide (path = "ledger.csv") then Frame [late_ledger; early_ledger]
  else if decide (path = "bank.csv") then Frame [far_bank; near_bank]
  else Raises "[Errno 2] No such file or directory".

(** ** Runs on the sample inputs *)

Example scenario_A :
  reconcile (C:=gset nat) A_ledger A_bank
  = [exact_entry 0 (mkRow 20100 "ACH CREDIT 7" 500.00)
                 0 (mkRow 20098 "Invoice 7" 500.00)].
Proof. vm_compute. reflexivity. Qed.

Example scenario_B :
  fields <$> reconcile (C:=gset nat) B_ledger B_bank
  = [ {| Match_Quality := "Partial Match (Fee)";
         Bank_Date := None; Bank_Desc := Some "STRIPE PAYOUT TRANSFER 8823";
         Bank_Amt := Some 1213.45;
         Ledger_Date := None;
         Ledger_Desc := Some "Client Invoice #1001 (Stripe)";
         Ledger_Amt := Some 1250.00;
         Difference := Some (-36.55) |} ].
Proof. vm_compute. reflexivity. Qed.

(** ** Facts about frames and scans *)

Lemma elem_of_iterrows (df : DataFrame) (idx : nat) (row : Row) :
  (idx, row) ∈ iterrows df ↔ df !! idx = Some row.
Proof.
  unfold iterrows. rewrite elem_of_lookup_imap. split.
  - intros (i & y & Heq & Hy). by simplify_eq.
  - intros Hy. by exists idx, row.
Qed.

Lemma iterrows_lookup (df : DataFrame) (k : nat) (c : nat * Row) :
  iterrows df !! k = Some c ↔ c.1 = k ∧ df !! k = Some c.2.
Proof.
  unfold iterrows. rewrite list_lookup_imap. destruct c as [i r]; simpl.
  destruct (df !! k) as [r'|]; simpl.
  - split; [intros ?; by simplify_eq | intros [? ?]; by simplify_eq].
  - split; [done | intros [_ ?]; done].
Qed.

Lemma iterrows_labels (df : DataFrame) : (iterrows df).*1 = seq 0 (length df).
Proof.
  apply list_eq; intros k. rewrite list_lookup_fmap.
  destruct (iterrows df !! k) as [c|] eqn:Hk; simpl.
  - apply iterrows_lookup in Hk as [Hc Hr]. symmetry.
    apply lookup_seq. split; [simpl; lia|]. by eapply lookup_lt_Some.
  - symmetry. apply lookup_ge_None. rewrite length_seq.
    apply lookup_ge_None in Hk. unfold iterrows in Hk.
    by rewrite length_imap in Hk.
Qed.

Lemma filter_labels_NoDup (df : DataFrame) (P : nat * Row → Prop)
    `{!∀ c, Decision (P c)} :
  NoDup (filter P (iterrows df)).*1.
Proof.
  eapply sublist_NoDup; [|apply fmap_sublist, sublist_filter].
  rewrite iterrows_labels. apply NoDup_seq.
Qed.

(** A scan that stops at the first hit sees, behind a filter, the first
    element that passes both tests. *)
Lemma list_find_filter {A : Type} (P Q : A → Prop)
    `{!∀ x, Decision (P x), !∀ x, Decision (Q x)} (l : list A) :
  snd <$> list_find Q (filter P l) = snd <$> list_find (λ x, P x ∧ Q x) l.
Proof.
  induction l as [|x l IH]; [done|].
  rewrite filter_cons. cbn [list_find]. destruct (decide (P x)) as [HP|HP].
  - cbn [list_find]. destruct (decide (Q x)) as [HQ|HQ].
    + by rewrite decide_True.
    + rewrite decide_False by tauto.
      destruct (list_find Q (filter P l)) as [[??]|],
               (list_find (λ x, P x ∧ Q x) l) as [[??]|]; simpl in *; congruence.
  - rewrite decide_False by tauto.
    destruct (list_find Q (filter P l)) as [[??]|],
             (list_find (λ x, P x ∧ Q x) l) as [[??]|]; simpl in *; congruence.
Qed.

Lemma first_in_frame (df : DataFrame) (P : nat * Row → Prop)
    `{!∀ c, Decision (P c)} (c : nat * Row) :
  (∃ k, list_find P (iterrows df) = Some (k, c))
  ↔ df !! c.1 = Some c.2 ∧ P c
    ∧ ∀ j r, (j < c.1)%nat → df !! j = Some r → ¬ P (j, r).
Proof.
  split.
  - intros [k Hk]. apply list_find_Some in Hk as (Hlk & HP & Hfirst).
    apply iterrows_lookup in Hlk as [<- Hr]. repeat split; [done..|].
    intros j r Hj Hjr. apply (Hfirst j); [|done].
    by apply iterrows_lookup.
  - intros (Hr & HP & Hfirst). exists c.1. apply list_find_Some.
    repeat split; [by apply iterrows_lookup|done|].
    intros j [j' r] Hlk Hj. apply iterrows_lookup in Hlk as [Hjj Hjr].
    simpl in *; subst j'. by apply Hfirst.
Qed.

Lemma first_candidate (df : DataFrame) (P Q : nat * Row → Prop)
    `{!∀ c, Decision (P c), !∀ c, Decision (Q c)} (c : nat * Row) :
  (∃ k, list_find Q (filter P (iterrows df)) = Some (k, c))
  ↔ df !! c.1 = Some c.2 ∧ P c ∧ Q c
    ∧ ∀ j r, (j < c.1)%nat → df !! j = Some r → P (j, r) → ¬ Q (j, r).
Proof.
  pose proof (list_find_filter P Q (iterrows df)) as Hsnd.
  pose proof (first_in_frame df (λ x, P x ∧ Q x) c) as Hfirst.
  split.
  - intros [k Hk]. rewrite Hk in Hsnd. simpl in Hsnd.
    destruct (list_find (λ x, P x ∧ Q x) (iterrows df)) as [[k' c']|] eqn:Hf;
      simplify_eq/=.
    destruct Hfirst as [Hfirst _].
    destruct Hfirst as (? & [??] & Hmin); [by eexists|].
    repeat split; [done..|]. intros j r ????. by eapply Hmin.
  - intros (Hr & HP & HQ & Hmin). destruct Hfirst as [_ [k Hk]].
    { repeat split; [done..|]. intros j r ?? [??]. by eapply Hmin. }
    rewrite Hk in Hsnd. simpl in Hsnd.
    destruct (list_find Q (filter P (iterrows df))) as [[k' c']|];
      simplify_eq/=. by eexists.
Qed.

Lemma no_candidate (df : DataFrame) (P Q : nat * Row → Prop)
    `{!∀ c, Decision (P c), !∀ c, Decision (Q c)} :
  list_find Q (filter P (iterrows df)) = None
  ↔ ∀ j r, df !! j = Some r → P (j, r) → ¬ Q (j, r).
Proof.
  rewrite list_find_None, Forall_forall. split.
  - intros Hall j r Hr HP. apply Hall, list_elem_of_filter.
    split; [done|]. by apply elem_of_iterrows.
  - intros Hno [j r] [HP Hin]%list_elem_of_filter.
    apply elem_of_iterrows in Hin. by eapply Hno.
Qed.

Lemma iterrows_snoc (df : DataFrame) (row : Row) :
  iterrows (df ++ [row]) = iterrows df ++ [(length df, row)].
Proof.
  unfold iterrows. rewrite imap_app. simpl. by rewrite Nat.add_0_r.
Qed.

Lemma foldl_invariant {A B : Type} (I : A → Prop) (f : A → B → A) (l : list B) (a : A) :
  (∀ a x, x ∈ l → I a → I (f a x)) → I a → I (foldl f a l).
Proof.
  revert a. induction l as [|x l IH]; intros a Hstep Ha; [done|].
  simpl. apply IH.
  - intros a' y Hy. apply Hstep. by right.
  - apply Hstep; [left|done].
Qed.

Lemma ledger_ids_snoc (es : list Entry) (e : Entry) (idx_l : nat) :
  of_ledger e = Some idx_l → ledger_ids (es ++ [e]) = ledger_ids es ++ [idx_l].
Proof. intros He. unfold ledger_ids. rewrite omap_app. simpl. by rewrite He. Qed.

Lemma bank_ids_snoc (es : list Entry) (e : Entry) (idx_b : nat) :
  of_bank e = Some idx_b → bank_ids (es ++ [e]) = bank_ids es ++ [idx_b].
Proof. intros He. unfold bank_ids. rewrite omap_app. simpl. by rewrite He. Qed.

(** ** One ledger row at a time *)

Section steps.
Context `{SemiSet nat C, !RelDecision (∈@{C})}.
Implicit Types (st : State C) (mb : C) (c : nat * Row).

Lemma elem_of_candidates (df_b : DataFrame) mb c :
  c ∈ candidates df_b mb ↔ df_b !! c.1 = Some c.2 ∧ (c.1 ∉ mb).
Proof.
  unfold candidates. rewrite list_elem_of_filter. destruct c as [j r].
  rewrite elem_of_iterrows. simpl. tauto.
Qed.

(** The row the first inner loop binds: the first row of the bank frame,
    in its order, that is unclaimed, close in amount and within the date
    window. *)
Lemma find_exact (df_b : DataFrame) mb (row_l : Row) c :
  (∃ k, list_find (within_5_days row_l) (exact df_b mb row_l) = Some (k, c))
  ↔ df_b !! c.1 = Some c.2 ∧ (c.1 ∉ mb)
    ∧ isclose (abs_amt c.2) (abs_amt row_l) 0.01
    ∧ within_5_days row_l c
    ∧ ∀ j r, (j < c.1)%nat → df_b !! j = Some r → (j ∉ mb) →
        isclose (abs_amt r) (abs_amt row_l) 0.01 → ¬ within_5_days row_l (j, r).
Proof.
  unfold exact, candidates. rewrite list_filter_filter, first_candidate.
  split.
  - intros (? & [??] & ? & Hmin). repeat split; [done..|].
    intros j r ????. by apply (Hmin j r).
  - intros (? & ? & ? & ? & Hmin). repeat split; [done..|].
    intros j r ?? [??]. by apply (Hmin j r).
Qed.

Lemma find_exact_None (df_b : DataFrame) mb (row_l : Row) :
  list_find (within_5_days row_l) (exact df_b mb row_l) = None
  ↔ ∀ j r, df_b !! j = Some r → (j ∉ mb) →
      isclose (abs_amt r) (abs_amt row_l) 0.01 → ¬ within_5_days row_l (j, r).
Proof.
  unfold exact, candidates. rewrite list_filter_filter, no_candidate.
  split.
  - intros Hno j r ???. by apply (Hno j r).
  - intros Hno j r ? [??]. by apply (Hno j r).
Qed.

Lemma find_fee (df_b : DataFrame) mb (row_l : Row) c :
  (∃ k, list_find (within_5_days row_l) (fee_candidates df_b mb row_l)
        = Some (k, c))
  ↔ df_b !! c.1 = Some c.2 ∧ (c.1 ∉ mb)
    ∧ abs_amt c.2 < abs_amt row_l ∧ abs_amt c.2 > abs_amt row_l * 0.96
    ∧ within_5_days row_l c
    ∧ ∀ j r, (j < c.1)%nat → df_b !! j = Some r → (j ∉ mb) →
        abs_amt r < abs_amt row_l → abs_amt r > abs_amt row_l * 0.96 →
        ¬ within_5_days row_l (j, r).
Proof.
  unfold fee_candidates, candidates. rewrite list_filter_filter, first_candidate.
  split.
  - intros (? & [[??]?] & ? & Hmin). repeat split; [done..|].
    intros j r ?????. by apply (Hmin j r).
  - intros (? & ? & ? & ? & ? & Hmin). repeat split; [done..|].
    intros j r ?? [[??]?]. by apply (Hmin j r).
Qed.

Lemma find_fee_None (df_b : DataFrame) mb (row_l : Row) :
  list_find (within_5_days row_l) (fee_candidates df_b mb row_l) = None
  ↔ ∀ j r, df_b !! j = Some r → (j ∉ mb) →
      abs_amt r < abs_amt row_l → abs_amt r > abs_amt row_l * 0.96 →
      ¬ within_5_days row_l (j, r).
Proof.
  unfold fee_candidates, candidates. rewrite list_filter_filter, no_candidate.
  split.
  - intros Hno j r ????. by apply (Hno j r).
  - intros Hno j r ? [[??]?]. by apply (Hno j r).
Qed.

(** What one turn of the first loop does. *)
Lemma exact_row_cases (df_b : DataFrame) st (idx_l : nat) (row_l : Row) :
  exact_row df_b st (idx_l, row_l) = st
  ∨ ∃ idx_b row_b,
      (idx_l ∉ matched_l st)
      ∧ df_b !! idx_b = Some row_b ∧ (idx_b ∉ matched_b st)
      ∧ isclose (abs_amt row_b) (abs_amt row_l) 0.01
      ∧ within_5_days row_l (idx_b, row_b)
      ∧ exact_row df_b st (idx_l, row_l)
        = {| matches := matches st ++ [exact_entry idx_b row_b idx_l row_l];
             matched_l := {[ idx_l ]} ∪ matched_l st;
             matched_b := {[ idx_b ]} ∪ matched_b st |}.
Proof.
  unfold exact_row. destruct (decide (idx_l ∈ matched_l st)); [by left|].
  destruct (list_find _ _) as [[k [idx_b row_b]]|] eqn:Hfind; [|by left].
  right. exists idx_b, row_b.
  assert (Hex : ∃ k, list_find (within_5_days row_l)
                       (exact df_b (matched_b st) row_l)
                     = Some (k, (idx_b, row_b))) by eauto.
  apply find_exact in Hex as (? & ? & ? & ? & _). done.
Qed.

(** What one turn of the second loop does. *)
Lemma fee_row_cases (df_b : DataFrame) st (idx_l : nat) (row_l : Row) :
  fee_row df_b st (idx_l, row_l) = st
  ∨ ∃ idx_b row_b,
      (idx_l ∉ matched_l st) ∧ abs_amt row_l > 0
      ∧ df_b !! idx_b = Some row_b ∧ (idx_b ∉ matched_b st)
      ∧ abs_amt row_b < abs_amt row_l ∧ abs_amt row_b > abs_amt row_l * 0.96
      ∧ within_5_days row_l (idx_b, row_b)
      ∧ fee_row df_b st (idx_l, row_l)
        = {| matches := matches st ++ [fee_entry idx_b row_b idx_l row_l];
             matched_l := {[ idx_l ]} ∪ matched_l st;
             matched_b := {[ idx_b ]} ∪ matched_b st |}.
Proof.
  unfold fee_row. destruct (decide (idx_l ∈ matched_l st)); [by left|].
  destruct (decide (abs_amt row_l > 0)); [|by left].
  destruct (list_find _ _) as [[k [idx_b row_b]]|] eqn:Hfind; [|by left].
  right. exists idx_b, row_b.
  assert (Hex : ∃ k, list_find (within_5_days row_l)
                       (fee_candidates df_b (matched_b st) row_l)
                     = Some (k, (idx_b, row_b))) by eauto.
  apply find_fee in Hex as (? & ? & ? & ? & ? & _). done.
Qed.

(** ** The state stays consistent *)

Lemma initial_consistent (df_l df_b : DataFrame) :
  consistent df_l df_b (initial (C:=C)).
Proof.
  split; simpl; try by constructor.
  - intros i. split; [by intros ?%not_elem_of_empty | by intros ?%elem_of_nil].
  - intros i. split; [by intros ?%not_elem_of_empty | by intros ?%elem_of_nil].
Qed.

Lemma bind_consistent (df_l df_b : DataFrame) st (e : Entry) (idx_l idx_b : nat) :
  consistent df_l df_b st →
  pairing df_l df_b e →
  of_ledger e = Some idx_l → of_bank e = Some idx_b →
  (idx_l ∉ matched_l st) → (idx_b ∉ matched_b st) →
  consistent df_l df_b
    {| matches := matches st ++ [e];
       matched_l := {[ idx_l ]} ∪ matched_l st;
       matched_b := {[ idx_b ]} ∪ matched_b st |}.
Proof.
  intros [Hp Hl Hb Hnl Hnb] He Hel Heb Hil Hib. split; simpl.
  - apply Forall_app. split; [done|]. by constructor.
  - intros i. rewrite (ledger_ids_snoc _ _ _ Hel), elem_of_app,
      list_elem_of_singleton, elem_of_union, elem_of_singleton, Hl. tauto.
  - intros j. rewrite (bank_ids_snoc _ _ _ Heb), elem_of_app,
      list_elem_of_singleton, elem_of_union, elem_of_singleton, Hb. tauto.
  - rewrite (ledger_ids_snoc _ _ _ Hel). apply NoDup_app.
    split; [done|]. split; [|apply NoDup_singleton].
    intros i Hi ->%list_elem_of_singleton. by apply Hil, Hl.
  - rewrite (bank_ids_snoc _ _ _ Heb). apply NoDup_app.
    split; [done|]. split; [|apply NoDup_singleton].
    intros j Hj ->%list_elem_of_singleton. by apply Hib, Hb.
Qed.

Lemma exact_row_consistent (df_l df_b : DataFrame) st c :
  c ∈ iterrows df_l →
  consistent df_l df_b st → consistent df_l df_b (exact_row df_b st c).
Proof.
  destruct c as [idx_l row_l]. intros Hc%elem_of_iterrows Hst.
  destruct (exact_row_cases df_b st idx_l row_l)
    as [->|(idx_b & row_b & ? & ? & ? & ? & ? & ->)]; [done|].
  apply bind_consistent; try done. by constructor.
Qed.

Lemma fee_row_consistent (df_l df_b : DataFrame) st c :
  c ∈ iterrows df_l →
  consistent df_l df_b st → consistent df_l df_b (fee_row df_b st c).
Proof.
  destruct c as [idx_l row_l]. intros Hc%elem_of_iterrows Hst.
  destruct (fee_row_cases df_b st idx_l row_l)
    as [->|(idx_b & row_b & ? & ? & ? & ? & ? & ? & ? & ->)]; [done|].
  apply bind_consistent; try done. by constructor.
Qed.

Lemma exact_match_pass_consistent (df_l df_b : DataFrame) st :
  consistent df_l df_b st → consistent df_l df_b (exact_match_pass df_l df_b st).
Proof.
  apply foldl_invariant. intros a c. apply exact_row_consistent.
Qed.

Lemma fee_match_pass_consistent (df_l df_b : DataFrame) st :
  consistent df_l df_b st → consistent df_l df_b (fee_match_pass df_l df_b st).
Proof.
  apply foldl_invariant. intros a c. apply fee_row_consistent.
Qed.

Lemma matched_consistent (df_l df_b : DataFrame) :
  consistent df_l df_b (matched (C:=C) df_l df_b).
Proof.
  apply fee_match_pass_consistent, exact_match_pass_consistent,
    initial_consistent.
Qed.
End steps.

(** ** The whole list of entries *)

Lemma ledger_ids_unmatched_ledger (l : list (nat * Row)) :
  ledger_ids (unmatched_ledger_entry <$> l) = l.*1.
Proof. induction l as [|c l IH]; [done|]. simpl. by f_equal. Qed.

Lemma ledger_ids_unmatched_bank (l : list (nat * Row)) :
  ledger_ids (unmatched_bank_entry <$> l) = [].
Proof. induction l as [|c l IH]; [done|]. by simpl. Qed.

Lemma bank_ids_unmatched_bank (l : list (nat * Row)) :
  bank_ids (unmatched_bank_entry <$> l) = l.*1.
Proof. induction l as [|c l IH]; [done|]. simpl. by f_equal. Qed.

Lemma bank_ids_unmatched_ledger (l : list (nat * Row)) :
  bank_ids (unmatched_ledger_entry <$> l) = [].
Proof. induction l as [|c l IH]; [done|]. by simpl. Qed.

Lemma pairing_ledger_row (df_l df_b : DataFrame) (e : Entry) (i : nat) :
  pairing df_l df_b e → of_ledger e = Some i → is_Some (df_l !! i).
Proof. intros [] ?; simplify_eq/=; eauto. Qed.

Lemma pairing_bank_row (df_l df_b : DataFrame) (e : Entry) (j : nat) :
  pairing df_l df_b e → of_bank e = Some j → is_Some (df_b !! j).
Proof. intros [] ?; simplify_eq/=; eauto. Qed.

(** The labels bound by the pairings, followed by the labels a filter on
    "not bound" keeps, are the labels of the frame, each exactly once. *)
Lemma bound_and_rest (df : DataFrame) (ids : list nat) (P : nat * Row → Prop)
    `{!∀ c, Decision (P c)} :
  NoDup ids →
  (∀ i, i ∈ ids → is_Some (df !! i)) →
  (∀ c, P c ↔ c.1 ∉ ids) →
  ids ++ (filter P (iterrows df)).*1 ≡ₚ seq 0 (length df).
Proof.
  intros Hnd Hin HP. apply NoDup_Permutation.
  - apply NoDup_app. split; [done|]. split; [|apply filter_labels_NoDup].
    intros i Hi (c & -> & Hc)%list_elem_of_fmap.
    apply list_elem_of_filter in Hc as [Hc _]. by apply HP in Hc.
  - apply NoDup_seq.
  - intros i. rewrite elem_of_app, elem_of_seq. split.
    + intros [Hi|(c & -> & Hc)%list_elem_of_fmap].
      * apply Hin in Hi as [r Hr]. apply lookup_lt_Some in Hr. lia.
      * apply list_elem_of_filter in Hc as [_ Hc]. destruct c as [j r].
        apply elem_of_iterrows, lookup_lt_Some in Hc. simpl. lia.
    + intros [_ Hi]. destruct (decide (i ∈ ids)) as [|Hni]; [by left|right].
      destruct (lookup_lt_is_Some_2 df i) as [r Hr]; [lia|].
      apply list_elem_of_fmap. exists (i, r). split; [done|].
      apply list_elem_of_filter. split; [by apply HP|by apply elem_of_iterrows].
Qed.

(** The rows a loop over [iterrows] keeps, position by position. *)
Lemma unclaimed_by_position {A : Type} (P : nat → Prop)
    `{!∀ i, Decision (P i)} (f : nat * Row → A) (df : DataFrame) :
  f <$> filter (λ c, ¬ P c.1) (iterrows df)
  = omap (λ idx, row ← df !! idx;
                 if decide (P idx) then None else Some (f (idx, row)))
         (seq 0 (length df)).
Proof.
  induction df as [|row df IH] using rev_ind; [done|].
  rewrite iterrows_snoc, filter_app, fmap_app, length_app, seq_app, omap_app.
  rewrite IH. f_equal.
  - apply list_omap_ext, Forall2_same_length_lookup. split; [done|].
    intros i x y Hx Hy. assert (x = y) as <- by congruence.
    apply lookup_seq in Hx as [-> Hlt]. simpl in *.
    by rewrite lookup_app_l by done.
  - simpl. rewrite list_lookup_middle by done. simpl.
    rewrite filter_cons, filter_nil. simpl.
    destruct (decide (P (length df))) as [HP|HP].
    + by rewrite decide_False by tauto.
    + by rewrite decide_True by done.
Qed.

Section report.
Context `{SemiSet nat C, !RelDecision (∈@{C})}.

Lemma reconcile_ledger_ids (df_l df_b : DataFrame) :
  ledger_ids (reconcile (C:=C) df_l df_b) ≡ₚ seq 0 (length df_l).
Proof.
  destruct (matched_consistent (C:=C) df_l df_b) as [Hp Hl Hb Hnl Hnb].
  unfold reconcile, unmatched_bank, unmatched_ledger, ledger_ids.
  rewrite !omap_app. fold (ledger_ids (matches (matched (C:=C) df_l df_b))).
  rewrite (ledger_ids_unmatched_bank _ : omap _ _ = _).
  rewrite (ledger_ids_unmatched_ledger _ : omap _ _ = _). simpl.
  apply bound_and_rest; [done| |].
  - intros i (e & He & Hei)%list_elem_of_omap.
    rewrite Forall_forall in Hp.
    eapply pairing_ledger_row; [by apply Hp|done].
  - intros c. by rewrite Hl.
Qed.

Lemma reconcile_bank_ids (df_l df_b : DataFrame) :
  bank_ids (reconcile (C:=C) df_l df_b) ≡ₚ seq 0 (length df_b).
Proof.
  destruct (matched_consistent (C:=C) df_l df_b) as [Hp Hl Hb Hnl Hnb].
  unfold reconcile, unmatched_bank, unmatched_ledger, bank_ids.
  rewrite !omap_app. fold (bank_ids (matches (matched (C:=C) df_l df_b))).
  rewrite (bank_ids_unmatched_bank _ : omap _ _ = _).
  rewrite (bank_ids_unmatched_ledger _ : omap _ _ = _), app_nil_r.
  apply bound_and_rest; [done| |].
  - intros i (e & He & Hei)%list_elem_of_omap.
    rewrite Forall_forall in Hp.
    eapply pairing_bank_row; [by apply Hp|done].
  - intros c. by rewrite Hb.
Qed.

Lemma reconcile_entries (df_l df_b : DataFrame) :
  Forall (λ e, pairing df_l df_b e ∨ residual df_l df_b e)
         (reconcile (C:=C) df_l df_b).
Proof.
  unfold reconcile. rewrite !Forall_app. split; [|split].
  - eapply Forall_impl; [apply matched_consistent|]. by left.
  - unfold unmatched_bank. apply Forall_fmap, Forall_forall.
    intros [j r] [_ Hc%elem_of_iterrows]%list_elem_of_filter.
    right. by constructor.
  - unfold unmatched_ledger. apply Forall_fmap, Forall_forall.
    intros [i r] [_ Hc%elem_of_iterrows]%list_elem_of_filter.
    right. by constructor.
Qed.

(** A run that writes a report went through both reads and found both
    frames non-empty. *)
Lemma report_Some (fs : Files) (lp bp : string) (rows : list ReportRow) :
  report (execute_reconciliation C fs lp bp) = Some rows →
  ∃ df_l df_b,
    read_csv fs lp = Frame df_l ∧ read_csv fs bp = Frame df_b
    ∧ df_l ≠ [] ∧ df_b ≠ []
    ∧ rows = fields <$> reconcile (C:=C) df_l df_b.
Proof.
  unfold execute_reconciliation.
  destruct (read_csv fs lp) as [e|df_l]; [done|].
  destruct (read_csv fs bp) as [e|df_b]; [done|].
  destruct df_l as [|r_l df_l]; [done|]. destruct df_b as [|r_b df_b]; [done|].
  simpl. intros [= <-]. by eexists _, _.
Qed.

(** C1: for every run that produces outcomes, the entries partition the
    two input frames. Each entry binds a bank row to a ledger row or
    reports one row as unmatched, carrying the fields of the rows it
    names; the ledger labels named by the entries are the labels of the
    ledger frame, each exactly once, and so for the bank frame; hence no
    row is named by two entries. *)
Theorem outcomes_partition_inputs
    (fs : Files) (lp bp : string) (rows : list ReportRow) :
  report (execute_reconciliation C fs lp bp) = Some rows →
  ∃ df_l df_b es,
    read_csv fs lp = Frame df_l ∧ read_csv fs bp = Frame df_b
    ∧ es = reconcile (C:=C) df_l df_b
    ∧ rows = fields <$> es
    ∧ Forall (λ e, pairing df_l df_b e ∨ residual df_l df_b e) es
    ∧ ledger_ids es ≡ₚ seq 0 (length df_l)
    ∧ bank_ids es ≡ₚ seq 0 (length df_b)
    ∧ NoDup (ledger_ids es) ∧ NoDup (bank_ids es).
Proof.
  intros (df_l & df_b & Hl & Hb & _ & _ & ->)%report_Some.
  exists df_l, df_b, (reconcile (C:=C) df_l df_b).
  pose proof (reconcile_ledger_ids df_l df_b) as Hpl.
  pose proof (reconcile_bank_ids df_l df_b) as Hpb.
  repeat split; try done.
  - apply reconcile_entries.
  - rewrite Hpl. apply NoDup_seq.
  - rewrite Hpb. apply NoDup_seq.
Qed.

(** C7: the list of a run is the entries of the two matching passes,
    each an "Exact Match" or a "Partial Match (Fee)" naming one bank and
    one ledger row, and the rows they name are the claimed ones; then,
    for each position of the bank frame in increasing order, an
    "Unmatched Bank" entry with the date, description and amount of the
    row when it is not claimed; then, for each position of the ledger
    frame in increasing order, an "Unmatched Ledger" entry with the date,
    description and amount of the row when it is not claimed. *)
Theorem residuals_bank_then_ledger (df_l df_b : DataFrame) :
  let st := matched (C:=C) df_l df_b in
  Forall (λ e, is_match (fields e)
               ∧ is_Some (of_bank e) ∧ is_Some (of_ledger e)) (matches st)
  ∧ (∀ idx_b, idx_b ∈ matched_b st ↔ idx_b ∈ bank_ids (matches st))
  ∧ (∀ idx_l, idx_l ∈ matched_l st ↔ idx_l ∈ ledger_ids (matches st))
  ∧ reconcile (C:=C) df_l df_b
    = matches st
      ++ omap (λ idx_b,
                 row_b ← df_b !! idx_b;
                 if decide (idx_b ∈ matched_b st) then None
                 else Some
                   {| of_bank := Some idx_b; of_ledger := None;
                      fields :=
                        {| Match_Quality := "Unmatched Bank";
                           Bank_Date := Some (std_date row_b);
                           Bank_Desc := Some (std_desc row_b);
                           Bank_Amt := Some (std_amt row_b);
                           Ledger_Date := None; Ledger_Desc := None;
                           Ledger_Amt := None; Difference := None |} |})
              (seq 0 (length df_b))
      ++ omap (λ idx_l,
                 row_l ← df_l !! idx_l;
                 if decide (idx_l ∈ matched_l st) then None
                 else Some
                   {| of_bank := None; of_ledger := Some idx_l;
                      fields :=
                        {| Match_Quality := "Unmatched Ledger";
                           Bank_Date := None; Bank_Desc := None;
                           Bank_Amt := None;
                           Ledger_Date := Some (std_date row_l);
                           Ledger_Desc := Some (std_desc row_l);
                           Ledger_Amt := Some (std_amt row_l);
                           Difference := None |} |})
              (seq 0 (length df_l)).
Proof.
  intros st.
  destruct (matched_consistent (C:=C) df_l df_b) as [Hp Hl Hb Hnl Hnb].
  fold st in Hp, Hl, Hb. split; [|split; [done|split; [done|]]].
  - eapply Forall_impl; [exact Hp|]. intros e [| ]; simpl.
    + split; [by left|]. split; by eexists.
    + split; [by right|]. split; by eexists.
  - unfold reconcile, unmatched_bank, unmatched_ledger. fold st.
    f_equal. f_equal.
    + exact (unclaimed_by_position (λ j, j ∈ matched_b st)
               unmatched_bank_entry df_b).
    + exact (unclaimed_by_position (λ i, i ∈ matched_l st)
               unmatched_ledger_entry df_l).
Qed.
End report.

(** ** Amounts *)

Lemma abs_amt_nonneg (r : Row) : 0 <= abs_amt r.
Proof. apply Qabs_nonneg. Qed.

Lemma isclose_abs_amt (row_b row_l : Row) (atol : Q) :
  isclose (abs_amt row_b) (abs_amt row_l) atol
  ↔ Qabs (abs_amt row_l - abs_amt row_b) <= atol + 0.00001 * abs_amt row_l.
Proof.
  unfold isclose, rtol. rewrite (Qabs_Qminus (abs_amt row_b)).
  assert (Hl : Qabs (abs_amt row_l) == abs_amt row_l)
    by apply Qabs_pos, abs_amt_nonneg.
  by rewrite Hl.
Qed.

Lemma round_half_even_nonpos (x : Q) : x <= 0 → (round_half_even x ≤ 0)%Z.
Proof.
  destruct x as [n d]. unfold Qle, round_half_even. simpl. intros Hn.
  assert (Hn' : (n ≤ 0)%Z) by lia. clear Hn.
  pose proof (Z.div_mod n (Z.pos d) ltac:(lia)) as Hdm.
  pose proof (Z.mod_pos_bound n (Z.pos d) ltac:(lia)) as Hr.
  destruct (2 * (n mod Z.pos d) ?= Z.pos d)%Z eqn:Hcmp;
    [destruct (Z.even _)| |]; try nia.
  - apply Z.compare_eq in Hcmp. nia.
  - apply Z.compare_gt_iff in Hcmp. nia.
Qed.

Lemma round_nonpos (x : Q) (ndigits : nat) : x <= 0 → round x ndigits <= 0.
Proof.
  intros Hx. unfold round.
  assert (Hs : (0 < 10 ^ Z.of_nat ndigits)%Z) by (apply Z.pow_pos_nonneg; lia).
  assert (Hxs : x * inject_Z (10 ^ Z.of_nat ndigits) <= 0).
  { rewrite <- (Qmult_0_l (inject_Z (10 ^ Z.of_nat ndigits))).
    apply Qmult_le_compat_r; [done|]. unfold Qle; simpl. lia. }
  apply round_half_even_nonpos in Hxs. unfold Qle; simpl. lia.
Qed.

Example round_ties :
  round 0.125 2 = 0.12 ∧ round 0.135 2 = 0.14 ∧ round (-36.55) 2 = -36.55
  ∧ round (-0.004) 2 = Qmake 0 100.
Proof. vm_compute. done. Qed.

(** ** Candidates *)

Section candidates.
Context `{SemiSet nat C, !RelDecision (∈@{C})}.
Implicit Types (st : State C) (mb : C) (c : nat * Row).

Lemma elem_of_exact (df_b : DataFrame) mb (row_l : Row) c :
  c ∈ exact df_b mb row_l
  ↔ df_b !! c.1 = Some c.2 ∧ (c.1 ∉ mb)
    ∧ isclose (abs_amt c.2) (abs_amt row_l) 0.01.
Proof.
  unfold exact. rewrite list_elem_of_filter, elem_of_candidates. tauto.
Qed.

Lemma elem_of_fee_candidates (df_b : DataFrame) mb (row_l : Row) c :
  c ∈ fee_candidates df_b mb row_l
  ↔ df_b !! c.1 = Some c.2 ∧ (c.1 ∉ mb)
    ∧ abs_amt c.2 < abs_amt row_l ∧ abs_amt c.2 > abs_amt row_l * 0.96.
Proof.
  unfold fee_candidates. rewrite list_elem_of_filter, elem_of_candidates. tauto.
Qed.

(** The first loop binds the first candidate, and binds nothing when
    there is none. *)
Lemma exact_row_hit (df_b : DataFrame) st (idx_l : nat) (row_l : Row) c :
  (idx_l ∉ matched_l st) →
  exact_match_candidate df_b (matched_b st) row_l c →
  (∀ j r, (j < c.1)%nat →
          ¬ exact_match_candidate df_b (matched_b st) row_l (j, r)) →
  exact_row df_b st (idx_l, row_l)
  = {| matches := matches st ++ [exact_entry c.1 c.2 idx_l row_l];
       matched_l := {[ idx_l ]} ∪ matched_l st;
       matched_b := {[ c.1 ]} ∪ matched_b st |}.
Proof.
  intros Hl [Hc Hd] Hmin. apply elem_of_exact in Hc as (Hr & Hmb & Hclose).
  destruct (proj2 (find_exact df_b (matched_b st) row_l c)) as [k Hk].
  { repeat split; [done..|]. intros j r Hj Hjr Hjmb Hjc Hjd.
    apply (Hmin j r Hj). split; [|done]. by apply elem_of_exact. }
  unfold exact_row. rewrite decide_False by done. rewrite Hk.
  by destruct c.
Qed.

Lemma exact_row_miss (df_b : DataFrame) st (idx_l : nat) (row_l : Row) :
  (∀ c, ¬ exact_match_candidate df_b (matched_b st) row_l c) →
  exact_row df_b st (idx_l, row_l) = st.
Proof.
  intros Hno. unfold exact_row. destruct (decide _); [done|].
  rewrite (proj2 (find_exact_None df_b (matched_b st) row_l)); [done|].
  intros j r Hjr Hjmb Hjc Hjd. apply (Hno (j, r)).
  split; [|done]. by apply elem_of_exact.
Qed.

Lemma fee_row_hit (df_b : DataFrame) st (idx_l : nat) (row_l : Row) c :
  (idx_l ∉ matched_l st) →
  fee_match_candidate df_b (matched_b st) row_l c →
  (∀ j r, (j < c.1)%nat →
          ¬ fee_match_candidate df_b (matched_b st) row_l (j, r)) →
  fee_row df_b st (idx_l, row_l)
  = {| matches := matches st ++ [fee_entry c.1 c.2 idx_l row_l];
       matched_l := {[ idx_l ]} ∪ matched_l st;
       matched_b := {[ c.1 ]} ∪ matched_b st |}.
Proof.
  intros Hl [Hc Hd] Hmin.
  apply elem_of_fee_candidates in Hc as (Hr & Hmb & Hlt & Hgt).
  destruct (proj2 (find_fee df_b (matched_b st) row_l c)) as [k Hk].
  { repeat split; [done..|]. intros j r Hj Hjr Hjmb Hjlt Hjgt Hjd.
    apply (Hmin j r Hj). split; [|done]. by apply elem_of_fee_candidates. }
  unfold fee_row. rewrite decide_False by done.
  rewrite decide_True.
  - rewrite Hk. by destruct c.
  - pose proof (abs_amt_nonneg c.2). lra.
Qed.

Lemma fee_row_miss (df_b : DataFrame) st (idx_l : nat) (row_l : Row) :
  (∀ c, ¬ fee_match_candidate df_b (matched_b st) row_l c) →
  fee_row df_b st (idx_l, row_l) = st.
Proof.
  intros Hno. unfold fee_row. destruct (decide (idx_l ∈ _)); [done|].
  destruct (decide (abs_amt row_l > 0)); [|done].
  rewrite (proj2 (find_fee_None df_b (matched_b st) row_l)); [done|].
  intros j r Hjr Hjmb Hjlt Hjgt Hjd. apply (Hno (j, r)).
  split; [|done]. by apply elem_of_fee_candidates.
Qed.

(** Among the candidates there is a first one. *)
Lemma exact_row_binds_some (df_b : DataFrame) st (idx_l : nat) (row_l : Row) c :
  (idx_l ∉ matched_l st) →
  exact_match_candidate df_b (matched_b st) row_l c →
  ∃ c', exact_match_candidate df_b (matched_b st) row_l c'
        ∧ (c'.1 ≤ c.1)%nat
        ∧ exact_row df_b st (idx_l, row_l)
          = {| matches := matches st ++ [exact_entry c'.1 c'.2 idx_l row_l];
               matched_l := {[ idx_l ]} ∪ matched_l st;
               matched_b := {[ c'.1 ]} ∪ matched_b st |}.
Proof.
  intros Hl [Hc Hd].
  destruct (list_find (within_5_days row_l) (exact df_b (matched_b st) row_l))
    as [[k c']|] eqn:Hfind.
  - assert (Hex : ∃ k, list_find (within_5_days row_l)
                         (exact df_b (matched_b st) row_l) = Some (k, c'))
      by eauto.
    apply find_exact in Hex as (Hr' & Hmb' & Hc' & Hd' & Hmin).
    exists c'. split; [split; [by apply elem_of_exact|done]|]. split.
    + apply elem_of_exact in Hc as (Hr & Hmb & Hclose).
      destruct (decide (c'.1 ≤ c.1)%nat) as [|Hlt]; [done|].
      destruct c as [j r]. exfalso. apply (Hmin j r); simpl in *; [lia|done..].
    + unfold exact_row. rewrite decide_False by done. rewrite Hfind.
      by destruct c'.
  - exfalso. apply elem_of_exact in Hc as (Hr & Hmb & Hclose).
    destruct c as [j r].
    by apply (proj1 (find_exact_None df_b (matched_b st) row_l) Hfind j r).
Qed.
End candidates.

Section outcomes.
Context `{SemiSet nat C, !RelDecision (∈@{C})}.
Implicit Types (st : State C) (mb : C) (c : nat * Row).

(** C4: the first pass takes the ledger rows in input order; a row that
    is already claimed is skipped; an unclaimed one is bound to the first
    candidate in the order of the bank frame, whatever the later
    candidates are: exactly one entry is appended, an "Exact Match" with
    difference 0 built from the two rows, and the two labels join the
    claimed sets; without a candidate nothing changes. *)
Theorem exact_pass_binds_first_candidate
    (df_l df_b : DataFrame) st (idx_l : nat) (row_l : Row) :
  exact_match_pass (df_l ++ [row_l]) df_b st
  = exact_row df_b (exact_match_pass df_l df_b st) (length df_l, row_l)
  ∧ (idx_l ∈ matched_l st → exact_row df_b st (idx_l, row_l) = st)
  ∧ ((∀ c, ¬ exact_match_candidate df_b (matched_b st) row_l c) →
     exact_row df_b st (idx_l, row_l) = st)
  ∧ ((idx_l ∉ matched_l st) →
     ∀ idx_b row_b,
       exact_match_candidate df_b (matched_b st) row_l (idx_b, row_b) →
       (∀ j r, (j < idx_b)%nat →
               ¬ exact_match_candidate df_b (matched_b st) row_l (j, r)) →
       let st' := exact_row df_b st (idx_l, row_l) in
       matches st' = matches st ++ [exact_entry idx_b row_b idx_l row_l]
       ∧ Match_Quality (fields (exact_entry idx_b row_b idx_l row_l))
         = "Exact Match"
       ∧ Difference (fields (exact_entry idx_b row_b idx_l row_l)) = Some 0
       ∧ (∀ i, i ∈ matched_l st' ↔ i = idx_l ∨ i ∈ matched_l st)
       ∧ (∀ j, j ∈ matched_b st' ↔ j = idx_b ∨ j ∈ matched_b st)).
Proof.
  split; [|split; [|split]].
  - unfold exact_match_pass. by rewrite iterrows_snoc, foldl_snoc.
  - intros Hl. unfold exact_row. by rewrite decide_True.
  - apply exact_row_miss.
  - intros Hl idx_b row_b Hc Hmin. cbv zeta.
    rewrite (exact_row_hit df_b st idx_l row_l (idx_b, row_b)) by done.
    simpl. repeat split; try done.
    + rewrite elem_of_union, elem_of_singleton. tauto.
    + rewrite elem_of_union, elem_of_singleton. tauto.
    + rewrite elem_of_union, elem_of_singleton. tauto.
    + rewrite elem_of_union, elem_of_singleton. tauto.
Qed.

(** Every "Partial Match (Fee)" entry of a run lacks the two dates, while
    the other three kinds of entry carry the dates of the rows they name. *)
Lemma fee_entries_lack_dates (df_l df_b : DataFrame) (e : Entry) :
  e ∈ reconcile (C:=C) df_l df_b →
  Match_Quality (fields e) = "Partial Match (Fee)" →
  Bank_Date (fields e) = None ∧ Ledger_Date (fields e) = None.
Proof.
  intros He Hq.
  pose proof (reconcile_entries (C:=C) df_l df_b) as Hall.
  rewrite Forall_forall in Hall.
  destruct (Hall e He) as [Hp|Hres]; [destruct Hp|destruct Hres];
    try discriminate Hq; done.
Qed.

Lemma other_entries_carry_dates (df_l df_b : DataFrame) (e : Entry) :
  e ∈ reconcile (C:=C) df_l df_b →
  Match_Quality (fields e) ≠ "Partial Match (Fee)" →
  (∀ idx_b row_b, of_bank e = Some idx_b → df_b !! idx_b = Some row_b →
     Bank_Date (fields e) = Some (std_date row_b))
  ∧ (∀ idx_l row_l, of_ledger e = Some idx_l → df_l !! idx_l = Some row_l →
     Ledger_Date (fields e) = Some (std_date row_l)).
Proof.
  intros He Hq.
  pose proof (reconcile_entries (C:=C) df_l df_b) as Hall.
  rewrite Forall_forall in Hall.
  destruct (Hall e He) as [Hp|Hres]; [destruct Hp|destruct Hres];
    try done; split; intros ??; simpl; intros; simplify_eq/=; done.
Qed.

(** C5: when reading either file raises, the call returns the message
    "ERROR: Could not read files." followed by the text of the exception;
    when both files are read and one frame has no rows, it returns
    "ERROR: One of the normalized files is empty."; in both cases no
    report is written. *)
Theorem failed_run_reports_nothing (fs : Files) (lp bp : string) :
  (∀ e, read_csv fs lp = Raises e →
        execute_reconciliation C fs lp bp
        = mkOutcome ("ERROR: Could not read files. " +:+ e) None)
  ∧ (∀ df_l e, read_csv fs lp = Frame df_l → read_csv fs bp = Raises e →
        execute_reconciliation C fs lp bp
        = mkOutcome ("ERROR: Could not read files. " +:+ e) None)
  ∧ (∀ df_l df_b, read_csv fs lp = Frame df_l → read_csv fs bp = Frame df_b →
        df_l = [] ∨ df_b = [] →
        execute_reconciliation C fs lp bp
        = mkOutcome "ERROR: One of the normalized files is empty." None).
Proof.
  unfold execute_reconciliation. split; [|split].
  - by intros e ->.
  - by intros df_l e -> ->.
  - intros df_l df_b -> -> [-> | ->]; [done|].
    by rewrite orb_true_r.
Qed.
End outcomes.

Lemma foldl_related {A1 A2 B : Type} (R : A1 → A2 → Prop)
    (f1 : A1 → B → A1) (f2 : A2 → B → A2) (l : list B) (a1 : A1) (a2 : A2) :
  (∀ a1 a2 x, R a1 a2 → R (f1 a1 x) (f2 a2 x)) →
  R a1 a2 → R (foldl f1 a1 l) (foldl f2 a2 l).
Proof.
  intros Hstep. revert a1 a2.
  induction l as [|x l IH]; intros a1 a2 Ha; [done|].
  simpl. by apply IH, Hstep.
Qed.


(** ** The statements on the sample inputs *)

Lemma exact_match_candidate_intro `{SemiSet nat C, !RelDecision (∈@{C})}
    (df_b : DataFrame) (mb : C) (row_l : Row) (c : nat * Row) :
  df_b !! c.1 = Some c.2 → (c.1 ∉ mb) →
  isclose (abs_amt c.2) (abs_amt row_l) 0.01 → within_5_days row_l c →
  exact_match_candidate df_b mb row_l c.
Proof. intros. split; [by apply elem_of_exact|done]. Qed.

Example mixed_run :
  fields <$> reconcile (C:=gset nat) mixed_ledger mixed_bank
  = [ exact_dict edge_bank edge_ledger;
      fee_dict net_bank gross_ledger;
      unmatched_bank_dict (mkRow 20108 "MIDJOURNEY SUBSCRIP CA" (-30.00));
      unmatched_ledger_dict
        (mkRow 20116 "Payment to Contractor (Check #404)" 1500.00) ].
Proof. vm_compute. reflexivity. Qed.

(** The first fit is taken, not the closest one. *)
Example first_fit_not_closest :
  reconcile (C:=gset nat) [edge_ledger] two_fits
  = [ exact_entry 0 (mkRow 20103 "POS DEBIT SLACK" (-250.01)) 0 edge_ledger;
      unmatched_bank_entry (1%nat, mkRow 20098 "SLACK" (-250.00)) ].
Proof. vm_compute. reflexivity. Qed.

Lemma outcomes_partition_inputs_witness :
  let rows := fields <$> reconcile (C:=gset nat) B_ledger B_bank in
  report (execute_reconciliation (gset nat) sample_files
            "temp_norm_ledger.csv" "temp_norm_bank.csv") = Some rows
  ∧ ∃ df_l df_b es,
      read_csv sample_files "temp_norm_ledger.csv" = Frame df_l
      ∧ read_csv sample_files "temp_norm_bank.csv" = Frame df_b
      ∧ es = reconcile (C:=gset nat) df_l df_b
      ∧ rows = fields <$> es
      ∧ Forall (λ e, pairing df_l df_b e ∨ residual df_l df_b e) es
      ∧ ledger_ids es ≡ₚ seq 0 (length df_l)
      ∧ bank_ids es ≡ₚ seq 0 (length df_b)
      ∧ NoDup (ledger_ids es) ∧ NoDup (bank_ids es).
Proof.
  intros rows.
  assert (Hrun : report (execute_reconciliation (gset nat) sample_files
                   "temp_norm_ledger.csv" "temp_norm_bank.csv") = Some rows)
    by (vm_compute; reflexivity).
  split; [exact Hrun|].
  exact (outcomes_partition_inputs (C:=gset nat) sample_files _ _ rows Hrun).
Defined.

Lemma residuals_bank_then_ledger_witness :
  reconcile (C:=gset nat) mixed_ledger mixed_bank
  = [ exact_entry 1 edge_bank 0 edge_ledger;
      fee_entry 2 net_bank 1 gross_ledger;
      {| of_bank := Some 0%nat; of_ledger := None;
         fields :=
           {| Match_Quality := "Unmatched Bank";
              Bank_Date := Some 20108%Z;
              Bank_Desc := Some "MIDJOURNEY SUBSCRIP CA";
              Bank_Amt := Some (-30.00);
              Ledger_Date := None; Ledger_Desc := None; Ledger_Amt := None;
              Difference := None |} |};
      {| of_bank := None; of_ledger := Some 2%nat;
         fields :=
           {| Match_Quality := "Unmatched Ledger";
              Bank_Date := None; Bank_Desc := None; Bank_Amt := None;
              Ledger_Date := Some 20116%Z;
              Ledger_Desc := Some "Payment to Contractor (Check #404)";
              Ledger_Amt := Some 1500.00;
              Difference := None |} |} ].
Proof.
  rewrite (proj2 (proj2 (proj2
             (residuals_bank_then_ledger (C:=gset nat) mixed_ledger mixed_bank)))).
  vm_compute. reflexivity.
Defined.

Lemma exact_pass_binds_first_candidate_witness :
  let first := mkRow 20103 "POS DEBIT SLACK" (-250.01) in
  let st' := exact_row two_fits (initial (C:=gset nat)) (0%nat, edge_ledger) in
  (0%nat ∉ matched_l (initial (C:=gset nat)))
  ∧ exact_match_candidate two_fits (matched_b (initial (C:=gset nat)))
      edge_ledger (0%nat, first)
  ∧ matches st' = [exact_entry 0 first 0 edge_ledger]
  ∧ Match_Quality (fields (exact_entry 0 first 0 edge_ledger)) = "Exact Match"
  ∧ Difference (fields (exact_entry 0 first 0 edge_ledger)) = Some 0
  ∧ (∀ i, i ∈ matched_l st' ↔ i = 0%nat ∨ i ∈ matched_l (initial (C:=gset nat)))
  ∧ (∀ j, j ∈ matched_b st' ↔ j = 0%nat ∨ j ∈ matched_b (initial (C:=gset nat))).
Proof.
  intros first st'.
  assert (H1 : 0%nat ∉ matched_l (initial (C:=gset nat))) by by_computation.
  assert (H2 : exact_match_candidate two_fits
                 (matched_b (initial (C:=gset nat))) edge_ledger (0%nat, first)).
  { apply exact_match_candidate_intro; [reflexivity|by_computation..]. }
  assert (H3 : ∀ j r, (j < 0)%nat →
                 ¬ exact_match_candidate two_fits
                     (matched_b (initial (C:=gset nat))) edge_ledger (j, r))
    by (intros j r Hj; lia).
  split; [exact H1|]. split; [exact H2|].
  exact (proj2 (proj2 (proj2 (exact_pass_binds_first_candidate (C:=gset nat)
           [] two_fits initial 0 edge_ledger))) H1 0%nat first H2 H3).
Defined.

Lemma failed_run_reports_nothing_witness :
  read_csv broken_files "temp_norm_ledger.csv"
  = Raises "No columns to parse from file"
  ∧ execute_reconciliation (gset nat) broken_files
      "temp_norm_ledger.csv" "temp_norm_bank.csv"
    = mkOutcome "ERROR: Could not read files. No columns to parse from file" None
  ∧ read_csv other_files "ledger.csv" = Frame B_ledger
  ∧ read_csv other_files "bank_2025.csv" = Frame []
  ∧ execute_reconciliation (gset nat) other_files "ledger.csv" "bank_2025.csv"
    = mkOutcome "ERROR: One of the normalized files is empty." None.
Proof.
  assert (H1 : read_csv broken_files "temp_norm_ledger.csv"
               = Raises "No columns to parse from file") by reflexivity.
  assert (H2 : read_csv other_files "ledger.csv" = Frame B_ledger) by reflexivity.
  assert (H3 : read_csv other_files "bank_2025.csv" = Frame []) by reflexivity.
  split; [exact H1|]. split.
  - exact (proj1 (failed_run_reports_nothing (C:=gset nat) broken_files
                    "temp_norm_ledger.csv" "temp_norm_bank.csv") _ H1).
  - split; [exact H2|]. split; [exact H3|].
    exact (proj2 (proj2 (failed_run_reports_nothing (C:=gset nat) other_files
                           "ledger.csv" "bank_2025.csv"))
             _ _ H2 H3 (or_intror eq_refl)).
Defined.

(** C9 on the code: the "Partial Match (Fee)" entry of scenario B names a
    bank row and a ledger row that both have a date, and carries their
    descriptions and amounts, but neither date; the "Exact Match" entry of
    scenario A carries both dates. *)
Theorem fee_outcome_without_dates :
  (∃ e, reconcile (C:=gset nat) B_ledger B_bank = [e]
        ∧ Match_Quality (fields e) = "Partial Match (Fee)"
        ∧ of_bank e = Some 0%nat ∧ of_ledger e = Some 0%nat
        ∧ Bank_Desc (fields e) = Some "STRIPE PAYOUT TRANSFER 8823"
        ∧ Bank_Amt (fields e) = Some 1213.45
        ∧ Ledger_Desc (fields e) = Some "Client Invoice #1001 (Stripe)"
        ∧ Ledger_Amt (fields e) = Some 1250.00
        ∧ Bank_Date (fields e) = None ∧ Ledger_Date (fields e) = None)
  ∧ (∃ e, reconcile (C:=gset nat) A_ledger A_bank = [e]
          ∧ Match_Quality (fields e) = "Exact Match"
          ∧ Bank_Date (fields e) = Some 20100%Z
          ∧ Ledger_Date (fields e) = Some 20098%Z).
Proof.
  split; eexists; (split; [vm_compute; reflexivity|]); by repeat split.
Qed.

Example zero_amount_run :
  fields <$> reconcile (C:=gset nat) [void_ledger] [cent_bank]
  = [exact_dict cent_bank void_ledger].
Proof. vm_compute. reflexivity. Qed.

(** ** Further properties of the passes *)

Lemma foldl_prefix_invariant {A B : Type} (I : list B → A → Prop)
    (f : A → B → A) (l : list B) (a : A) :
  I [] a →
  (∀ pre x a, (pre ++ [x]) `prefix_of` l → I pre a → I (pre ++ [x]) (f a x)) →
  I l (foldl f a l).
Proof.
  induction l as [|x l IH] using rev_ind; intros H0 Hstep; [done|].
  rewrite foldl_snoc. apply Hstep; [done|].
  apply IH; [done|]. intros pre y a' Hpre. apply Hstep.
  by apply prefix_app_r.
Qed.

Lemma foldl_fixed {A B : Type} (f : A → B → A) (l : list B) (a : A) :
  (∀ x, x ∈ l → f a x = a) → foldl f a l = a.
Proof.
  induction l as [|x l IH]; intros Hfix; [done|].
  simpl. rewrite Hfix by left. apply IH. intros y Hy. apply Hfix. by right.
Qed.

Section growth.
Context `{SemiSet nat C, !RelDecision (∈@{C})}.
Implicit Types (st : State C) (mb : C) (c : nat * Row).

Lemma extends_refl st : extends st st.
Proof. by split. Qed.

Lemma extends_trans st1 st2 st3 :
extends st1 st2 → extends st2 st3 → extends st1 st3.
Proof.
intros (Hm & Hl & Hb) (Hm' & Hl' & Hb'). split; [|split].
- by etrans.
- intros i ?. by apply Hl', Hl.
- intros j ?. by apply Hb', Hb.
Qed.

Lemma extends_bind st (e : Entry) (idx_l idx_b : nat) :
extends st {| matches := matches st ++ [e];
              matched_l := {[ idx_l ]} ∪ matched_l st;
              matched_b := {[ idx_b ]} ∪ matched_b st |}.
Proof.
split; [|split]; simpl.
- by apply prefix_app_r.
- intros i ?. apply elem_of_union. by right.
- intros j ?. apply elem_of_union. by right.
Qed.

Lemma exact_row_extends (df_b : DataFrame) st c :
extends st (exact_row df_b st c).
Proof.
destruct c as [idx_l row_l].
destruct (exact_row_cases df_b st idx_l row_l)
  as [->|(idx_b & row_b & _ & _ & _ & _ & _ & ->)];
  [apply extends_refl|apply extends_bind].
Qed.

Lemma fee_row_extends (df_b : DataFrame) st c :
extends st (fee_row df_b st c).
Proof.
destruct c as [idx_l row_l].
destruct (fee_row_cases df_b st idx_l row_l)
  as [->|(idx_b & row_b & _ & _ & _ & _ & _ & _ & _ & ->)];
  [apply extends_refl|apply extends_bind].
Qed.

Lemma exact_match_pass_extends (df_l df_b : DataFrame) st :
extends st (exact_match_pass df_l df_b st).
Proof.
unfold exact_match_pass.
apply (foldl_invariant (extends st)); [|apply extends_refl].
intros a c _ Ha. eapply extends_trans; [done|apply exact_row_extends].
Qed.

Lemma fee_match_pass_extends (df_l df_b : DataFrame) st :
extends st (fee_match_pass df_l df_b st).
Proof.
unfold fee_match_pass.
apply (foldl_invariant (extends st)); [|apply extends_refl].
intros a c _ Ha. eapply extends_trans; [done|apply fee_row_extends].
Qed.

(** X1: no pass takes back what was done. From any state, the state
  after the first pass, after the second pass, and after both, still has
  the old entries in front, unchanged, and every row that was claimed is
  still claimed. *)
Theorem passes_only_extend (df_l df_b : DataFrame) st :
extends st (exact_match_pass df_l df_b st)
∧ extends st (fee_match_pass df_l df_b st)
∧ extends st (fee_match_pass df_l df_b (exact_match_pass df_l df_b st)).
Proof.
split; [apply exact_match_pass_extends|].
split; [apply fee_match_pass_extends|].
eapply extends_trans;
  [apply exact_match_pass_extends|apply fee_match_pass_extends].
Qed.

(** X2: the second pass takes the ledger rows in input order; a row that
  is already claimed, or whose unsigned amount is 0, is skipped; another
  one is bound to the first fee candidate in the order of the bank frame:
  exactly one "Partial Match (Fee)" entry built from the two rows is
  appended and the two labels join the claimed sets; without a candidate
  nothing changes. *)
Theorem fee_pass_binds_first_candidate
  (df_l df_b : DataFrame) st (idx_l : nat) (row_l : Row) :
fee_match_pass (df_l ++ [row_l]) df_b st
= fee_row df_b (fee_match_pass df_l df_b st) (length df_l, row_l)
∧ (idx_l ∈ matched_l st → fee_row df_b st (idx_l, row_l) = st)
∧ (abs_amt row_l == 0 → fee_row df_b st (idx_l, row_l) = st)
∧ ((∀ c, ¬ fee_match_candidate df_b (matched_b st) row_l c) →
   fee_row df_b st (idx_l, row_l) = st)
∧ ((idx_l ∉ matched_l st) →
   ∀ idx_b row_b,
     fee_match_candidate df_b (matched_b st) row_l (idx_b, row_b) →
     (∀ j r, (j < idx_b)%nat →
             ¬ fee_match_candidate df_b (matched_b st) row_l (j, r)) →
     let st' := fee_row df_b st (idx_l, row_l) in
     matches st' = matches st ++ [fee_entry idx_b row_b idx_l row_l]
     ∧ Match_Quality (fields (fee_entry idx_b row_b idx_l row_l))
       = "Partial Match (Fee)"
     ∧ (∀ i, i ∈ matched_l st' ↔ i = idx_l ∨ i ∈ matched_l st)
     ∧ (∀ j, j ∈ matched_b st' ↔ j = idx_b ∨ j ∈ matched_b st)).
Proof.
split; [|split; [|split; [|split]]].
- unfold fee_match_pass. by rewrite iterrows_snoc, foldl_snoc.
- intros Hl. unfold fee_row. by rewrite decide_True.
- intros Hz. unfold fee_row. destruct (decide _); [done|].
  rewrite decide_False; [done|]. lra.
- apply fee_row_miss.
- intros Hl idx_b row_b Hc Hmin. cbv zeta.
  rewrite (fee_row_hit df_b st idx_l row_l (idx_b, row_b)) by done.
  simpl. split; [done|]. split; [done|].
  split; intros k; rewrite elem_of_union, elem_of_singleton; tauto.
Qed.
End growth.

(** ** Further properties of the report *)

Lemma exact_match_candidate_weaken `{SemiSet nat C, !RelDecision (∈@{C})}
    (df_b : DataFrame) (mb mb' : C) (row_l : Row) (c : nat * Row) :
  (∀ j, j ∈ mb → j ∈ mb') →
  exact_match_candidate df_b mb' row_l c → exact_match_candidate df_b mb row_l c.
Proof.
  intros Hsub [Hc Hd]. split; [|done].
  apply elem_of_exact in Hc as (? & Hmb & ?). apply elem_of_exact.
  repeat split; [done| |done]. intros ?. by apply Hmb, Hsub.
Qed.

Lemma fee_match_candidate_weaken `{SemiSet nat C, !RelDecision (∈@{C})}
    (df_b : DataFrame) (mb mb' : C) (row_l : Row) (c : nat * Row) :
  (∀ j, j ∈ mb → j ∈ mb') →
  fee_match_candidate df_b mb' row_l c → fee_match_candidate df_b mb row_l c.
Proof.
  intros Hsub [Hc Hd]. split; [|done].
  apply elem_of_fee_candidates in Hc as (? & Hmb & ? & ?).
  apply elem_of_fee_candidates.
  repeat split; [done| |done..]. intros ?. by apply Hmb, Hsub.
Qed.

Section soundness.
Context `{SemiSet nat C, !RelDecision (∈@{C})}.
Implicit Types (st : State C) (mb : C) (c : nat * Row).

(** X3: what a run reports as matched is within the tolerances, taken with
  a margin of one part in a hundred that covers the rounding of the
  binary64 arithmetic of the source. An "Exact Match" entry names a bank
  row and a ledger row, carries their fields, and the two unsigned
  amounts differ by at most 0.0101 plus 0.0000101 times the ledger's; a
  "Partial Match (Fee)" entry names two rows with the bank's unsigned
  amount below the ledger's and above 0.9599 times it; in both cases the
  dates are at most 5 days apart. *)
Theorem reported_matches_within_tolerance (df_l df_b : DataFrame) (e : Entry) :
e ∈ reconcile (C:=C) df_l df_b →
(Match_Quality (fields e) = "Exact Match" →
 ∃ idx_b row_b idx_l row_l,
   e = exact_entry idx_b row_b idx_l row_l
   ∧ df_b !! idx_b = Some row_b ∧ df_l !! idx_l = Some row_l
   ∧ Qabs (abs_amt row_l - abs_amt row_b)
     <= 0.0101 + 0.0000101 * abs_amt row_l
   ∧ (Z.abs (std_date row_b - std_date row_l) ≤ 5)%Z)
∧ (Match_Quality (fields e) = "Partial Match (Fee)" →
   ∃ idx_b row_b idx_l row_l,
     e = fee_entry idx_b row_b idx_l row_l
     ∧ df_b !! idx_b = Some row_b ∧ df_l !! idx_l = Some row_l
     ∧ abs_amt row_b < abs_amt row_l
     ∧ 0.9599 * abs_amt row_l < abs_amt row_b
     ∧ (Z.abs (std_date row_b - std_date row_l) ≤ 5)%Z).
Proof.
intros He.
pose proof (reconcile_entries (C:=C) df_l df_b) as Hall.
rewrite Forall_forall in Hall.
destruct (Hall e He) as [Hp|Hres].
- destruct Hp as [idx_b row_b idx_l row_l Hb Hl Hclose Hd
                 |idx_b row_b idx_l row_l Hb Hl Hpos Hlt Hgt Hd];
    pose proof (abs_amt_nonneg row_l) as Hnn.
  + split; [intros _|intros Hq; discriminate Hq].
    exists idx_b, row_b, idx_l, row_l. apply isclose_abs_amt in Hclose.
    repeat split; try done. lra.
  + split; [intros Hq; discriminate Hq|intros _].
    exists idx_b, row_b, idx_l, row_l. repeat split; try done. lra.
- destruct Hres; split; intros Hq; discriminate Hq.
Qed.
End soundness.

Lemma unmatched_ledger_entry_inj (c c' : nat * Row) :
  unmatched_ledger_entry c = unmatched_ledger_entry c' → c = c'.
Proof.
  destruct c as [i [d s a]], c' as [i' [d' s' a']].
  unfold unmatched_ledger_entry, unmatched_ledger_dict. simpl.
  intros ?. by simplify_eq.
Qed.

Lemma unmatched_bank_entry_inj (c c' : nat * Row) :
  unmatched_bank_entry c = unmatched_bank_entry c' → c = c'.
Proof.
  destruct c as [i [d s a]], c' as [i' [d' s' a']].
  unfold unmatched_bank_entry, unmatched_bank_dict. simpl.
  intros ?. by simplify_eq.
Qed.

Section leftovers.
Context `{SemiSet nat C, !RelDecision (∈@{C})}.
Implicit Types (st : State C) (mb : C) (c : nat * Row).

Lemma exact_settled_extends (df_b : DataFrame) st st' c :
extends st st' → exact_settled df_b st c → exact_settled df_b st' c.
Proof.
intros (_ & Hl & Hb) Hset Hc c' Hcand. apply (Hset (λ Hin, Hc (Hl _ Hin)) c').
by eapply exact_match_candidate_weaken.
Qed.

Lemma fee_settled_extends (df_b : DataFrame) st st' c :
extends st st' → fee_settled df_b st c → fee_settled df_b st' c.
Proof.
intros (_ & Hl & Hb) Hset Hc c' Hcand. apply (Hset (λ Hin, Hc (Hl _ Hin)) c').
by eapply fee_match_candidate_weaken.
Qed.

Lemma exact_row_settles (df_b : DataFrame) st c :
exact_settled df_b (exact_row df_b st c) c.
Proof.
destruct c as [idx_l row_l]. unfold exact_settled, exact_row. simpl.
destruct (decide (idx_l ∈ matched_l st)) as [Hin|Hin]; [done|].
destruct (list_find _ _) as [[k [idx_b row_b]]|] eqn:Hfind; simpl.
- intros Hno. exfalso. apply Hno, elem_of_union. left.
  by apply elem_of_singleton.
- intros _ [j r] [Hc Hd]. apply elem_of_exact in Hc as (? & ? & ?).
  by apply (proj1 (find_exact_None df_b (matched_b st) row_l) Hfind j r).
Qed.

Lemma fee_row_settles (df_b : DataFrame) st c :
fee_settled df_b (fee_row df_b st c) c.
Proof.
destruct c as [idx_l row_l]. unfold fee_settled, fee_row. simpl.
destruct (decide (idx_l ∈ matched_l st)) as [Hin|Hin]; [done|].
destruct (decide (abs_amt row_l > 0)) as [Hpos|Hpos].
- destruct (list_find _ _) as [[k [idx_b row_b]]|] eqn:Hfind; simpl.
  + intros Hno. exfalso. apply Hno, elem_of_union. left.
    by apply elem_of_singleton.
  + intros _ [j r] [Hc Hd].
    apply elem_of_fee_candidates in Hc as (? & ? & ? & ?).
    by apply (proj1 (find_fee_None df_b (matched_b st) row_l) Hfind j r).
- intros _ [j r] [Hc Hd].
  apply elem_of_fee_candidates in Hc as (? & ? & Hlt & ?). simpl in Hlt.
  pose proof (abs_amt_nonneg r). lra.
Qed.

Lemma exact_match_pass_settles (df_l df_b : DataFrame) st c :
c ∈ iterrows df_l → exact_settled df_b (exact_match_pass df_l df_b st) c.
Proof.
unfold exact_match_pass. revert c.
apply (foldl_prefix_invariant
         (λ pre a, ∀ c, c ∈ pre → exact_settled df_b a c)).
- intros c Hc. by apply elem_of_nil in Hc.
- intros pre x a _ IH c [Hc| ->%list_elem_of_singleton]%elem_of_app.
  + eapply exact_settled_extends; [apply exact_row_extends|by apply IH].
  + apply exact_row_settles.
Qed.

Lemma fee_match_pass_settles (df_l df_b : DataFrame) st c :
c ∈ iterrows df_l → fee_settled df_b (fee_match_pass df_l df_b st) c.
Proof.
unfold fee_match_pass. revert c.
apply (foldl_prefix_invariant
         (λ pre a, ∀ c, c ∈ pre → fee_settled df_b a c)).
- intros c Hc. by apply elem_of_nil in Hc.
- intros pre x a _ IH c [Hc| ->%list_elem_of_singleton]%elem_of_app.
  + eapply fee_settled_extends; [apply fee_row_extends|by apply IH].
  + apply fee_row_settles.
Qed.

(** An entry "Unmatched Ledger" of a run is the entry of a ledger row
  that is unclaimed after both passes; likewise for the bank. *)
Lemma unmatched_ledger_in_reconcile (df_l df_b : DataFrame) c :
unmatched_ledger_entry c ∈ reconcile (C:=C) df_l df_b
↔ df_l !! c.1 = Some c.2 ∧ (c.1 ∉ matched_l (matched (C:=C) df_l df_b)).
Proof.
unfold reconcile, unmatched_bank, unmatched_ledger.
rewrite !elem_of_app, !list_elem_of_fmap. split.
- intros [Hm|[(c' & Heq & _)|(c' & Heq & Hc')]].
  + destruct (matched_consistent (C:=C) df_l df_b) as [Hp _ _ _ _].
    rewrite Forall_forall in Hp. apply Hp in Hm. inversion Hm.
  + discriminate Heq.
  + apply unmatched_ledger_entry_inj in Heq as <-.
    apply list_elem_of_filter in Hc' as [? Hin]. destruct c.
    by apply elem_of_iterrows in Hin.
- intros [Hr Hno]. right. right. exists c. split; [done|].
  apply list_elem_of_filter. split; [done|]. destruct c.
  by apply elem_of_iterrows.
Qed.

Lemma unmatched_bank_in_reconcile (df_l df_b : DataFrame) c :
unmatched_bank_entry c ∈ reconcile (C:=C) df_l df_b
↔ df_b !! c.1 = Some c.2 ∧ (c.1 ∉ matched_b (matched (C:=C) df_l df_b)).
Proof.
unfold reconcile, unmatched_bank, unmatched_ledger.
rewrite !elem_of_app, !list_elem_of_fmap. split.
- intros [Hm|[(c' & Heq & Hc')|(c' & Heq & _)]].
  + destruct (matched_consistent (C:=C) df_l df_b) as [Hp _ _ _ _].
    rewrite Forall_forall in Hp. apply Hp in Hm. inversion Hm.
  + apply unmatched_bank_entry_inj in Heq as <-.
    apply list_elem_of_filter in Hc' as [? Hin]. destruct c.
    by apply elem_of_iterrows in Hin.
  + discriminate Heq.
- intros [Hr Hno]. right. left. exists c. split; [done|].
  apply list_elem_of_filter. split; [done|]. destruct c.
  by apply elem_of_iterrows.
Qed.

(** X4: what a run leaves unmatched could not have been matched. Whenever
  a ledger row and a bank row are both reported as unmatched and their
  dates are at most 5 days apart, their unsigned amounts are farther
  apart than 0.0099 plus 0.0000099 times the ledger's, and the bank's is
  not between 0.9601 and 0.9999 times the ledger's. The tolerances are
  taken with a margin of one part in a hundred, and the fee window with
  one of one part in ten thousand, which cover the rounding of the
  binary64 arithmetic of the source. *)
Theorem leftovers_cannot_match
  (df_l df_b : DataFrame) (idx_l : nat) (row_l : Row) (idx_b : nat) (row_b : Row) :
unmatched_ledger_entry (idx_l, row_l) ∈ reconcile (C:=C) df_l df_b →
unmatched_bank_entry (idx_b, row_b) ∈ reconcile (C:=C) df_l df_b →
(Z.abs (std_date row_b - std_date row_l) ≤ 5)%Z →
¬ (Qabs (abs_amt row_l - abs_amt row_b)
   <= 0.0099 + 0.0000099 * abs_amt row_l)
∧ ¬ (0.9601 * abs_amt row_l <= abs_amt row_b
     ∧ abs_amt row_b <= 0.9999 * abs_amt row_l).
Proof.
intros [Hl Hnl]%unmatched_ledger_in_reconcile
       [Hb Hnb]%unmatched_bank_in_reconcile Hd.
simpl in Hl, Hnl, Hb, Hnb.
assert (Hin : (idx_l, row_l) ∈ iterrows df_l) by by apply elem_of_iterrows.
pose proof (abs_amt_nonneg row_l) as Hnn.
assert (Hfar : ¬ (Qabs (abs_amt row_l - abs_amt row_b)
                  <= 0.01 + 0.00001 * abs_amt row_l)).
{ intros Hclose.
  pose proof (exact_match_pass_settles df_l df_b initial _ Hin) as Hset.
  eapply exact_settled_extends in Hset; [|apply fee_match_pass_extends].
  apply (Hset Hnl (idx_b, row_b)). split; [|done].
  apply elem_of_exact. repeat split; [done..|]. by apply isclose_abs_amt. }
assert (Hout : ¬ (abs_amt row_b < abs_amt row_l
                  ∧ 0.96 * abs_amt row_l < abs_amt row_b)).
{ intros [Hlt Hgt].
  pose proof (fee_match_pass_settles df_l df_b
                (exact_match_pass df_l df_b initial) _ Hin) as Hset.
  apply (Hset Hnl (idx_b, row_b)). split; [|done].
  apply elem_of_fee_candidates. repeat split; [done..|]. simpl. lra. }
split.
- intros Hclose. apply Hfar. lra.
- intros [Hlo Hhi].
  destruct (Qlt_le_dec 0 (abs_amt row_l)) as [Hpos|Hzero].
  + apply Hout. split; lra.
  + apply Hfar. apply Qabs_Qle_condition. split; lra.
Qed.
End leftovers.

Lemma length_omap_le {A B : Type} (f : A → option B) (l : list A) :
  (length (omap f l) ≤ length l)%nat.
Proof.
  induction l as [|x l IH]; [done|]. csimpl. destruct (f x); simpl; lia.
Qed.

Section order.
Context `{SemiSet nat C, !RelDecision (∈@{C})}.
Implicit Types (st : State C) (mb : C) (c : nat * Row).

Lemma exact_match_pass_order (df_l df_b : DataFrame) st :
∃ new, matches (exact_match_pass df_l df_b st) = matches st ++ new
       ∧ Forall (λ e, Match_Quality (fields e) = "Exact Match") new
       ∧ ledger_ids new `sublist_of` seq 0 (length df_l).
Proof.
rewrite <- iterrows_labels. unfold exact_match_pass.
apply (foldl_prefix_invariant
         (λ pre a, ∃ new, matches a = matches st ++ new
            ∧ Forall (λ e, Match_Quality (fields e) = "Exact Match") new
            ∧ ledger_ids new `sublist_of` pre.*1)).
- exists []. by rewrite app_nil_r.
- intros pre [idx_l row_l] a _ (new & Hm & Hq & Hsub). rewrite fmap_app.
  destruct (exact_row_cases df_b a idx_l row_l)
    as [->|(idx_b & row_b & _ & _ & _ & _ & _ & ->)].
  + exists new. split; [done|]. split; [done|].
    by apply sublist_inserts_r.
  + exists (new ++ [exact_entry idx_b row_b idx_l row_l]). simpl.
    split; [by rewrite Hm, app_assoc|]. split.
    * apply Forall_app. split; [done|]. by constructor.
    * rewrite (ledger_ids_snoc _ _ idx_l) by done. by apply sublist_app.
Qed.

Lemma fee_match_pass_order (df_l df_b : DataFrame) st :
∃ new, matches (fee_match_pass df_l df_b st) = matches st ++ new
       ∧ Forall (λ e, Match_Quality (fields e) = "Partial Match (Fee)") new
       ∧ ledger_ids new `sublist_of` seq 0 (length df_l).
Proof.
rewrite <- iterrows_labels. unfold fee_match_pass.
apply (foldl_prefix_invariant
         (λ pre a, ∃ new, matches a = matches st ++ new
            ∧ Forall (λ e, Match_Quality (fields e) = "Partial Match (Fee)") new
            ∧ ledger_ids new `sublist_of` pre.*1)).
- exists []. by rewrite app_nil_r.
- intros pre [idx_l row_l] a _ (new & Hm & Hq & Hsub). rewrite fmap_app.
  destruct (fee_row_cases df_b a idx_l row_l)
    as [->|(idx_b & row_b & _ & _ & _ & _ & _ & _ & _ & ->)].
  + exists new. split; [done|]. split; [done|].
    by apply sublist_inserts_r.
  + exists (new ++ [fee_entry idx_b row_b idx_l row_l]). simpl.
    split; [by rewrite Hm, app_assoc|]. split.
    * apply Forall_app. split; [done|]. by constructor.
    * rewrite (ledger_ids_snoc _ _ idx_l) by done. by apply sublist_app.
Qed.

(** X5: the entries of a run come in four blocks: the "Exact Match"
  entries, then the "Partial Match (Fee)" entries, then the "Unmatched
  Bank" entries, then the "Unmatched Ledger" entries. Within each of the
  two blocks of matches the ledger labels increase: the matches of a pass
  appear in the order of the ledger frame. *)
Theorem entries_in_pass_order (df_l df_b : DataFrame) :
∃ exacts fees banks ledgers,
  reconcile (C:=C) df_l df_b = exacts ++ fees ++ banks ++ ledgers
  ∧ Forall (λ e, Match_Quality (fields e) = "Exact Match") exacts
  ∧ Forall (λ e, Match_Quality (fields e) = "Partial Match (Fee)") fees
  ∧ Forall (λ e, Match_Quality (fields e) = "Unmatched Bank") banks
  ∧ Forall (λ e, Match_Quality (fields e) = "Unmatched Ledger") ledgers
  ∧ ledger_ids exacts `sublist_of` seq 0 (length df_l)
  ∧ ledger_ids fees `sublist_of` seq 0 (length df_l).
Proof.
destruct (exact_match_pass_order df_l df_b initial)
  as (exacts & He & Hqe & Hse).
destruct (fee_match_pass_order df_l df_b (exact_match_pass df_l df_b initial))
  as (fees & Hf & Hqf & Hsf).
exists exacts, fees,
  (unmatched_bank df_b (matched (C:=C) df_l df_b)),
  (unmatched_ledger df_l (matched (C:=C) df_l df_b)).
split; [|split; [done|split; [done|split; [|split; [|done]]]]].
- unfold reconcile at 1. unfold matched at 1. rewrite Hf, He. simpl.
  by rewrite <- app_assoc.
- unfold unmatched_bank. by apply Forall_fmap, Forall_true.
- unfold unmatched_ledger. by apply Forall_fmap, Forall_true.
Qed.

Lemma count_entries (df_l df_b : DataFrame) (es : list Entry) :
Forall (λ e, pairing df_l df_b e ∨ residual df_l df_b e) es →
(length (ledger_ids es) + length (bank_ids es)
 = length es + length (filter is_match (fields <$> es)))%nat.
Proof.
induction 1 as [|e es He _ IH]; [done|].
rewrite fmap_cons, filter_cons. unfold ledger_ids, bank_ids in *.
destruct He as [[]|[]].
- rewrite decide_True by (by left). csimpl in *. simpl. lia.
- rewrite decide_True by (by right). csimpl in *. simpl. lia.
- rewrite decide_False by (by intros [?|?]). csimpl in *. simpl. lia.
- rewrite decide_False by (by intros [?|?]). csimpl in *. simpl. lia.
Qed.

(** X6: the size of the report. A run that writes a report writes one row
  for every ledger row and every bank row, less one for every match: the
  number of rows plus the number of rows that are matches is the number
  of ledger rows plus the number of bank rows. The report has at least as
  many rows as the longer file and the returned string states their
  number. *)
Theorem report_row_count (fs : Files) (lp bp : string) (rows : list ReportRow) :
report (execute_reconciliation C fs lp bp) = Some rows →
∃ df_l df_b,
  read_csv fs lp = Frame df_l ∧ read_csv fs bp = Frame df_b
  ∧ (length rows + length (filter is_match rows)
     = length df_l + length df_b)%nat
  ∧ (length df_l ≤ length rows)%nat ∧ (length df_b ≤ length rows)%nat
  ∧ returned (execute_reconciliation C fs lp bp)
    = "SUCCESS: Report generated at Reconciliation_Report.xlsx with "
      +:+ pretty (length rows) +:+ " rows.".
Proof.
intros Hrep. pose proof Hrep as (df_l & df_b & Hl & Hb & Hnl & Hnb & ->)%report_Some.
exists df_l, df_b. split; [done|]. split; [done|].
pose proof (count_entries df_l df_b _ (reconcile_entries (C:=C) df_l df_b))
  as Hcount.
pose proof (Permutation_length (reconcile_ledger_ids (C:=C) df_l df_b)) as Hll.
pose proof (Permutation_length (reconcile_bank_ids (C:=C) df_l df_b)) as Hlb.
rewrite length_seq in Hll, Hlb. rewrite length_fmap.
assert (Hle_l : (length (ledger_ids (reconcile (C:=C) df_l df_b))
                 ≤ length (reconcile (C:=C) df_l df_b))%nat)
  by apply length_omap_le.
assert (Hle_b : (length (bank_ids (reconcile (C:=C) df_l df_b))
                 ≤ length (reconcile (C:=C) df_l df_b))%nat)
  by apply length_omap_le.
split; [lia|]. split; [lia|]. split; [lia|].
unfold execute_reconciliation. rewrite Hl, Hb.
destruct df_l; [done|]. destruct df_b; [done|]. done.
Qed.
End order.

Lemma filter_none {A : Type} (P : A → Prop) `{!∀ x, Decision (P x)} (l : list A) :
  (∀ x, x ∈ l → ¬ P x) → filter P l = [].
Proof.
  induction l as [|x l IH]; intros Hno; [done|].
  rewrite filter_cons, decide_False by (apply Hno; left).
  apply IH. intros y Hy. apply Hno. by right.
Qed.

Lemma diagonal_snoc (df_l df_b : DataFrame) (row_l row_b : Row) :
  length df_l = length df_b →
  diagonal (df_l ++ [row_l]) (df_b ++ [row_b])
  = diagonal df_l df_b ++ [exact_entry (length df_l) row_b (length df_l) row_l].
Proof.
  intros Hlen. unfold diagonal. rewrite zip_with_app by done.
  rewrite imap_app. simpl.
  by rewrite length_zip_with, <- Hlen, Nat.min_id, Nat.add_0_r.
Qed.

Section diagonal.
Context `{SemiSet nat C, !RelDecision (∈@{C})}.
Implicit Types (st : State C) (mb : C) (c : nat * Row).

(** The first pass on two frames that agree row by row, the bank frame
  possibly longer. *)
Lemma exact_match_pass_diagonal (df_l df_b rest : DataFrame) :
Forall2 (λ row_l row_b,
           isclose (abs_amt row_b) (abs_amt row_l) 0.01
           ∧ (Z.abs (std_date row_b - std_date row_l) ≤ 5)%Z) df_l df_b →
let st := exact_match_pass df_l (df_b ++ rest) (initial (C:=C)) in
matches st = diagonal df_l df_b
∧ (∀ i, i ∈ matched_l st ↔ (i < length df_l)%nat)
∧ (∀ j, j ∈ matched_b st ↔ (j < length df_l)%nat).
Proof.
revert df_b rest.
induction df_l as [|row_l df_l IH] using rev_ind; intros df_b rest Hall.
- apply Forall2_nil_inv_l in Hall as ->. simpl.
  split; [done|]. split; intros i; (split; [by intros ?%not_elem_of_empty|lia]).
- apply Forall2_app_inv_l in Hall as (b & b2 & Hb & Hlast & ->).
  apply Forall2_cons_inv_l in Hlast as (row_b & b3 & [Hclose Hd] & Hnil & ->).
  apply Forall2_nil_inv_l in Hnil as ->.
  pose proof (Forall2_length _ _ _ Hb) as Hlen.
  rewrite <- app_assoc. simpl.
  destruct (IH b (row_b :: rest) Hb) as (Hm & Hl & Hbk).
  unfold exact_match_pass in *. rewrite iterrows_snoc, foldl_snoc.
  set (st1 := foldl (exact_row (b ++ row_b :: rest)) initial (iterrows df_l)) in *.
  rewrite (exact_row_hit _ st1 (length df_l) row_l (length b, row_b)).
  + simpl. split; [|split].
    * rewrite Hm, diagonal_snoc by done. by rewrite Hlen.
    * intros i. rewrite elem_of_union, elem_of_singleton, Hl, length_app.
      simpl. lia.
    * intros j. rewrite elem_of_union, elem_of_singleton, Hbk, length_app.
      simpl. lia.
  + rewrite Hl. lia.
  + split; [|done]. apply elem_of_exact. simpl. repeat split; [|..|done].
    * by apply list_lookup_middle.
    * rewrite Hbk. lia.
  + simpl. intros j r Hj [Hc _]. apply elem_of_exact in Hc as (_ & Hc & _).
    simpl in Hc. apply Hc, Hbk. lia.
Qed.

Lemma reconcile_diagonal (df_l df_b : DataFrame) :
Forall2 (λ row_l row_b,
           isclose (abs_amt row_b) (abs_amt row_l) 0.01
           ∧ (Z.abs (std_date row_b - std_date row_l) ≤ 5)%Z) df_l df_b →
reconcile (C:=C) df_l df_b = diagonal df_l df_b.
Proof.
intros Hall.
pose proof (Forall2_length _ _ _ Hall) as Hlen.
destruct (exact_match_pass_diagonal df_l df_b [] Hall) as (Hm & Hl & Hb).
rewrite app_nil_r in Hm, Hl, Hb.
set (st1 := exact_match_pass df_l df_b (initial (C:=C))) in *.
assert (Hfee : matched (C:=C) df_l df_b = st1).
{ unfold matched, fee_match_pass. fold st1. apply foldl_fixed.
  intros [i r] Hin%elem_of_iterrows. unfold fee_row.
  rewrite decide_True; [done|]. apply Hl. by eapply lookup_lt_Some. }
unfold reconcile, unmatched_bank, unmatched_ledger. rewrite Hfee, Hm.
rewrite !filter_none; [by rewrite app_nil_r| |].
- intros [i r] Hin%elem_of_iterrows Hno. apply Hno, Hl.
  by eapply lookup_lt_Some.
- intros [j r] Hin%elem_of_iterrows Hno. apply Hno, Hb. rewrite Hlen.
  by eapply lookup_lt_Some.
Qed.

(** X7: two files that list the same transactions in the same order
  reconcile completely. When the frames have the same number of rows and,
  position by position, the unsigned amounts differ by at most 0.0099
  plus 0.0000099 times the ledger's (the tolerance of the first pass,
  less a margin of one part in a hundred that covers the rounding of the
  binary64 arithmetic of the source) and the dates are at most 5 days
  apart, the run reports one "Exact Match" for every position, in order,
  binding each ledger row to the bank row at its own position, and
  nothing else. *)
Theorem aligned_files_match_row_by_row (df_l df_b : DataFrame) :
Forall2 (λ row_l row_b,
           Qabs (abs_amt row_l - abs_amt row_b)
             <= 0.0099 + 0.0000099 * abs_amt row_l
           ∧ (Z.abs (std_date row_b - std_date row_l) ≤ 5)%Z) df_l df_b →
reconcile (C:=C) df_l df_b = diagonal df_l df_b.
Proof.
intros Hall. apply reconcile_diagonal.
eapply Forall2_impl; [done|]. intros row_l row_b [Hclose ?]. split; [|done].
apply isclose_abs_amt. pose proof (abs_amt_nonneg row_l). lra.
Qed.

Lemma isclose_same (x atol : Q) : 0 <= atol → isclose x x atol.
Proof.
intros Ha. unfold isclose, rtol.
assert (Hz : Qabs (x - x) == 0).
{ assert (Hx : x - x == 0) by ring. by rewrite Hx. }
rewrite Hz. pose proof (Qabs_nonneg x). lra.
Qed.

(** X13: the first fit depends on the order of the bank file. Take two
  ledger rows and two bank rows of one amount, the first ledger row 10
  days after the second, one bank row 5 days and the other 12 days after
  the second ledger row. With the nearer bank row first, the first ledger
  row takes it and the other two rows are left unmatched; with the bank
  rows in the other order both ledger rows are matched. *)
Theorem first_fit_depends_on_bank_order (a : Q) (d : Z) (s1 s2 s3 s4 : string) :
let l_late := mkRow (d + 10) s1 a in
let l_early := mkRow d s2 a in
let b_near := mkRow (d + 5) s3 a in
let b_far := mkRow (d + 12) s4 a in
reconcile (C:=C) [l_late; l_early] [b_near; b_far]
= [ exact_entry 0 b_near 0 l_late;
    unmatched_bank_entry (1%nat, b_far);
    unmatched_ledger_entry (1%nat, l_early) ]
∧ reconcile (C:=C) [l_late; l_early] [b_far; b_near]
  = [ exact_entry 0 b_far 0 l_late; exact_entry 1 b_near 1 l_early ].
Proof.
intros l_late l_early b_near b_far.
assert (Hclose : ∀ r r' : Row, std_amt r = a → std_amt r' = a →
                   isclose (abs_amt r') (abs_amt r) 0.01).
{ intros r r' Hr Hr'. unfold abs_amt. rewrite Hr, Hr'.
  apply isclose_same. by vm_compute. }
split.
- set (df_b := [b_near; b_far]).
  set (st1 := {| matches := [exact_entry 0 b_near 0 l_late];
                 matched_l := {[ 0%nat ]} ∪ (∅ : C);
                 matched_b := {[ 0%nat ]} ∪ (∅ : C) |}).
  assert (Hturn1 : exact_row df_b (initial (C:=C)) (0%nat, l_late) = st1).
  { rewrite (exact_row_hit df_b initial 0 l_late (0%nat, b_near)); [done|..].
    - simpl. apply not_elem_of_empty.
    - split.
      + apply elem_of_exact. simpl. repeat split; [apply not_elem_of_empty|].
        by apply Hclose.
      + unfold within_5_days, days. simpl. lia.
    - simpl. intros j r Hj. lia. }
  assert (Hin0 : 0%nat ∈ {[ 0%nat ]} ∪ (∅ : C)).
  { apply elem_of_union. left. by apply elem_of_singleton. }
  assert (Hin1 : 1%nat ∉ {[ 0%nat ]} ∪ (∅ : C)).
  { intros [Hs|He]%elem_of_union.
    - by apply elem_of_singleton in Hs.
    - by apply not_elem_of_empty in He. }
  assert (Hb0 : 0%nat ∈ matched_b st1) by done.
  assert (Hb1 : 1%nat ∉ matched_b st1) by done.
  assert (Hl0 : 0%nat ∈ matched_l st1) by done.
  assert (Hl1 : 1%nat ∉ matched_l st1) by done.
  assert (Hturn2 : exact_row df_b st1 (1%nat, l_early) = st1).
  { apply exact_row_miss. intros [j r] [Hc Hd].
    apply elem_of_exact in Hc as (Hr & Hj & _). simpl in Hr, Hj.
    destruct j as [|[|j]]; [done| |done].
    simpl in Hr. simplify_eq. unfold within_5_days, days in Hd.
    simpl in Hd. lia. }
  assert (Hturn3 : fee_row df_b st1 (0%nat, l_late) = st1).
  { unfold fee_row. by rewrite decide_True. }
  assert (Hturn4 : fee_row df_b st1 (1%nat, l_early) = st1).
  { apply fee_row_miss. intros [j r] [Hc Hd].
    apply elem_of_fee_candidates in Hc as (Hr & Hj & Hlt & _).
    simpl in Hr, Hj, Hlt.
    destruct j as [|[|j]]; [done| |done].
    simpl in Hr. simplify_eq. unfold abs_amt in Hlt. simpl in Hlt.
    by apply Qlt_irrefl in Hlt. }
  assert (Hm : matched (C:=C) [l_late; l_early] df_b = st1).
  { unfold matched, fee_match_pass, exact_match_pass.
    change (iterrows [l_late; l_early])
      with [(0%nat, l_late); (1%nat, l_early)].
    cbn [foldl]. by rewrite Hturn1, Hturn2, Hturn3, Hturn4. }
  unfold reconcile, unmatched_bank, unmatched_ledger. rewrite Hm.
  change (iterrows df_b) with [(0%nat, b_near); (1%nat, b_far)].
  change (iterrows [l_late; l_early])
    with [(0%nat, l_late); (1%nat, l_early)].
  rewrite !filter_cons, !filter_nil. simpl fst.
  rewrite (decide_False (P := 0%nat ∉ matched_b st1)) by tauto.
  rewrite (decide_True (P := 1%nat ∉ matched_b st1)) by done.
  rewrite (decide_False (P := 0%nat ∉ matched_l st1)) by tauto.
  rewrite (decide_True (P := 1%nat ∉ matched_l st1)) by done.
  done.
- rewrite reconcile_diagonal; [done|].
  repeat constructor; try (by apply Hclose); simpl; lia.
Qed.
End diagonal.

(** ** The signs of the amounts *)

Lemma iterrows_fmap (f : Row → Row) (df : DataFrame) :
  iterrows (f <$> df) = prod_map id f <$> iterrows df.
Proof. unfold iterrows. by rewrite imap_fmap, fmap_imap. Qed.

(** A scan behind a filter commutes with a rewriting of the elements that
    both tests cannot see. *)
Lemma scan_fmap {A B : Type} (h : A → B) (P Q : A → Prop) (P' Q' : B → Prop)
    `{!∀ x, Decision (P x), !∀ x, Decision (Q x)}
    `{!∀ y, Decision (P' y), !∀ y, Decision (Q' y)} (l : list A) :
  (∀ x, P' (h x) ↔ P x) → (∀ x, Q' (h x) ↔ Q x) →
  list_find Q' (filter P' (h <$> l))
  = prod_map id h <$> list_find Q (filter P l).
Proof.
  intros HP HQ. induction l as [|x l IH]; [done|].
  rewrite fmap_cons, !filter_cons.
  destruct (decide (P x)) as [Hx|Hx].
  - rewrite decide_True by (by apply HP). cbn [list_find].
    destruct (decide (Q x)) as [Hq|Hq].
    + by rewrite decide_True by (by apply HQ).
    + rewrite decide_False by (by rewrite HQ). rewrite IH.
      by destruct (list_find Q (filter P l)) as [[??]|].
  - by rewrite decide_False by (by rewrite HP).
Qed.

Lemma negate_keeps_unsigned : keeps_unsigned negate.
Proof.
  intros [d s [n m]]. repeat split. unfold abs_amt, negate, Qabs, Qopp. simpl.
  by rewrite Z.abs_opp.
Qed.

Lemma id_keeps_unsigned : keeps_unsigned id.
Proof. by intros r. Qed.

Lemma unsigned_exact_entry (f g : Row → Row) (idx_b idx_l : nat) (row_b row_l : Row) :
  keeps_unsigned f → keeps_unsigned g →
  unsigned_entry (exact_entry idx_b (g row_b) idx_l (f row_l))
  = unsigned_entry (exact_entry idx_b row_b idx_l row_l).
Proof.
  intros Hf Hg. destruct (Hf row_l) as (Hd & Hs & Ha).
  destruct (Hg row_b) as (Hd' & Hs' & Ha').
  unfold unsigned_entry, exact_entry, unsigned, exact_dict, abs_amt in *. simpl.
  by rewrite Hd, Hs, Ha, Hd', Hs', Ha'.
Qed.

Lemma unsigned_fee_entry (f g : Row → Row) (idx_b idx_l : nat) (row_b row_l : Row) :
  keeps_unsigned f → keeps_unsigned g →
  unsigned_entry (fee_entry idx_b (g row_b) idx_l (f row_l))
  = unsigned_entry (fee_entry idx_b row_b idx_l row_l).
Proof.
  intros Hf Hg. destruct (Hf row_l) as (Hd & Hs & Ha).
  destruct (Hg row_b) as (Hd' & Hs' & Ha').
  unfold unsigned_entry, fee_entry, unsigned, fee_dict. simpl.
  rewrite Hs, Hs', Ha, Ha'. unfold abs_amt in *. by rewrite Ha, Ha'.
Qed.

Section signs.
Context `{SemiSet nat C, !RelDecision (∈@{C})}.
Context (f g : Row → Row) (Hf : keeps_unsigned f) (Hg : keeps_unsigned g).
Implicit Types (st : State C) (mb : C) (c : nat * Row).

Lemma within_5_days_keeps (row_l : Row) c :
within_5_days (f row_l) (prod_map id g c) ↔ within_5_days row_l c.
Proof.
unfold within_5_days, days. simpl.
destruct (Hf row_l) as (-> & _), (Hg c.2) as (-> & _). done.
Qed.

Lemma find_exact_keeps (df_b : DataFrame) (mb' mb : C) (row_l : Row) :
(∀ j, j ∈ mb' ↔ j ∈ mb) →
list_find (within_5_days (f row_l)) (exact (g <$> df_b) mb' (f row_l))
= prod_map id (prod_map id g)
    <$> list_find (within_5_days row_l) (exact df_b mb row_l).
Proof.
intros Hmb. unfold exact, candidates.
rewrite iterrows_fmap, !list_filter_filter.
apply scan_fmap.
- intros c. simpl. destruct (Hf row_l) as (_ & _ & ->).
  destruct (Hg c.2) as (_ & _ & ->). by rewrite Hmb.
- apply within_5_days_keeps.
Qed.

Lemma find_fee_keeps (df_b : DataFrame) (mb' mb : C) (row_l : Row) :
(∀ j, j ∈ mb' ↔ j ∈ mb) →
list_find (within_5_days (f row_l)) (fee_candidates (g <$> df_b) mb' (f row_l))
= prod_map id (prod_map id g)
    <$> list_find (within_5_days row_l) (fee_candidates df_b mb row_l).
Proof.
intros Hmb. unfold fee_candidates, candidates.
rewrite iterrows_fmap, !list_filter_filter.
apply scan_fmap.
- intros c. simpl. destruct (Hf row_l) as (_ & _ & ->).
  destruct (Hg c.2) as (_ & _ & ->). by rewrite Hmb.
- apply within_5_days_keeps.
Qed.

Lemma alike_bind st' st (e' e : Entry) (idx_l idx_b : nat) :
alike st' st → unsigned_entry e' = unsigned_entry e →
alike {| matches := matches st' ++ [e'];
         matched_l := {[ idx_l ]} ∪ matched_l st';
         matched_b := {[ idx_b ]} ∪ matched_b st' |}
      {| matches := matches st ++ [e];
         matched_l := {[ idx_l ]} ∪ matched_l st;
         matched_b := {[ idx_b ]} ∪ matched_b st |}.
Proof.
intros (Hm & Hl & Hb) He. split; [|split]; simpl.
- rewrite !fmap_app. simpl. by rewrite Hm, He.
- intros i. by rewrite !elem_of_union, Hl.
- intros j. by rewrite !elem_of_union, Hb.
Qed.

Lemma exact_row_alike (df_b : DataFrame) st' st c :
alike st' st →
alike (exact_row (g <$> df_b) st' (prod_map id f c)) (exact_row df_b st c).
Proof.
intros Hst. pose proof Hst as (Hm & Hl & Hb).
destruct c as [idx_l row_l]. unfold exact_row. simpl.
rewrite (find_exact_keeps df_b _ _ row_l Hb).
destruct (decide (idx_l ∈ matched_l st')) as [Hin|Hin],
         (decide (idx_l ∈ matched_l st)) as [Hin2|Hin2];
  [done|by apply Hl in Hin|by apply Hl in Hin2|].
destruct (list_find _ _) as [[k [idx_b row_b]]|]; simpl; [|done].
apply alike_bind; [done|]. by apply unsigned_exact_entry.
Qed.

Lemma fee_row_alike (df_b : DataFrame) st' st c :
alike st' st →
alike (fee_row (g <$> df_b) st' (prod_map id f c)) (fee_row df_b st c).
Proof.
intros Hst. pose proof Hst as (Hm & Hl & Hb).
destruct c as [idx_l row_l]. unfold fee_row. simpl.
rewrite (find_fee_keeps df_b _ _ row_l Hb).
destruct (Hf row_l) as (_ & _ & ->).
destruct (decide (idx_l ∈ matched_l st')) as [Hin|Hin],
         (decide (idx_l ∈ matched_l st)) as [Hin2|Hin2];
  [done|by apply Hl in Hin|by apply Hl in Hin2|].
destruct (decide (abs_amt row_l > 0)); [|done].
destruct (list_find _ _) as [[k [idx_b row_b]]|]; simpl; [|done].
apply alike_bind; [done|]. by apply unsigned_fee_entry.
Qed.

Lemma matched_alike (df_l df_b : DataFrame) :
alike (matched (C:=C) (f <$> df_l) (g <$> df_b)) (matched (C:=C) df_l df_b).
Proof.
unfold matched, fee_match_pass, exact_match_pass.
rewrite iterrows_fmap, !foldl_fmap.
apply (foldl_related alike); [intros; by apply fee_row_alike|].
apply (foldl_related alike); [intros; by apply exact_row_alike|].
by split.
Qed.

(** X8: only the unsigned amounts count. Changing the sign of the amount
  in any rows of either file, whatever rule picks the rows, changes
  nothing in the report but the signs of the amounts it carries: the same
  rows are bound or left unmatched, in the same order, with the same
  labels, dates, descriptions and differences. *)
Theorem signs_do_not_matter (df_l df_b : DataFrame) :
unsigned_entry <$> reconcile (C:=C) (f <$> df_l) (g <$> df_b)
= unsigned_entry <$> reconcile (C:=C) df_l df_b.
Proof.
destruct (matched_alike df_l df_b) as (Hm & Hl & Hb).
unfold reconcile, unmatched_bank, unmatched_ledger.
rewrite !fmap_app, Hm. f_equal. rewrite !iterrows_fmap.
f_equal.
- rewrite (list_filter_iff _ (λ c, c.1 ∉ matched_b (matched (C:=C) df_l df_b)
                               ) (prod_map id g <$> iterrows df_b))
    by (intros c; by rewrite Hb).
  generalize (matched_b (matched (C:=C) df_l df_b)). intros mb.
  induction (iterrows df_b) as [|[j r] l IH]; [done|].
  rewrite fmap_cons, !filter_cons. simpl.
  destruct (decide (j ∉ mb)); [|done].
  rewrite !fmap_cons, IH. f_equal.
  destruct (Hg r) as (Hd & Hs & Ha).
  unfold unsigned_entry, unmatched_bank_entry, unsigned, unmatched_bank_dict.
  simpl. unfold abs_amt in Ha. by rewrite Hd, Hs, Ha.
- rewrite (list_filter_iff _ (λ c, c.1 ∉ matched_l (matched (C:=C) df_l df_b)
                               ) (prod_map id f <$> iterrows df_l))
    by (intros c; by rewrite Hl).
  generalize (matched_l (matched (C:=C) df_l df_b)). intros ml.
  induction (iterrows df_l) as [|[i r] l IH]; [done|].
  rewrite fmap_cons, !filter_cons. simpl.
  destruct (decide (i ∉ ml)); [|done].
  rewrite !fmap_cons, IH. f_equal.
  destruct (Hf r) as (Hd & Hs & Ha).
  unfold unsigned_entry, unmatched_ledger_entry, unsigned, unmatched_ledger_dict.
  simpl. unfold abs_amt in Ha. by rewrite Hd, Hs, Ha.
Qed.
End signs.

(** ** Rounding *)

Lemma round_half_even_error (x : Q) :
  (Z.abs (2 * (round_half_even x * Z.pos (Qden x) - Qnum x)) ≤ Z.pos (Qden x))%Z.
Proof.
  destruct x as [n d]. unfold round_half_even. simpl.
  pose proof (Z.div_mod n (Z.pos d) ltac:(lia)) as Hdm.
  pose proof (Z.mod_pos_bound n (Z.pos d) ltac:(lia)) as Hr.
  generalize dependent (n mod Z.pos d)%Z. generalize dependent (n / Z.pos d)%Z.
  intros q r Hdm Hr.
  destruct (2 * r ?= Z.pos d)%Z eqn:Hcmp;
    [apply Z.compare_eq in Hcmp|change (2 * r < Z.pos d)%Z in Hcmp
    |apply Z.compare_gt_iff in Hcmp];
    try destruct (Z.even q); subst n; lia.
Qed.

(** [round x ndigits] is a multiple of [10^-ndigits] at most half such a
    unit away from [x]. *)
Lemma round_error (x : Q) (ndigits : nat) :
  Qabs (round x ndigits - x) <= 1 # (2 * Z.to_pos (10 ^ Z.of_nat ndigits)).
Proof.
  assert (Hs : (0 < 10 ^ Z.of_nat ndigits)%Z) by (apply Z.pow_pos_nonneg; lia).
  pose proof (round_half_even_error (x * inject_Z (10 ^ Z.of_nat ndigits))) as Hk.
  unfold round.
  set (k := round_half_even (x * inject_Z (10 ^ Z.of_nat ndigits))) in *.
  destruct x as [n d]. simpl in Hk. rewrite Pos.mul_1_r in Hk.
  unfold Qabs, Qminus, Qplus, Qopp, Qle. simpl.
  set (s := (10 ^ Z.of_nat ndigits)%Z) in *.
  rewrite !Pos2Z.inj_mul, Z2Pos.id by done. nia.
Qed.

Section difference.
Context `{SemiSet nat C, !RelDecision (∈@{C})}.

(** X9: the difference a "Partial Match (Fee)" entry reports is at most
  half a cent away from the bank's unsigned amount minus the ledger's,
  is never positive, and is never below minus 4% of the ledger's
  unsigned amount by more than half a cent. *)
Theorem fee_difference_bounds (df_l df_b : DataFrame) (e : Entry) :
e ∈ reconcile (C:=C) df_l df_b →
Match_Quality (fields e) = "Partial Match (Fee)" →
∃ idx_b row_b idx_l row_l difference,
  of_bank e = Some idx_b ∧ of_ledger e = Some idx_l
  ∧ df_b !! idx_b = Some row_b ∧ df_l !! idx_l = Some row_l
  ∧ Difference (fields e) = Some difference
  ∧ Qabs (difference - (abs_amt row_b - abs_amt row_l)) <= 0.005
  ∧ - (0.04 * abs_amt row_l) - 0.005 <= difference
  ∧ difference <= 0.
Proof.
intros He Hq.
pose proof (reconcile_entries (C:=C) df_l df_b) as Hall.
rewrite Forall_forall in Hall.
destruct (Hall e He) as [Hp|Hres].
- destruct Hp as [idx_b row_b idx_l row_l ? ? ? ?
                 |idx_b row_b idx_l row_l Hb Hl Hpos Hlt Hgt Hd];
    [discriminate Hq|].
  exists idx_b, row_b, idx_l, row_l,
    (round (abs_amt row_b - abs_amt row_l) 2).
  pose proof (round_error (abs_amt row_b - abs_amt row_l) 2) as Herr.
  assert (Herr' : Qabs (round (abs_amt row_b - abs_amt row_l) 2
                        - (abs_amt row_b - abs_amt row_l)) <= 0.005).
  { eapply Qle_trans; [exact Herr|]. by vm_compute. }
  repeat split; try done.
  + apply Qabs_Qle_condition in Herr' as [Hlo _]. lra.
  + apply round_nonpos. lra.
- destruct Hres; discriminate Hq.
Qed.
End difference.

(** ** The data generator *)

Lemma weekday_range (d : Z) : (0 ≤ weekday d ≤ 6)%Z.
Proof. unfold weekday. pose proof (Z.mod_pos_bound (d + 3) 7). lia. Qed.

(** X10: the clearing date [get_business_day_lag] returns is never a
    Saturday or a Sunday. It is the date [lag] days later when that is a
    working day, and the Monday after it otherwise, so between [lag] and
    [lag + 2] days after the given date. *)
Theorem clearing_date_is_working_day (date_obj lag : Z) :
  let cleared := get_business_day_lag date_obj lag in
  (0 ≤ weekday cleared ≤ 4)%Z
  ∧ (date_obj + lag ≤ cleared ≤ date_obj + lag + 2)%Z
  ∧ ((weekday (date_obj + lag) ≤ 4)%Z → cleared = (date_obj + lag)%Z)
  ∧ ((5 ≤ weekday (date_obj + lag))%Z →
     weekday cleared = 0%Z ∧ (date_obj + lag < cleared)%Z).
Proof.
  unfold get_business_day_lag.
  pose proof (weekday_range (date_obj + lag)) as Hw.
  destruct (5 <=? weekday (date_obj + lag))%Z eqn:Hcmp.
  - apply Z.leb_le in Hcmp.
    assert (Hmon : weekday (date_obj + lag + (7 - weekday (date_obj + lag))) = 0%Z).
    { unfold weekday.
      pose proof (Z.div_mod (date_obj + lag + 3) 7 ltac:(lia)) as Hdm.
      pose proof (Z.mod_pos_bound (date_obj + lag + 3) 7 ltac:(lia)) as Hr.
      symmetry.
      apply (Z.mod_unique_pos _ _ ((date_obj + lag + 3) / 7 + 1)); lia. }
    cbv zeta. rewrite Hmon. repeat split; lia.
  - apply Z.leb_gt in Hcmp. cbv zeta. repeat split; lia.
Qed.

(** X11: with the default draw of 1 to 4 days, the clearing date is 1 to
    6 days after the given date, and it is within the 5 days the engine
    allows between a ledger row and a bank row except in one case: a
    4-day lag from a Tuesday, which lands on a Saturday and is moved to
    the Monday, 6 days later. *)
Theorem clearing_lag_and_date_window (row_l row_b : Row) (lag : Z) (idx_b : nat) :
  (1 ≤ lag ≤ 4)%Z →
  std_date row_b = get_business_day_lag (std_date row_l) lag →
  (1 ≤ std_date row_b - std_date row_l ≤ 6)%Z
  ∧ (within_5_days row_l (idx_b, row_b)
     ↔ ¬ (lag = 4%Z ∧ weekday (std_date row_l) = 1%Z)).
Proof.
  intros Hlag Hb. unfold within_5_days, days. simpl. rewrite Hb.
  unfold get_business_day_lag.
  pose proof (weekday_range (std_date row_l + lag)) as Hw.
  assert (Hrel : (weekday (std_date row_l + lag)
                  = (weekday (std_date row_l) + lag) mod 7)%Z).
  { unfold weekday. rewrite <- Z.add_assoc, (Z.add_comm lag 3), Z.add_assoc.
    by rewrite Zplus_mod_idemp_l. }
  pose proof (weekday_range (std_date row_l)) as Hw0.
  destruct (5 <=? weekday (std_date row_l + lag))%Z eqn:Hcmp.
  - apply Z.leb_le in Hcmp. cbv zeta. split; [lia|].
    assert (Hcases : (weekday (std_date row_l) + lag < 7
                      ∧ weekday (std_date row_l + lag)
                        = weekday (std_date row_l) + lag)%Z
                     ∨ (7 ≤ weekday (std_date row_l) + lag
                        ∧ weekday (std_date row_l + lag)
                          = weekday (std_date row_l) + lag - 7)%Z).
    { destruct (Z_lt_le_dec (weekday (std_date row_l) + lag) 7) as [Hlt|Hge].
      - left. split; [done|]. rewrite Hrel. apply Z.mod_small. lia.
      - right. split; [done|]. rewrite Hrel. symmetry.
        apply (Z.mod_unique_pos _ _ 1); lia. }
    split; intros Hin; [intros [-> Htue]|]; lia.
  - apply Z.leb_gt in Hcmp. cbv zeta. split; [lia|]. split; [|lia].
    intros _ [-> Htue]. rewrite Hrel, Htue in Hcmp. by vm_compute in Hcmp.
Qed.

(** X12: the net deposit the generator derives from a gross amount (2.9%
    plus 0.30 taken off, rounded to cents) is in the fee window of the
    second pass whenever the gross amount is at least 27.73, and is not
    when the gross amount is between 1 and 26.81. *)
Theorem stripe_net_and_fee_window (row_l row_b : Row) :
  std_amt row_b = net_deposit (std_amt row_l) →
  (27.73 <= std_amt row_l →
   abs_amt row_b < abs_amt row_l ∧ abs_amt row_b > abs_amt row_l * 0.96)
  ∧ (1 <= std_amt row_l → std_amt row_l <= 26.81 →
     ¬ (abs_amt row_b < abs_amt row_l ∧ abs_amt row_b > abs_amt row_l * 0.96)).
Proof.
  intros Hb. unfold abs_amt. rewrite Hb. unfold net_deposit, stripe_fee.
  set (g := std_amt row_l).
  pose proof (round_error (g - (g * 0.029 + 0.30)) 2) as Herr.
  assert (Herr' : Qabs (round (g - (g * 0.029 + 0.30)) 2
                        - (g - (g * 0.029 + 0.30))) <= 0.005).
  { eapply Qle_trans; [exact Herr|]. by vm_compute. }
  apply Qabs_Qle_condition in Herr' as [Hlo Hhi].
  set (net := round (g - (g * 0.029 + 0.30)) 2) in *.
  split.
  - intros Hg.
    assert (Hn : Qabs net == net) by (apply Qabs_pos; lra).
    assert (Hgg : Qabs g == g) by (apply Qabs_pos; lra).
    rewrite Hn, Hgg. split; lra.
  - intros Hg1 Hg2.
    assert (Hn : Qabs net == net) by (apply Qabs_pos; lra).
    assert (Hgg : Qabs g == g) by (apply Qabs_pos; lra).
    rewrite Hn, Hgg. intros [_ Hgt]. lra.
Qed.

(** ** The further statements on the sample inputs *)

Lemma fee_match_candidate_intro `{SemiSet nat C, !RelDecision (∈@{C})}
    (df_b : DataFrame) (mb : C) (row_l : Row) (c : nat * Row) :
  df_b !! c.1 = Some c.2 → (c.1 ∉ mb) →
  abs_amt c.2 < abs_amt row_l → abs_amt c.2 > abs_amt row_l * 0.96 →
  within_5_days row_l c →
  fee_match_candidate df_b mb row_l c.
Proof. intros. split; [by apply elem_of_fee_candidates|done]. Qed.

Lemma mixed_entries :
  reconcile (C:=gset nat) mixed_ledger mixed_bank
  = [ exact_entry 1 edge_bank 0 edge_ledger;
      fee_entry 2 net_bank 1 gross_ledger;
      unmatched_bank_entry (0%nat, mkRow 20108 "MIDJOURNEY SUBSCRIP CA" (-30.00));
      unmatched_ledger_entry
        (2%nat, mkRow 20116 "Payment to Contractor (Check #404)" 1500.00) ].
Proof. vm_compute. reflexivity. Qed.

Lemma passes_only_extend_witness :
  extends (initial (C:=gset nat))
    (exact_match_pass mixed_ledger mixed_bank initial)
  ∧ extends (initial (C:=gset nat))
      (fee_match_pass mixed_ledger mixed_bank initial)
  ∧ extends (initial (C:=gset nat))
      (fee_match_pass mixed_ledger mixed_bank
         (exact_match_pass mixed_ledger mixed_bank initial)).
Proof.
  exact (passes_only_extend (C:=gset nat) mixed_ledger mixed_bank initial).
Defined.

Lemma fee_pass_binds_first_candidate_witness :
  let st' := fee_row [net_bank] (initial (C:=gset nat)) (0%nat, gross_ledger) in
  (0%nat ∉ matched_l (initial (C:=gset nat)))
  ∧ fee_match_candidate [net_bank] (matched_b (initial (C:=gset nat)))
      gross_ledger (0%nat, net_bank)
  ∧ matches st' = [fee_entry 0 net_bank 0 gross_ledger]
  ∧ Match_Quality (fields (fee_entry 0 net_bank 0 gross_ledger))
    = "Partial Match (Fee)"
  ∧ (∀ i, i ∈ matched_l st' ↔ i = 0%nat ∨ i ∈ matched_l (initial (C:=gset nat)))
  ∧ (∀ j, j ∈ matched_b st' ↔ j = 0%nat ∨ j ∈ matched_b (initial (C:=gset nat))).
Proof.
  intros st'.
  assert (Hl : 0%nat ∉ matched_l (initial (C:=gset nat))) by by_computation.
  assert (Hc : fee_match_candidate [net_bank]
                 (matched_b (initial (C:=gset nat))) gross_ledger (0%nat, net_bank)).
  { apply fee_match_candidate_intro; [reflexivity|by_computation..]. }
  assert (Hmin : ∀ j r, (j < 0)%nat →
                 ¬ fee_match_candidate [net_bank]
                     (matched_b (initial (C:=gset nat))) gross_ledger (j, r))
    by (intros j r Hj; lia).
  split; [exact Hl|]. split; [exact Hc|].
  exact (proj2 (proj2 (proj2 (proj2 (fee_pass_binds_first_candidate (C:=gset nat)
           [] [net_bank] initial 0 gross_ledger)))) Hl 0%nat net_bank Hc Hmin).
Defined.

Lemma reported_matches_within_tolerance_witness :
  let e := exact_entry 1 edge_bank 0 edge_ledger in
  e ∈ reconcile (C:=gset nat) mixed_ledger mixed_bank
  ∧ Match_Quality (fields e) = "Exact Match"
  ∧ ∃ idx_b row_b idx_l row_l,
      e = exact_entry idx_b row_b idx_l row_l
      ∧ mixed_bank !! idx_b = Some row_b ∧ mixed_ledger !! idx_l = Some row_l
      ∧ Qabs (abs_amt row_l - abs_amt row_b)
        <= 0.0101 + 0.0000101 * abs_amt row_l
      ∧ (Z.abs (std_date row_b - std_date row_l) ≤ 5)%Z.
Proof.
  intros e.
  assert (Hin : e ∈ reconcile (C:=gset nat) mixed_ledger mixed_bank)
    by (rewrite mixed_entries; left).
  assert (Hq : Match_Quality (fields e) = "Exact Match") by reflexivity.
  split; [exact Hin|]. split; [exact Hq|].
  exact (proj1 (reported_matches_within_tolerance (C:=gset nat)
                  mixed_ledger mixed_bank e Hin) Hq).
Defined.

Lemma leftovers_cannot_match_witness :
  unmatched_ledger_entry (0%nat, stray_ledger)
    ∈ reconcile (C:=gset nat) [stray_ledger] [stray_bank]
  ∧ unmatched_bank_entry (0%nat, stray_bank)
      ∈ reconcile (C:=gset nat) [stray_ledger] [stray_bank]
  ∧ (Z.abs (std_date stray_bank - std_date stray_ledger) ≤ 5)%Z
  ∧ ¬ (Qabs (abs_amt stray_ledger - abs_amt stray_bank)
       <= 0.0099 + 0.0000099 * abs_amt stray_ledger)
  ∧ ¬ (0.9601 * abs_amt stray_ledger <= abs_amt stray_bank
       ∧ abs_amt stray_bank <= 0.9999 * abs_amt stray_ledger).
Proof.
  assert (Hrun : reconcile (C:=gset nat) [stray_ledger] [stray_bank]
                 = [unmatched_bank_entry (0%nat, stray_bank);
                    unmatched_ledger_entry (0%nat, stray_ledger)])
    by (vm_compute; reflexivity).
  assert (Hl : unmatched_ledger_entry (0%nat, stray_ledger)
                 ∈ reconcile (C:=gset nat) [stray_ledger] [stray_bank])
    by (rewrite Hrun; right; left).
  assert (Hb : unmatched_bank_entry (0%nat, stray_bank)
                 ∈ reconcile (C:=gset nat) [stray_ledger] [stray_bank])
    by (rewrite Hrun; left).
  assert (Hd : (Z.abs (std_date stray_bank - std_date stray_ledger) ≤ 5)%Z)
    by by_computation.
  split; [exact Hl|]. split; [exact Hb|]. split; [exact Hd|].
  exact (leftovers_cannot_match (C:=gset nat) [stray_ledger] [stray_bank]
           0 stray_ledger 0 stray_bank Hl Hb Hd).
Defined.

Lemma entries_in_pass_order_witness :
  ∃ exacts fees banks ledgers,
    reconcile (C:=gset nat) mixed_ledger mixed_bank
    = exacts ++ fees ++ banks ++ ledgers
    ∧ Forall (λ e, Match_Quality (fields e) = "Exact Match") exacts
    ∧ Forall (λ e, Match_Quality (fields e) = "Partial Match (Fee)") fees
    ∧ Forall (λ e, Match_Quality (fields e) = "Unmatched Bank") banks
    ∧ Forall (λ e, Match_Quality (fields e) = "Unmatched Ledger") ledgers
    ∧ ledger_ids exacts `sublist_of` seq 0 (length mixed_ledger)
    ∧ ledger_ids fees `sublist_of` seq 0 (length mixed_ledger).
Proof.
  exact (entries_in_pass_order (C:=gset nat) mixed_ledger mixed_bank).
Defined.

Lemma report_row_count_witness :
  let rows := fields <$> reconcile (C:=gset nat) B_ledger B_bank in
  report (execute_reconciliation (gset nat) sample_files
            "temp_norm_ledger.csv" "temp_norm_bank.csv") = Some rows
  ∧ ∃ df_l df_b,
      read_csv sample_files "temp_norm_ledger.csv" = Frame df_l
      ∧ read_csv sample_files "temp_norm_bank.csv" = Frame df_b
      ∧ (length rows + length (filter is_match rows)
         = length df_l + length df_b)%nat
      ∧ (length df_l ≤ length rows)%nat ∧ (length df_b ≤ length rows)%nat
      ∧ returned (execute_reconciliation (gset nat) sample_files
                    "temp_norm_ledger.csv" "temp_norm_bank.csv")
        = "SUCCESS: Report generated at Reconciliation_Report.xlsx with "
          +:+ pretty (length rows) +:+ " rows.".
Proof.
  intros rows.
  assert (Hrun : report (execute_reconciliation (gset nat) sample_files
                   "temp_norm_ledger.csv" "temp_norm_bank.csv") = Some rows)
    by (vm_compute; reflexivity).
  split; [exact Hrun|].
  exact (report_row_count (C:=gset nat) sample_files _ _ rows Hrun).
Defined.

Lemma aligned_files_match_row_by_row_witness :
  Forall2 (λ row_l row_b,
             Qabs (abs_amt row_l - abs_amt row_b)
               <= 0.0099 + 0.0000099 * abs_amt row_l
             ∧ (Z.abs (std_date row_b - std_date row_l) ≤ 5)%Z)
          (edge_ledger :: A_ledger) (edge_bank :: A_bank)
  ∧ reconcile (C:=gset nat) (edge_ledger :: A_ledger) (edge_bank :: A_bank)
    = diagonal (edge_ledger :: A_ledger) (edge_bank :: A_bank).
Proof.
  assert (Hall : Forall2 (λ row_l row_b,
             Qabs (abs_amt row_l - abs_amt row_b)
               <= 0.0099 + 0.0000099 * abs_amt row_l
             ∧ (Z.abs (std_date row_b - std_date row_l) ≤ 5)%Z)
          (edge_ledger :: A_ledger) (edge_bank :: A_bank)).
  { repeat constructor; by_computation. }
  split; [exact Hall|].
  exact (aligned_files_match_row_by_row (C:=gset nat) _ _ Hall).
Defined.

Lemma signs_do_not_matter_witness :
  keeps_unsigned negate ∧ keeps_unsigned id
  ∧ unsigned_entry <$> reconcile (C:=gset nat) (negate <$> mixed_ledger)
                                  (id <$> mixed_bank)
    = unsigned_entry <$> reconcile (C:=gset nat) mixed_ledger mixed_bank.
Proof.
  split; [exact negate_keeps_unsigned|]. split; [exact id_keeps_unsigned|].
  exact (signs_do_not_matter (C:=gset nat) negate id
           negate_keeps_unsigned id_keeps_unsigned mixed_ledger mixed_bank).
Defined.

Lemma fee_difference_bounds_witness :
  let e := fee_entry 2 net_bank 1 gross_ledger in
  e ∈ reconcile (C:=gset nat) mixed_ledger mixed_bank
  ∧ Match_Quality (fields e) = "Partial Match (Fee)"
  ∧ ∃ idx_b row_b idx_l row_l difference,
      of_bank e = Some idx_b ∧ of_ledger e = Some idx_l
      ∧ mixed_bank !! idx_b = Some row_b ∧ mixed_ledger !! idx_l = Some row_l
      ∧ Difference (fields e) = Some difference
      ∧ Qabs (difference - (abs_amt row_b - abs_amt row_l)) <= 0.005
      ∧ - (0.04 * abs_amt row_l) - 0.005 <= difference
      ∧ difference <= 0.
Proof.
  intros e.
  assert (Hin : e ∈ reconcile (C:=gset nat) mixed_ledger mixed_bank)
    by (rewrite mixed_entries; right; left).
  assert (Hq : Match_Quality (fields e) = "Partial Match (Fee)") by reflexivity.
  split; [exact Hin|]. split; [exact Hq|].
  exact (fee_difference_bounds (C:=gset nat) mixed_ledger mixed_bank e Hin Hq).
Defined.

Lemma first_fit_depends_on_bank_order_witness :
  let l_late := mkRow (20098 + 10) "Invoice 12" 100.00 in
  let l_early := mkRow 20098 "Invoice 11" 100.00 in
  let b_near := mkRow (20098 + 5) "ACH CREDIT" 100.00 in
  let b_far := mkRow (20098 + 12) "ACH CREDIT" 100.00 in
  reconcile (C:=gset nat) [l_late; l_early] [b_near; b_far]
  = [ exact_entry 0 b_near 0 l_late;
      unmatched_bank_entry (1%nat, b_far);
      unmatched_ledger_entry (1%nat, l_early) ]
  ∧ reconcile (C:=gset nat) [l_late; l_early] [b_far; b_near]
    = [ exact_entry 0 b_far 0 l_late; exact_entry 1 b_near 1 l_early ].
Proof.
  exact (first_fit_depends_on_bank_order (C:=gset nat) 100.00 20098
           "Invoice 12" "Invoice 11" "ACH CREDIT" "ACH CREDIT").
Defined.

Lemma clearing_date_is_working_day_witness :
  let cleared := get_business_day_lag 20102 4 in
  (0 ≤ weekday cleared ≤ 4)%Z
  ∧ (20102 + 4 ≤ cleared ≤ 20102 + 4 + 2)%Z
  ∧ ((weekday (20102 + 4) ≤ 4)%Z → cleared = (20102 + 4)%Z)
  ∧ ((5 ≤ weekday (20102 + 4))%Z →
     weekday cleared = 0%Z ∧ (20102 + 4 < cleared)%Z).
Proof. exact (clearing_date_is_working_day 20102 4). Defined.

Lemma clearing_lag_and_date_window_witness :
  (1 ≤ 4 ≤ 4)%Z
  ∧ std_date monday_bank = get_business_day_lag (std_date tuesday_ledger) 4
  ∧ (1 ≤ std_date monday_bank - std_date tuesday_ledger ≤ 6)%Z
  ∧ (within_5_days tuesday_ledger (0%nat, monday_bank)
     ↔ ¬ (4%Z = 4%Z ∧ weekday (std_date tuesday_ledger) = 1%Z)).
Proof.
  assert (Hlag : (1 ≤ 4 ≤ 4)%Z) by lia.
  assert (Hb : std_date monday_bank
               = get_business_day_lag (std_date tuesday_ledger) 4)
    by reflexivity.
  split; [exact Hlag|]. split; [exact Hb|].
  exact (clearing_lag_and_date_window tuesday_ledger monday_bank 4 0 Hlag Hb).
Defined.

Lemma stripe_net_and_fee_window_witness :
  let row_l := mkRow 20098 "Client Invoice #1001 (Stripe)" 1250.00 in
  let row_b := mkRow 20100 "STRIPE PAYOUT TRANSFER 8823" 1213.45 in
  std_amt row_b = net_deposit (std_amt row_l)
  ∧ 27.73 <= std_amt row_l
  ∧ abs_amt row_b < abs_amt row_l ∧ abs_amt row_b > abs_amt row_l * 0.96.
Proof.
  intros row_l row_b.
  assert (Hb : std_amt row_b = net_deposit (std_amt row_l))
    by (vm_compute; reflexivity).
  assert (Hg : 27.73 <= std_amt row_l) by by_computation.
  split; [exact Hb|]. split; [exact Hg|].
  exact (proj1 (stripe_net_and_fee_window row_l row_b Hb) Hg).
Defined.

(** ** Runs in binary64 *)

Section binary64_runs.
Import PrimFloat.
#[local] Set Warnings "-inexact-float".
Local Open Scope float_scope.

(** Where the arithmetic of the source departs from exact arithmetic:
    4000.05 - 4000.00 is a little more than 0.05, the tolerance for a
    ledger amount of 4000.00; 199.988 is a little more than 0.012 away from
    200.00; 96.025 - 100.00 is a little above -3.975 and rounds to -3.97. *)
Example binary64_edges :
  Binary64.reconcile [Binary64.mkRow 20098 "Rent" 4000.00]
                     [Binary64.mkRow 20098 "RENT ACH" 4000.05]
  = [ Binary64.unmatched_bank_dict (Binary64.mkRow 20098 "RENT ACH" 4000.05);
      Binary64.unmatched_ledger_dict (Binary64.mkRow 20098 "Rent" 4000.00) ]
  ∧ Binary64.Match_Quality
      <$> Binary64.reconcile [Binary64.mkRow 20098 "Fees" 200.00]
                             [Binary64.mkRow 20098 "FEES" 199.988]
    = ["Partial Match (Fee)"]
  ∧ Binary64.round (96.025 - 100.00) 2 = -3.97
  ∧ Binary64.net_deposit 35.00 = 33.69
  ∧ Binary64.net_deposit 1250.00 = 1213.45.
Proof. vm_compute. repeat split; reflexivity. Qed.

(** C2 on the code: a bank amount 0.011 away from a ledger amount of
    1000.00, and one 10.00 away from a ledger amount of 1000000.00, are both
    more than 0.01 away and are both reported as "Exact Match" with
    difference 0: [np.isclose] adds its default relative tolerance, 0.00001
    times the ledger amount, to the [atol] of line 54. Exact arithmetic
    gives the same report. *)
Theorem exact_match_beyond_a_cent :
  (0.01 < Qabs (abs_amt wire_ledger - abs_amt wire_bank))%Q
  ∧ reconcile (C:=gset nat) [wire_ledger] [wire_bank]
    = [exact_entry 0 wire_bank 0 wire_ledger]
  ∧ (0.01 <? abs (1000.011 - 1000.00)) = true
  ∧ Binary64.reconcile [Binary64.mkRow 20098 "Wire out" 1000.00]
                       [Binary64.mkRow 20098 "WIRE 7731" (-1000.011)]
    = [ {| Binary64.Match_Quality := "Exact Match";
           Binary64.Bank_Date := Some 20098%Z;
           Binary64.Bank_Desc := Some "WIRE 7731";
           Binary64.Bank_Amt := Some (-1000.011);
           Binary64.Ledger_Date := Some 20098%Z;
           Binary64.Ledger_Desc := Some "Wire out";
           Binary64.Ledger_Amt := Some 1000.00;
           Binary64.Difference := Some 0 |} ]
  ∧ (0.01 <? abs (1000010.00 - 1000000.00)) = true
  ∧ Binary64.reconcile [Binary64.mkRow 20098 "Plant" 1000000.00]
                       [Binary64.mkRow 20098 "PLANT WIRE" 1000010.00]
    = [ Binary64.exact_dict (Binary64.mkRow 20098 "PLANT WIRE" 1000010.00)
                            (Binary64.mkRow 20098 "Plant" 1000000.00) ]
  ∧ Binary64.Difference
      (Binary64.exact_dict (Binary64.mkRow 20098 "PLANT WIRE" 1000010.00)
                           (Binary64.mkRow 20098 "Plant" 1000000.00))
    = Some 0.
Proof. vm_compute. repeat split; reflexivity. Qed.

(** C3 on the code: 2.64 is exactly 96% of 2.75, and the run reports the
    pair as a "Partial Match (Fee)": the product 2.75 * 0.96 of line 80 is
    rounded to a float just below 2.64, so the strict comparison holds. *)
Theorem fee_match_at_96_percent :
  (2.75 * 0.96 == 2.64)%Q
  ∧ (2.75 * 0.96 <? 2.64) = true
  ∧ Binary64.reconcile [Binary64.mkRow 20098 "Parking" 2.75]
                       [Binary64.mkRow 20098 "PARKING CA" 2.64]
    = [ {| Binary64.Match_Quality := "Partial Match (Fee)";
           Binary64.Bank_Date := None;
           Binary64.Bank_Desc := Some "PARKING CA";
           Binary64.Bank_Amt := Some 2.64;
           Binary64.Ledger_Date := None;
           Binary64.Ledger_Desc := Some "Parking";
           Binary64.Ledger_Amt := Some 2.75;
           Binary64.Difference := Some (-0.11) |} ].
Proof. vm_compute. repeat split; reflexivity. Qed.
End binary64_runs.

(** ** Ledger rows of amount zero *)

Lemma zero_distance (row_l row_b : Row) :
  abs_amt row_l == 0 →
  Qabs (abs_amt row_l - abs_amt row_b) == abs_amt row_b.
Proof.
  intros Hzero. rewrite Hzero, (Qabs_Qminus 0).
  assert (Hb0 : abs_amt row_b - 0 == abs_amt row_b) by ring.
  rewrite Hb0. apply Qabs_pos, abs_amt_nonneg.
Qed.

Section zero.
Context `{SemiSet nat C, !RelDecision (∈@{C})}.

(** C10: for a ledger row whose unsigned amount is 0, the second pass
    does nothing, in any state, and no "Partial Match (Fee)" entry of a
    run names the row. The first pass treats it like any other row, so in
    the list of a run one of two things holds. Either the row is claimed
    together with a bank row of unsigned amount at most 0.01 and at most
    5 days away, and the list holds their "Exact Match" entry with
    difference 0. Or the list holds the row's "Unmatched Ledger" entry,
    and then every bank row of unsigned amount at most 0.01 and at most
    5 days away is bound to another ledger row: none of them is left
    unmatched. *)
Theorem zero_amount_ledger_row
    (df_l df_b : DataFrame) (idx_l : nat) (row_l : Row) :
  df_l !! idx_l = Some row_l →
  abs_amt row_l == 0 →
  let st := matched (C:=C) df_l df_b in
  let es := reconcile (C:=C) df_l df_b in
  (∀ st' : State C, fee_row df_b st' (idx_l, row_l) = st')
  ∧ (∀ e, e ∈ es → of_ledger e = Some idx_l →
          Match_Quality (fields e) ≠ "Partial Match (Fee)")
  ∧ ((∃ idx_b row_b,
        df_b !! idx_b = Some row_b
        ∧ abs_amt row_b <= 0.01
        ∧ (Z.abs (std_date row_b - std_date row_l) ≤ 5)%Z
        ∧ idx_l ∈ matched_l st ∧ idx_b ∈ matched_b st
        ∧ {| of_bank := Some idx_b; of_ledger := Some idx_l;
             fields :=
               {| Match_Quality := "Exact Match";
                  Bank_Date := Some (std_date row_b);
                  Bank_Desc := Some (std_desc row_b);
                  Bank_Amt := Some (std_amt row_b);
                  Ledger_Date := Some (std_date row_l);
                  Ledger_Desc := Some (std_desc row_l);
                  Ledger_Amt := Some (std_amt row_l);
                  Difference := Some 0 |} |} ∈ es)
     ∨ ((idx_l ∉ matched_l st)
        ∧ {| of_bank := None; of_ledger := Some idx_l;
             fields :=
               {| Match_Quality := "Unmatched Ledger";
                  Bank_Date := None; Bank_Desc := None; Bank_Amt := None;
                  Ledger_Date := Some (std_date row_l);
                  Ledger_Desc := Some (std_desc row_l);
                  Ledger_Amt := Some (std_amt row_l);
                  Difference := None |} |} ∈ es
        ∧ ∀ idx_b row_b,
            df_b !! idx_b = Some row_b →
            abs_amt row_b <= 0.01 →
            (Z.abs (std_date row_b - std_date row_l) ≤ 5)%Z →
            ∃ e idx_l', e ∈ es ∧ is_match (fields e)
                        ∧ of_bank e = Some idx_b
                        ∧ of_ledger e = Some idx_l' ∧ idx_l' ≠ idx_l)).
Proof.
  intros Hrow Hzero st es.
  destruct (matched_consistent (C:=C) df_l df_b) as [Hp Hl Hb Hnl Hnb].
  fold st in Hp, Hl, Hb. rewrite Forall_forall in Hp.
  assert (Hes : ∀ e, e ∈ matches st → e ∈ es).
  { intros e He. unfold es, reconcile. fold st. apply elem_of_app. by left. }
  split; [|split].
  - intros st'. unfold fee_row. destruct (decide _); [done|].
    rewrite decide_False; [done|]. lra.
  - intros e He Hidx Hq.
    pose proof (reconcile_entries (C:=C) df_l df_b) as Hall.
    rewrite Forall_forall in Hall.
    destruct (Hall e He) as [Hpair|Hres].
    + destruct Hpair as [idx_b row_b i r ? ? ? ?
                        |idx_b row_b i r Hrb Hrl Hpos Hlt Hgt Hd];
        [discriminate Hq|].
      simpl in Hidx. simplify_eq. lra.
    + destruct Hres; discriminate Hq.
  - destruct (decide (idx_l ∈ matched_l st)) as [Hin|Hin].
    + left. pose proof Hin as Hin'.
      apply Hl, list_elem_of_omap in Hin' as (e & He & Hidx).
      destruct (Hp e He) as [idx_b row_b i r Hrb Hrl Hclose Hd
                            |idx_b row_b i r Hrb Hrl Hpos Hlt Hgt Hd];
        simpl in Hidx; simplify_eq; [|lra].
      exists idx_b, row_b. split; [done|].
      apply isclose_abs_amt in Hclose.
      rewrite (zero_distance row_l row_b Hzero) in Hclose.
      split; [lra|]. split; [exact Hd|]. split; [done|]. split.
      * apply Hb, list_elem_of_omap. by eexists.
      * by apply Hes in He.
    + right. split; [done|]. split.
      * by apply (unmatched_ledger_in_reconcile df_l df_b (idx_l, row_l)).
      * intros idx_b row_b Hrb Hamt Hd.
        assert (Hclaimed : idx_b ∈ matched_b st).
        { destruct (decide (idx_b ∈ matched_b st)) as [|Hnb']; [done|].
          exfalso.
          assert (Hcur : (idx_l, row_l) ∈ iterrows df_l)
            by by apply elem_of_iterrows.
          pose proof (exact_match_pass_settles df_l df_b (initial (C:=C)) _ Hcur)
            as Hset.
          eapply exact_settled_extends in Hset;
            [|apply fee_match_pass_extends].
          apply (Hset Hin (idx_b, row_b)). split; [|done].
          assert (Hclose : Qabs (abs_amt row_l - abs_amt row_b)
                           <= 0.01 + 0.00001 * abs_amt row_l).
          { rewrite (zero_distance row_l row_b Hzero). lra. }
          apply elem_of_exact. repeat split; [done..|].
          by apply isclose_abs_amt. }
        apply Hb, list_elem_of_omap in Hclaimed as (e & He & Hidx).
        assert (Hpair := Hp e He).
        assert (∃ idx_l', of_ledger e = Some idx_l' ∧ is_match (fields e))
          as (idx_l' & Hidx' & Hq).
        { destruct Hpair; eexists; (split; [done|]); [by left|by right]. }
        exists e, idx_l'. split; [by apply Hes|].
        split; [done|]. split; [done|]. split; [done|].
        intros ->. apply Hin, Hl, list_elem_of_omap. by eexists.
Qed.
End zero.

(** ** The difference of a fee match *)

Lemma round_cents (x : Q) :
  round x 2 == inject_Z (round_half_even (x * inject_Z 100)) / 100.
Proof.
  unfold round. change (10 ^ Z.of_nat 2)%Z with 100%Z.
  change (Z.to_pos 100) with 100%positive. apply Qmake_Qdiv.
Qed.

Section fee_difference.
Context `{SemiSet nat C, !RelDecision (∈@{C})}.
Import PrimFloat.
#[local] Set Warnings "-inexact-float".

(** C6: every "Partial Match (Fee)" entry of a run names a bank row and
    a ledger row and carries a difference that is a whole number of
    cents, at most half a cent away from the bank's unsigned amount minus
    the ledger's, and at most 0. Halfway between two cents the even one
    is taken: amounts 0.125 and 0.375 apart are reported with differences
    -0.12 and -0.38, in exact arithmetic and in binary64 alike. The
    amount that is rounded is the binary64 difference: for a bank amount
    of 96.025 against a ledger amount of 100.00 it lies just above
    -3.975 and the run reports -3.97. *)
Theorem fee_difference_rounded_nonpos :
  (∀ (df_l df_b : DataFrame) (e : Entry),
     e ∈ reconcile (C:=C) df_l df_b →
     Match_Quality (fields e) = "Partial Match (Fee)" →
     ∃ idx_b row_b idx_l row_l difference cents,
       of_bank e = Some idx_b ∧ of_ledger e = Some idx_l
       ∧ df_b !! idx_b = Some row_b ∧ df_l !! idx_l = Some row_l
       ∧ Difference (fields e) = Some difference
       ∧ difference == inject_Z cents / 100
       ∧ Qabs (difference - (abs_amt row_b - abs_amt row_l)) <= 0.005
       ∧ difference <= 0)
  ∧ (Difference ∘ fields)
      <$> reconcile (C:=gset nat) [tie_ledger; tie_ledger]
                                  [tie_bank_12; tie_bank_38]
    = [Some (-0.12); Some (-0.38)]
  ∧ Binary64.Difference
      <$> Binary64.reconcile
            [ Binary64.mkRow 20098 "Invoice #12" 100.00%float;
              Binary64.mkRow 20098 "Invoice #12" 100.00%float ]
            [ Binary64.mkRow 20099 "PAYPAL TRANSFER 12" 99.875%float;
              Binary64.mkRow 20099 "PAYPAL TRANSFER 38" 99.625%float ]
    = [Some (-0.12)%float; Some (-0.38)%float]
  ∧ Binary64.Difference
      <$> Binary64.reconcile
            [Binary64.mkRow 20098 "Invoice #88" 100.00%float]
            [Binary64.mkRow 20099 "PAYPAL TRANSFER" 96.025%float]
    = [Some (-3.97)%float].
Proof.
  split; [|vm_compute; repeat split; reflexivity].
  intros df_l df_b e He Hq.
  pose proof (reconcile_entries (C:=C) df_l df_b) as Hall.
  rewrite Forall_forall in Hall.
  destruct (Hall e He) as [Hp|Hres].
  - destruct Hp as [idx_b row_b idx_l row_l ? ? ? ?
                   |idx_b row_b idx_l row_l Hb Hl Hpos Hlt Hgt Hd];
      [discriminate Hq|].
    exists idx_b, row_b, idx_l, row_l,
      (round (abs_amt row_b - abs_amt row_l) 2),
      (round_half_even ((abs_amt row_b - abs_amt row_l) * inject_Z 100)).
    pose proof (round_error (abs_amt row_b - abs_amt row_l) 2) as Herr.
    repeat split; try done.
    + apply round_cents.
    + eapply Qle_trans; [exact Herr|]. by vm_compute.
    + apply round_nonpos. lra.
  - destruct Hres; discriminate Hq.
Qed.
End fee_difference.

(** ** Running twice *)

Lemma scans_agree (row_l : Row) (cs : list (nat * Row))
    (found found' : option (nat * Row)) :
  scans row_l cs found → scans row_l cs found' → found = found'.
Proof.
  intros Hs. revert found'.
  induction Hs as [|c cs Hd|c cs found Hd Hs IH]; intros found' Hs';
    inversion Hs'; subst; try done.
  by apply IH.
Qed.

Lemma scans_list_find (row_l : Row) (cs : list (nat * Row)) :
  scans row_l cs (snd <$> list_find (within_5_days row_l) cs).
Proof.
  induction cs as [|c cs IH]; [constructor|]. simpl.
  destruct (decide (within_5_days row_l c)) as [Hd|Hd]; [by constructor|].
  apply scans_next; [done|].
  by destruct (list_find (within_5_days row_l) cs) as [[k c']|].
Qed.

Lemma loops_foldl {S A : Type} (turn : S → A → S → Prop) (f : S → A → S)
    (st : S) (xs : list A) :
  (∀ st x, turn st x (f st x)) → loops turn st xs (foldl f st xs).
Proof.
  intros Hf. revert st.
  induction xs as [|x xs IH]; intros st; [constructor|].
  simpl. econstructor; [apply Hf|apply IH].
Qed.

Lemma loops_agree {S1 S2 A : Type} (R : S1 → S2 → Prop)
    (turn1 : S1 → A → S1 → Prop) (turn2 : S2 → A → S2 → Prop)
    (xs : list A) (st1 st1' : S1) (st2 st2' : S2) :
  (∀ a1 a2 x a1' a2', R a1 a2 → turn1 a1 x a1' → turn2 a2 x a2' → R a1' a2') →
  R st1 st2 → loops turn1 st1 xs st1' → loops turn2 st2 xs st2' → R st1' st2'.
Proof.
  intros Hturn HR Hl1. revert st2 st2' HR.
  induction Hl1 as [st|st x st' xs st'' Ht1 Hl1 IH]; intros st2 st2' HR Hl2;
    inversion Hl2; subst; [done|].
  eapply IH; [|done]. by eapply Hturn.
Qed.

(** One run: the function. *)
Section one_run.
Context `{SemiSet nat C, !RelDecision (∈@{C})}.

Lemma binds_union (st : State C) (idx_b idx_l : nat) (e : Entry) :
  binds st idx_b idx_l e
    {| matches := matches st ++ [e];
       matched_l := {[ idx_l ]} ∪ matched_l st;
       matched_b := {[ idx_b ]} ∪ matched_b st |}.
Proof.
  split; [done|]. split; intros k; simpl;
    by rewrite elem_of_union, elem_of_singleton.
Qed.

Lemma exact_turn_exact_row (df_b : DataFrame) (st : State C) (cur : nat * Row) :
  exact_turn df_b st cur (exact_row df_b st cur).
Proof.
  destruct cur as [idx_l row_l]. unfold exact_row.
  destruct (decide (idx_l ∈ matched_l st)) as [Hin|Hin]; [by constructor|].
  pose proof (scans_list_find row_l (exact df_b (matched_b st) row_l)) as Hs.
  destruct (list_find _ _) as [[k [idx_b row_b]]|]; simpl in Hs.
  - eapply exact_turn_break; [done|exact Hs|apply binds_union].
  - by apply exact_turn_end.
Qed.

Lemma fee_turn_fee_row (df_b : DataFrame) (st : State C) (cur : nat * Row) :
  fee_turn df_b st cur (fee_row df_b st cur).
Proof.
  destruct cur as [idx_l row_l]. unfold fee_row.
  destruct (decide (idx_l ∈ matched_l st)) as [Hin|Hin]; [by constructor|].
  destruct (decide (abs_amt row_l > 0)) as [Hpos|Hpos];
    [|by apply fee_turn_zero].
  pose proof (scans_list_find row_l
                (fee_candidates df_b (matched_b st) row_l)) as Hs.
  destruct (list_find _ _) as [[k [idx_b row_b]]|]; simpl in Hs.
  - eapply fee_turn_break; [done|done|exact Hs|apply binds_union].
  - by apply fee_turn_end.
Qed.

Lemma runs_execute_reconciliation (fs : Files) (lp bp : string) :
  runs (C:=C) fs lp bp (execute_reconciliation C fs lp bp).
Proof.
  unfold execute_reconciliation.
  destruct (read_csv fs lp) as [e|df_l] eqn:Hl; [by constructor|].
  destruct (read_csv fs bp) as [e|df_b] eqn:Hb; [by econstructor|].
  destruct df_l as [|r_l df_l]; [eapply runs_empty; eauto|].
  destruct df_b as [|r_b df_b]; [eapply runs_empty; eauto|].
  simpl orb. cbv iota.
  apply (runs_report fs lp bp (r_l :: df_l) (r_b :: df_b) initial
           (exact_match_pass (r_l :: df_l) (r_b :: df_b) initial)
           (matched (r_l :: df_l) (r_b :: df_b))); try done.
  - intros i. apply not_elem_of_empty.
  - intros j. apply not_elem_of_empty.
  - apply loops_foldl, exact_turn_exact_row.
  - apply loops_foldl, fee_turn_fee_row.
Qed.
End one_run.

(** Two runs: any two stores for the sets. *)
Section two_runs.
Context {C1 C2 : Type}.
Context `{ElemOf nat C1, !RelDecision (∈@{C1})}.
Context `{ElemOf nat C2, !RelDecision (∈@{C2})}.

Lemma binds_agree (st1 st1' : State C1) (st2 st2' : State C2)
    (idx_b idx_l : nat) (e : Entry) :
  same_state st1 st2 →
  binds st1 idx_b idx_l e st1' → binds st2 idx_b idx_l e st2' →
  same_state st1' st2'.
Proof.
  intros (Hm & Hl & Hb) (Hm1 & Hl1 & Hb1) (Hm2 & Hl2 & Hb2).
  split; [by rewrite Hm1, Hm2, Hm|].
  split; intros k.
  - by rewrite Hl1, Hl2, Hl.
  - by rewrite Hb1, Hb2, Hb.
Qed.

Lemma exact_agree (df_b : DataFrame) (mb1 : C1) (mb2 : C2) (row_l : Row) :
  (∀ j, j ∈ mb1 ↔ j ∈ mb2) → exact df_b mb1 row_l = exact df_b mb2 row_l.
Proof.
  intros Hmb. unfold exact, candidates. f_equal.
  apply list_filter_iff. intros c. by rewrite Hmb.
Qed.

Lemma fee_candidates_agree (df_b : DataFrame) (mb1 : C1) (mb2 : C2)
    (row_l : Row) :
  (∀ j, j ∈ mb1 ↔ j ∈ mb2) →
  fee_candidates df_b mb1 row_l = fee_candidates df_b mb2 row_l.
Proof.
  intros Hmb. unfold fee_candidates, candidates. f_equal.
  apply list_filter_iff. intros c. by rewrite Hmb.
Qed.

Lemma unmatched_bank_agree (df_b : DataFrame) (st1 : State C1) (st2 : State C2) :
  (∀ j, j ∈ matched_b st1 ↔ j ∈ matched_b st2) →
  unmatched_bank df_b st1 = unmatched_bank df_b st2.
Proof.
  intros Hb. unfold unmatched_bank. f_equal. apply list_filter_iff.
  intros c. by rewrite Hb.
Qed.

Lemma unmatched_ledger_agree (df_l : DataFrame) (st1 : State C1) (st2 : State C2) :
  (∀ i, i ∈ matched_l st1 ↔ i ∈ matched_l st2) →
  unmatched_ledger df_l st1 = unmatched_ledger df_l st2.
Proof.
  intros Hl. unfold unmatched_ledger. f_equal. apply list_filter_iff.
  intros c. by rewrite Hl.
Qed.

Lemma exact_turn_agree (df_b : DataFrame) (st1 st1' : State C1)
    (st2 st2' : State C2) (cur : nat * Row) :
  same_state st1 st2 →
  exact_turn df_b st1 cur st1' → exact_turn df_b st2 cur st2' →
  same_state st1' st2'.
Proof.
  intros Hst Ht1 Ht2. pose proof Hst as (Hm & Hl & Hb).
  pose proof (exact_agree df_b _ _ cur.2 Hb) as Hex.
  destruct Ht1 as [Hin1|Hin1 Hs1|idx_b row_b st1' Hin1 Hs1 Hb1];
    destruct Ht2 as [Hin2|Hin2 Hs2|idx_b' row_b' st2' Hin2 Hs2 Hb2];
    try done; try (by apply Hl in Hin1); try (by apply Hl in Hin2);
    rewrite Hex in Hs1; pose proof (scans_agree _ _ _ _ Hs1 Hs2) as Heq;
    simplify_eq.
  by eapply binds_agree.
Qed.

Lemma fee_turn_agree (df_b : DataFrame) (st1 st1' : State C1)
    (st2 st2' : State C2) (cur : nat * Row) :
  same_state st1 st2 →
  fee_turn df_b st1 cur st1' → fee_turn df_b st2 cur st2' →
  same_state st1' st2'.
Proof.
  intros Hst Ht1 Ht2. pose proof Hst as (Hm & Hl & Hb).
  pose proof (fee_candidates_agree df_b _ _ cur.2 Hb) as Hfc.
  destruct Ht1 as [Hin1|Hin1 Hz1|Hin1 Hp1 Hs1|idx_b row_b st1' Hin1 Hp1 Hs1 Hb1];
    destruct Ht2 as [Hin2|Hin2 Hz2|Hin2 Hp2 Hs2|idx_b' row_b' st2' Hin2 Hp2 Hs2 Hb2];
    try done; try (by apply Hl in Hin1); try (by apply Hl in Hin2);
    rewrite Hfc in Hs1; pose proof (scans_agree _ _ _ _ Hs1 Hs2) as Heq;
    simplify_eq.
  by eapply binds_agree.
Qed.

Lemma runs_agree (fs1 fs2 : Files) (lp1 bp1 lp2 bp2 : string)
    (o1 o2 : Outcome) :
  read_csv fs1 lp1 = read_csv fs2 lp2 →
  read_csv fs1 bp1 = read_csv fs2 bp2 →
  runs (C:=C1) fs1 lp1 bp1 o1 → runs (C:=C2) fs2 lp2 bp2 o2 → o1 = o2.
Proof.
  intros Hlp Hbp Hr1 Hr2.
  destruct Hr1 as [e Hl|df_l e Hl Hb|df_l df_b Hl Hb Hempty
                  |df_l df_b st0 st1 st2 Hl Hb Hnl Hnb Hm0 Hl0 Hb0 Hex Hfee];
    destruct Hr2 as [e' Hl'|df_l' e' Hl' Hb'|df_l' df_b' Hl' Hb' Hempty'
                    |df_l' df_b' st0' st1' st2' Hl' Hb' Hnl' Hnb' Hm0' Hl0' Hb0'
                       Hex' Hfee'];
    rewrite Hlp, Hl' in Hl; try (rewrite Hbp, Hb' in Hb);
    simplify_eq; try done;
    try (by destruct Hempty); try (by destruct Hempty').
  assert (Hs0 : same_state st0 st0').
  { split; [by rewrite Hm0, Hm0'|]. split; intros k; split; intros Hk;
      exfalso;
      first [by eapply Hl0|by eapply Hl0'|by eapply Hb0|by eapply Hb0']. }
  assert (Hs1 : same_state st1 st1').
  { eapply (loops_agree same_state); [|exact Hs0|exact Hex|exact Hex'].
    intros a1 a2 x a1' a2'. apply exact_turn_agree. }
  assert (Hs2 : same_state st2 st2').
  { eapply (loops_agree same_state); [|exact Hs1|exact Hfee|exact Hfee'].
    intros a1 a2 x a1' a2'. apply fee_turn_agree. }
  destruct Hs2 as (Hm & Hl2 & Hb2). cbv zeta.
  by rewrite Hm, (unmatched_bank_agree _ _ _ Hb2),
    (unmatched_ledger_agree _ _ _ Hl2).
Qed.
End two_runs.

Section reruns.
Context `{SemiSet nat C1, !RelDecision (∈@{C1})}.
Context `{ElemOf nat C2, !RelDecision (∈@{C2})}.

(** C8, as the code has it: the outcome is a function of the two
    sequences of rows read. A call is a run, and every run that reads
    the same two frames, the rows in the same order, leaves the same
    returned string and the same report rows in the same order, whatever
    the paths are called, whatever else the file systems hold, and
    however the two sets of claimed labels are stored. *)
Theorem same_inputs_same_outcome
    (fs1 fs2 : Files) (lp1 bp1 lp2 bp2 : string) :
  read_csv fs1 lp1 = read_csv fs2 lp2 →
  read_csv fs1 bp1 = read_csv fs2 bp2 →
  runs (C:=C1) fs1 lp1 bp1 (execute_reconciliation C1 fs1 lp1 bp1)
  ∧ ∀ o, runs (C:=C2) fs2 lp2 bp2 o →
         o = execute_reconciliation C1 fs1 lp1 bp1.
Proof.
  intros Hl Hb. split; [apply runs_execute_reconciliation|].
  intros o Ho. symmetry.
  eapply (runs_agree (C1:=C1) (C2:=C2)); [exact Hl|exact Hb| |exact Ho].
  apply runs_execute_reconciliation.
Qed.
End reruns.

Section row_order.
Import PrimFloat.

(** C8, as the specification states it, fails on the code: two folders
    with the same ledger file and the same two bank rows in two orders
    give two different reports, of 3 rows and of 2 rows. The amounts are
    all equal, so binary64 gives the same two reports. *)
Lemma row_order_counterexample :
  read_csv near_first_files "ledger.csv" = read_csv far_first_files "ledger.csv"
  ∧ (∃ df_b df_b',
       read_csv near_first_files "bank.csv" = Frame df_b
       ∧ read_csv far_first_files "bank.csv" = Frame df_b'
       ∧ df_b ≡ₚ df_b')
  ∧ execute_reconciliation (gset nat) near_first_files "ledger.csv" "bank.csv"
    = mkOutcome
        "SUCCESS: Report generated at Reconciliation_Report.xlsx with 3 rows."
        (Some [ exact_dict near_bank late_ledger;
                unmatched_bank_dict far_bank;
                unmatched_ledger_dict early_ledger ])
  ∧ execute_reconciliation (gset nat) far_first_files "ledger.csv" "bank.csv"
    = mkOutcome
        "SUCCESS: Report generated at Reconciliation_Report.xlsx with 2 rows."
        (Some [ exact_dict far_bank late_ledger;
                exact_dict near_bank early_ledger ])
  ∧ execute_reconciliation (gset nat) near_first_files "ledger.csv" "bank.csv"
    ≠ execute_reconciliation (gset nat) far_first_files "ledger.csv" "bank.csv"
  ∧ Binary64.Match_Quality
      <$> Binary64.reconcile
            [ Binary64.mkRow 20108 "Invoice 12" 100.00%float;
              Binary64.mkRow 20098 "Invoice 11" 100.00%float ]
            [ Binary64.mkRow 20103 "ACH CREDIT 11" 100.00%float;
              Binary64.mkRow 20110 "ACH CREDIT 12" 100.00%float ]
    = ["Exact Match"; "Unmatched Bank"; "Unmatched Ledger"]
  ∧ Binary64.Match_Quality
      <$> Binary64.reconcile
            [ Binary64.mkRow 20108 "Invoice 12" 100.00%float;
              Binary64.mkRow 20098 "Invoice 11" 100.00%float ]
            [ Binary64.mkRow 20110 "ACH CREDIT 12" 100.00%float;
              Binary64.mkRow 20103 "ACH CREDIT 11" 100.00%float ]
    = ["Exact Match"; "Exact Match"].
Proof.
  assert (Hnear : execute_reconciliation (gset nat) near_first_files
                    "ledger.csv" "bank.csv"
      = mkOutcome
          "SUCCESS: Report generated at Reconciliation_Report.xlsx with 3 rows."
          (Some [ exact_dict near_bank late_ledger;
                  unmatched_bank_dict far_bank;
                  unmatched_ledger_dict early_ledger ]))
    by (vm_compute; reflexivity).
  assert (Hfar : execute_reconciliation (gset nat) far_first_files
                   "ledger.csv" "bank.csv"
      = mkOutcome
          "SUCCESS: Report generated at Reconciliation_Report.xlsx with 2 rows."
          (Some [ exact_dict far_bank late_ledger;
                  exact_dict near_bank early_ledger ]))
    by (vm_compute; reflexivity).
  split; [reflexivity|]. split.
  { exists [near_bank; far_bank], [far_bank; near_bank].
    split; [reflexivity|]. split; [reflexivity|]. apply Permutation_swap. }
  split; [exact Hnear|]. split; [exact Hfar|]. split.
  { rewrite Hnear, Hfar. intros Heq. discriminate Heq. }
  split; vm_compute; reflexivity.
Qed.
End row_order.

(** ** Further statements on the sample inputs *)

Lemma fee_difference_rounded_nonpos_witness :
  let e := fee_entry 2 net_bank 1 gross_ledger in
  e ∈ reconcile (C:=gset nat) mixed_ledger mixed_bank
  ∧ Match_Quality (fields e) = "Partial Match (Fee)"
  ∧ Difference (fields e) = Some (-3.99)
  ∧ ∃ idx_b row_b idx_l row_l difference cents,
      of_bank e = Some idx_b ∧ of_ledger e = Some idx_l
      ∧ mixed_bank !! idx_b = Some row_b ∧ mixed_ledger !! idx_l = Some row_l
      ∧ Difference (fields e) = Some difference
      ∧ difference == inject_Z cents / 100
      ∧ Qabs (difference - (abs_amt row_b - abs_amt row_l)) <= 0.005
      ∧ difference <= 0.
Proof.
  intros e.
  assert (Hin : e ∈ reconcile (C:=gset nat) mixed_ledger mixed_bank)
    by (rewrite mixed_entries; right; left).
  assert (Hq : Match_Quality (fields e) = "Partial Match (Fee)") by reflexivity.
  split; [exact Hin|]. split; [exact Hq|].
  split; [vm_compute; reflexivity|].
  exact (proj1 (fee_difference_rounded_nonpos (C:=gset nat))
           mixed_ledger mixed_bank e Hin Hq).
Defined.

Lemma same_inputs_same_outcome_witness :
  read_csv sample_files "temp_norm_ledger.csv" = read_csv other_files "ledger.csv"
  ∧ read_csv sample_files "temp_norm_bank.csv" = read_csv other_files "bank.csv"
  ∧ runs (C:=listset nat) other_files "ledger.csv" "bank.csv"
      (execute_reconciliation (listset nat) other_files "ledger.csv" "bank.csv")
  ∧ execute_reconciliation (listset nat) other_files "ledger.csv" "bank.csv"
    = execute_reconciliation (gset nat) sample_files
        "temp_norm_ledger.csv" "temp_norm_bank.csv".
Proof.
  assert (Hl : read_csv sample_files "temp_norm_ledger.csv"
               = read_csv other_files "ledger.csv") by reflexivity.
  assert (Hb : read_csv sample_files "temp_norm_bank.csv"
               = read_csv other_files "bank.csv") by reflexivity.
  assert (Hrun : runs (C:=listset nat) other_files "ledger.csv" "bank.csv"
                   (execute_reconciliation (listset nat) other_files
                      "ledger.csv" "bank.csv"))
    by apply runs_execute_reconciliation.
  split; [exact Hl|]. split; [exact Hb|]. split; [exact Hrun|].
  exact (proj2 (same_inputs_same_outcome (C1:=gset nat) (C2:=listset nat)
                  sample_files other_files _ _ _ _ Hl Hb) _ Hrun).
Defined.

Lemma zero_amount_ledger_row_witness :
  let df_l := [void_ledger] in
  let df_b := [cent_bank] in
  let st := matched (C:=gset nat) df_l df_b in
  let es := reconcile (C:=gset nat) df_l df_b in
  df_l !! 0%nat = Some void_ledger
  ∧ abs_amt void_ledger == 0
  ∧ es = [exact_entry 0 cent_bank 0 void_ledger]
  ∧ (∀ st' : State (gset nat), fee_row df_b st' (0%nat, void_ledger) = st')
  ∧ (∀ e, e ∈ es → of_ledger e = Some 0%nat →
          Match_Quality (fields e) ≠ "Partial Match (Fee)")
  ∧ ((∃ idx_b row_b,
        df_b !! idx_b = Some row_b
        ∧ abs_amt row_b <= 0.01
        ∧ (Z.abs (std_date row_b - std_date void_ledger) ≤ 5)%Z
        ∧ 0%nat ∈ matched_l st ∧ idx_b ∈ matched_b st
        ∧ {| of_bank := Some idx_b; of_ledger := Some 0%nat;
             fields :=
               {| Match_Quality := "Exact Match";
                  Bank_Date := Some (std_date row_b);
                  Bank_Desc := Some (std_desc row_b);
                  Bank_Amt := Some (std_amt row_b);
                  Ledger_Date := Some (std_date void_ledger);
                  Ledger_Desc := Some (std_desc void_ledger);
                  Ledger_Amt := Some (std_amt void_ledger);
                  Difference := Some 0 |} |} ∈ es)
     ∨ ((0%nat ∉ matched_l st)
        ∧ {| of_bank := None; of_ledger := Some 0%nat;
             fields :=
               {| Match_Quality := "Unmatched Ledger";
                  Bank_Date := None; Bank_Desc := None; Bank_Amt := None;
                  Ledger_Date := Some (std_date void_ledger);
                  Ledger_Desc := Some (std_desc void_ledger);
                  Ledger_Amt := Some (std_amt void_ledger);
                  Difference := None |} |} ∈ es
        ∧ ∀ idx_b row_b,
            df_b !! idx_b = Some row_b →
            abs_amt row_b <= 0.01 →
            (Z.abs (std_date row_b - std_date void_ledger) ≤ 5)%Z →
            ∃ e idx_l', e ∈ es ∧ is_match (fields e)
                        ∧ of_bank e = Some idx_b
                        ∧ of_ledger e = Some idx_l' ∧ idx_l' ≠ 0%nat)).
Proof.
  intros df_l df_b st es.
  assert (Hrow : df_l !! 0%nat = Some void_ledger) by reflexivity.
  assert (Hzero : abs_amt void_ledger == 0) by reflexivity.
  split; [exact Hrow|]. split; [exact Hzero|].
  split; [vm_compute; reflexivity|].
  exact (zero_amount_ledger_row (C:=gset nat) df_l df_b 0 void_ledger
           Hrow Hzero).
Defined.
